(** * SafetySave: a shallow embedding of [safety_save.py]

    The plugin has two classes.  [SafetySavePluginAppExtension] sweeps the
    store of old sessions when the application starts;
    [SafetySavePluginViewExtension] watches one unnamed document and writes
    its text to a temporary file on a timer.

    The Python methods are embedded as computations in a state monad whose
    results are either a value or a raised exception; the state reached at
    the moment an exception is raised is kept, as in Python.  The
    collaborators of the plugin (the file system below the store root, the
    GSettings store, the GLib timeout sources, the document and its 'saved'
    signal, the logger) are modelled as plain data in that state. *)

From Stdlib Require Import ZArith NArith String Ascii List.
From stdpp Require Import base option list gmap strings.

Local Open Scope string_scope.

(** ** Exceptions and the monad of Python computations *)

Inductive exn := OSError | ValueError | AttributeError.

Inductive outcome (A : Type) :=
| Ret (a : A)
| Raise (e : exn).
Arguments Ret {A} a.
Arguments Raise {A} e.

Definition M (S A : Type) : Type := S → S * outcome A.

Definition ret {S A} (a : A) : M S A := fun s => (s, Ret a).

Definition raise {S A} (e : exn) : M S A := fun s => (s, Raise e).

Definition bind {S A B} (m : M S A) (k : A → M S B) : M S B :=
  fun s =>
    match m s with
    | (s', Ret a) => k a s'
    | (s', Raise e) => (s', Raise e)
    end.

Definition exn_eqb (a b : exn) : bool :=
  match a, b with
  | OSError, OSError | ValueError, ValueError
  | AttributeError, AttributeError => true
  | _, _ => false
  end.

(** [try: body  except e: handler] *)
Definition try_except {S A} (body : M S A) (e : exn) (handler : M S A)
  : M S A :=
  fun s =>
    match body s with
    | (s', Raise e') => if exn_eqb e e' then handler s' else (s', Raise e')
    | r => r
    end.

Definition gets {S A} (f : S → A) : M S A := fun s => (s, Ret (f s)).

Definition modify {S} (f : S → S) : M S unit := fun s => (f s, Ret tt).

(** Run a computation on a component of the state. *)
Definition zoom {S T A} (get : S → T) (set : T → S → S) (m : M T A)
  : M S A :=
  fun s => let (t, o) := m (get s) in (set t s, o).

#[global] Instance py_ret {S} : MRet (M S) := fun A => @ret S A.
#[global] Instance py_bind {S} : MBind (M S) := fun A B k m => bind m k.

(** ** The store on disk

    Only the tree below [_store_root] matters to the plugin.  The root is
    either missing or a directory; an entry of the root is a session
    directory or something else (a plain file); an entry of a session
    directory is a file with its text or something that is not a file (a
    sub-directory).  Text is kept as written: the encoding that [open]
    applies in text mode is not modelled.  A call raises [OSError] when the
    state of the store stands in its way (a missing file or directory, a
    directory where a file is expected, a directory that is not empty);
    failures that come from outside the store, such as permissions or a
    full disk, are not modelled. *)

Inductive entry :=
| File (text : string)
| Subdir.

Inductive top_entry :=
| SessionDir (files : gmap string entry)
| TopFile.

Abbreviation store := (option (gmap string top_entry)).

(** [listdir(_store_root)] *)
Definition listdir_root (st : store) : exn + list string :=
  match st with
  | None => inl OSError
  | Some root => inr (map fst (map_to_list root))
  end.

Definition session_files (st : store) (ts : string)
  : option (gmap string entry) :=
  match st with
  | Some root =>
      match root !! ts with
      | Some (SessionDir files) => Some files
      | _ => None
      end
  | None => None
  end.

(** [listdir(join(_store_root, ts))] *)
Definition listdir (st : store) (ts : string) : exn + list string :=
  match session_files st ts with
  | Some files => inr (map fst (map_to_list files))
  | None => inl OSError
  end.

(** [exists(join(_store_root, ts))] *)
Definition path_exists (st : store) (ts : string) : bool :=
  match st with
  | Some root => bool_decide (is_Some (root !! ts))
  | None => false
  end.

(** [makedirs(join(_store_root, ts))]: creates the root too when it is
    missing, and fails when the path is already there. *)
Definition makedirs (st : store) (ts : string) : exn + store :=
  match st with
  | None => inr (Some {[ ts := SessionDir ∅ ]})
  | Some root =>
      match root !! ts with
      | None => inr (Some (<[ ts := SessionDir ∅ ]> root))
      | Some _ => inl OSError
      end
  end.

(** [unlink(join(_store_root, ts, name))]: only a file can be unlinked. *)
Definition unlink (st : store) (ts name : string) : exn + store :=
  match st, session_files st ts with
  | Some root, Some files =>
      match files !! name with
      | Some (File _) =>
          inr (Some (<[ ts := SessionDir (delete name files) ]> root))
      | _ => inl OSError
      end
  | _, _ => inl OSError
  end.

(** [rmdir(join(_store_root, ts))]: only an empty directory can be removed. *)
Definition rmdir (st : store) (ts : string) : exn + store :=
  match st, session_files st ts with
  | Some root, Some files =>
      if bool_decide (files = ∅) then inr (Some (delete ts root))
      else inl OSError
  | _, _ => inl OSError
  end.

(** [with open(join(_store_root, ts, name), 'w') as f: f.write(text)]:
    the directory must be there and the name must not be a directory; the
    file is created or replaced whole. *)
Definition open_write (st : store) (ts name text : string) : exn + store :=
  match st, session_files st ts with
  | Some root, Some files =>
      match files !! name with
      | Some Subdir => inl OSError
      | _ => inr (Some (<[ ts := SessionDir (<[ name := File text ]> files) ]> root))
      end
  | _, _ => inl OSError
  end.

(** The temporary file of [name] in session [ts], when there is one. *)
Definition file_at (st : store) (ts name : string) : option entry :=
  match session_files st ts with
  | Some files => files !! name
  | None => None
  end.

(** The entry of the store root named [ts], when there is one. *)
Definition root_entry (st : store) (ts : string) : option top_entry :=
  match st with
  | Some root => root !! ts
  | None => None
  end.

(** ** The host: settings, timeout sources, logger, clock

    [settings] is the GSettings object [_gedit_settings]: every key of the
    schema has a value.  [settings_reads] records, in order, the key of
    every [get_boolean] and [get_uint] call made so far.  [sources] are the
    GLib timeout sources, by source id, each with the watcher whose bound
    method it calls and its interval in seconds.  [log] holds every call
    made on the logger [_log], before any filtering by level; [stdout] what
    [print] wrote.  [stderr] holds the exceptions that escaped a callback
    and were reported by the dispatcher of the host.  [clock_reads] counts
    the calls of [datetime.now()]. *)

Inductive level := DEBUG | INFO | WARNING | ERROR.

Inductive arg :=
| AStr (s : string)
| ANum (n : Z)
| ABool (b : bool)
| APath (ts : string) (name : option string).

Record log_record := LogRecord {
  lr_level : level;
  lr_name : option string;      (* the "[%s] " prefix of the view's logger *)
  lr_format : string;
  lr_args : list arg;
}.

Record settings := Settings {
  booleans : string → bool;
  uints : string → N;
}.

Record host := Host {
  fs : store;
  gedit_settings : settings;
  settings_reads : list string;
  sources : gmap nat (nat * N);
  next_source_id : nat;
  log : list log_record;
  stdout : list string;
  stderr : list exn;
  clock_reads : nat;
}.

Definition set_fs (v : store) (h : host) : host :=
  Host v (gedit_settings h) (settings_reads h) (sources h) (next_source_id h)
       (log h) (stdout h) (stderr h) (clock_reads h).
Definition set_gedit_settings (v : settings) (h : host) : host :=
  Host (fs h) v (settings_reads h) (sources h) (next_source_id h)
       (log h) (stdout h) (stderr h) (clock_reads h).
Definition set_settings_reads (v : list string) (h : host) : host :=
  Host (fs h) (gedit_settings h) v (sources h) (next_source_id h)
       (log h) (stdout h) (stderr h) (clock_reads h).
Definition set_sources (v : gmap nat (nat * N)) (n : nat) (h : host) : host :=
  Host (fs h) (gedit_settings h) (settings_reads h) v n
       (log h) (stdout h) (stderr h) (clock_reads h).
Definition set_log (v : list log_record) (h : host) : host :=
  Host (fs h) (gedit_settings h) (settings_reads h) (sources h)
       (next_source_id h) v (stdout h) (stderr h) (clock_reads h).
Definition set_stdout (v : list string) (h : host) : host :=
  Host (fs h) (gedit_settings h) (settings_reads h) (sources h)
       (next_source_id h) (log h) v (stderr h) (clock_reads h).
Definition set_stderr (v : list exn) (h : host) : host :=
  Host (fs h) (gedit_settings h) (settings_reads h) (sources h)
       (next_source_id h) (log h) (stdout h) v (clock_reads h).
Definition set_clock_reads (v : nat) (h : host) : host :=
  Host (fs h) (gedit_settings h) (settings_reads h) (sources h)
       (next_source_id h) (log h) (stdout h) (stderr h) v.

(** A file-system call that changes the store, or raises. *)
Definition fs_update (f : store → exn + store) : M host unit :=
  fun h =>
    match f (fs h) with
    | inr st => (set_fs st h, Ret tt)
    | inl e => (h, Raise e)
    end.

(** A file-system call that only reads, or raises. *)
Definition fs_query {A} (f : store → exn + A) : M host A :=
  fun h =>
    match f (fs h) with
    | inr a => (h, Ret a)
    | inl e => (h, Raise e)
    end.

Definition emit (r : log_record) : M host unit :=
  modify (fun h => set_log (log h ++ [r]) h).

Definition print (line : string) : M host unit :=
  modify (fun h => set_stdout (stdout h ++ [line]) h).

(** [_gedit_settings.get_boolean(key)] *)
Definition get_boolean (key : string) : M host bool :=
  fun h => (set_settings_reads (settings_reads h ++ [key]) h,
            Ret (booleans (gedit_settings h) key)).

(** [_gedit_settings.get_uint(key)] *)
Definition get_uint (key : string) : M host N :=
  fun h => (set_settings_reads (settings_reads h ++ [key]) h,
            Ret (uints (gedit_settings h) key)).

(** [GObject.timeout_add_seconds(interval, callback)], where [callback] is a
    bound method of watcher [owner]: a fresh source id. *)
Definition timeout_add_seconds (interval : N) (owner : nat) : M host nat :=
  fun h =>
    let i := next_source_id h in
    (set_sources (<[ i := (owner, interval) ]> (sources h)) (S i) h, Ret i).

(** [GObject.source_remove(i)] *)
Definition source_remove (i : nat) : M host unit :=
  modify (fun h => set_sources (delete i (sources h)) (next_source_id h) h).

(** ** Names in order, and time

    [sorted] is Python's [sorted] on a list of names: ascending, character
    by character (names are kept as byte strings; on UTF-8 names the order
    of the bytes is the order of the code points).  A [datetime] is counted
    in microseconds on the naive local time line, a [timedelta] likewise. *)

Fixpoint insert_sorted (x : string) (l : list string) : list string :=
  match l with
  | [] => [x]
  | y :: l' => if String.leb x y then x :: l else y :: insert_sorted x l'
  end.

Definition sorted (l : list string) : list string :=
  foldr insert_sorted [] l.

Definition _MAX_STORED_AGE_S : Z := 86400 * 7 * 4.

(** [td.total_seconds() < n] for a timedelta [td] in microseconds and an
    integer [n]: the float quotient is below [n] exactly when the count of
    microseconds is below a million times [n]. *)
Definition total_seconds_lt (td n : Z) : bool := (td <? n * 1000000)%Z.

(** ** [SafetySavePluginAppExtension]

    Two library functions are taken as given: [strptime name] is
    [datetime.strptime(name, _DATETIME_FORMAT)], with [None] for a
    [ValueError]; [datetime_now k] is what the [k]-th call of
    [datetime.now()] in this process returns.  [start_timestamp] is the
    module constant [_start_timestamp], so that [_store_path] is the session
    directory of that name. *)

Section AppExtension.

Variable strptime : string → option Z.
Variable datetime_now : nat → Z.
Variable start_timestamp : string.

Definition app_log (l : level) (format : string) (args : list arg)
  : M host unit :=
  emit (LogRecord l None format args).

Definition now : M host Z :=
  fun h => (set_clock_reads (S (clock_reads h)) h,
            Ret (datetime_now (clock_reads h))).

Definition parse_timestamp (name : string) : M host Z :=
  match strptime name with
  | Some dt => mret dt
  | None => raise ValueError
  end.

(** The inner loop, lines 62-65. *)
Fixpoint unlink_each (ts : string) (filenames : list string) : M host unit :=
  match filenames with
  | [] => mret tt
  | filename :: rest =>
      app_log INFO "Removing: %s" [AStr filename];;
      fs_update (fun st => unlink st ts filename);;
      unlink_each ts rest
  end.

(** The body of the outer loop, lines 51-70. *)
Definition cleanup_subdir (timestamp_subdir : string) : M host unit :=
  dt ← parse_timestamp timestamp_subdir;
  n ← now;
  let age := (n - dt)%Z in
  if total_seconds_lt age _MAX_STORED_AGE_S then
    app_log DEBUG "[%s] is too recent: (%.2f) days"
            [AStr timestamp_subdir; ANum age]
  else
    app_log INFO "Cleaning-up temporary storage for old session: %s"
            [AStr timestamp_subdir];;
    filenames ← fs_query (fun st => listdir st timestamp_subdir);
    unlink_each timestamp_subdir filenames;;
    app_log INFO "Removing directory for session: %s"
            [APath timestamp_subdir None];;
    fs_update (fun st => rmdir st timestamp_subdir);;
    print "".

Fixpoint cleanup_each (timestamp_subdirs : list string) : M host unit :=
  match timestamp_subdirs with
  | [] => mret tt
  | timestamp_subdir :: rest =>
      cleanup_subdir timestamp_subdir;; cleanup_each rest
  end.

Definition do_cleanup : M host unit :=
  app_log DEBUG "Doing old-session cleanup." [];;
  listing ← try_except
               (l ← fs_query listdir_root; mret (Some l))
               OSError
               (app_log DEBUG "The storage path doesn't exist: %s"
                        [APath start_timestamp None];;
                mret None);
  match listing with
  | None => mret tt
  | Some timestamp_subdirs =>
      app_log DEBUG "(%d) session-backup directories found."
              [ANum (Z.of_nat (length timestamp_subdirs))];;
      cleanup_each (sorted timestamp_subdirs)
  end.

Definition app_do_activate : M host unit := do_cleanup.

Definition app_do_deactivate : M host unit := mret tt.

End AppExtension.

(** ** [SafetySavePluginViewExtension]

    A [document] is the buffer of the view, as far as the plugin observes
    it, with the handlers connected to its 'saved' signal.  A [watcher]
    holds the instance attributes of the extension; an attribute that has
    not been assigned (or was deleted with [del]) is [None], and reading it
    raises [AttributeError].  [file_path] is kept as the pair of the session
    directory and the file name that [join] puts together; the display name
    is taken to be a single path component. *)

Record document := Document {
  short_name : string;            (* get_short_name_for_display() *)
  untitled : bool;                (* is_untitled() *)
  untouched : bool;               (* is_untouched() *)
  text : string;                  (* get_text(start, end, True) *)
  saved_handlers : gset nat;
  next_handler_id : nat;
}.

Record watcher := Watcher {
  watch_state : bool;
  has_document : bool;
  enabled : option bool;
  run_interval_s : option N;
  save_timer_id : option nat;
  sig_saved : option nat;
  file_path : option (string * string);
}.

Record sys := Sys {
  the_host : host;
  self : nat;
  buffer : document;              (* view.get_buffer() *)
  obj : watcher;
}.

Definition set_host (h : host) (s : sys) : sys :=
  Sys h (self s) (buffer s) (obj s).
Definition set_buffer (d : document) (s : sys) : sys :=
  Sys (the_host s) (self s) d (obj s).
Definition set_obj (w : watcher) (s : sys) : sys :=
  Sys (the_host s) (self s) (buffer s) w.

Definition set_watch_state (v : bool) (w : watcher) : watcher :=
  Watcher v (has_document w) (enabled w) (run_interval_s w)
          (save_timer_id w) (sig_saved w) (file_path w).
Definition set_has_document (v : bool) (w : watcher) : watcher :=
  Watcher (watch_state w) v (enabled w) (run_interval_s w)
          (save_timer_id w) (sig_saved w) (file_path w).
Definition set_enabled (v : option bool) (w : watcher) : watcher :=
  Watcher (watch_state w) (has_document w) v (run_interval_s w)
          (save_timer_id w) (sig_saved w) (file_path w).
Definition set_run_interval_s (v : option N) (w : watcher) : watcher :=
  Watcher (watch_state w) (has_document w) (enabled w) v
          (save_timer_id w) (sig_saved w) (file_path w).
Definition set_save_timer_id (v : option nat) (w : watcher) : watcher :=
  Watcher (watch_state w) (has_document w) (enabled w) (run_interval_s w)
          v (sig_saved w) (file_path w).
Definition set_sig_saved (v : option nat) (w : watcher) : watcher :=
  Watcher (watch_state w) (has_document w) (enabled w) (run_interval_s w)
          (save_timer_id w) v (file_path w).
Definition set_file_path (v : option (string * string)) (w : watcher)
  : watcher :=
  Watcher (watch_state w) (has_document w) (enabled w) (run_interval_s w)
          (save_timer_id w) (sig_saved w) v.

Definition in_host {A} (m : M host A) : M sys A := zoom the_host set_host m.

Definition setattr (f : watcher → watcher) : M sys unit :=
  modify (fun s => set_obj (f (obj s)) s).

Definition getattr {A} (f : watcher → option A) : M sys A :=
  fun s =>
    match f (obj s) with
    | Some a => (s, Ret a)
    | None => (s, Raise AttributeError)
    end.

(** [self.__document] *)
Definition get_document : M sys document :=
  fun s =>
    if has_document (obj s) then (s, Ret (buffer s))
    else (s, Raise AttributeError).

(** [self.__document.connect('saved', self.__on_saved)] *)
Definition connect_saved : M sys nat :=
  fun s =>
    let d := buffer s in
    let i := next_handler_id d in
    (set_buffer (Document (short_name d) (untitled d) (untouched d) (text d)
                          ({[ i ]} ∪ saved_handlers d) (S i)) s,
     Ret i).

(** [self.__document.disconnect(i)] *)
Definition disconnect (i : nat) : M sys unit :=
  modify (fun s =>
    let d := buffer s in
    set_buffer (Document (short_name d) (untitled d) (untouched d) (text d)
                         (saved_handlers d ∖ {[ i ]}) (next_handler_id d)) s).

Section ViewExtension.

Variable start_timestamp : string.

Definition get_name : M sys string :=
  d ← get_document; mret (short_name d).

Definition view_log (l : level) (format : string) (args : list arg)
  : M sys unit :=
  name ← get_name;
  in_host (emit (LogRecord l (Some name) format args)).

Definition info := view_log INFO.
Definition debug := view_log DEBUG.
Definition error := view_log ERROR.
Definition warning := view_log WARNING.

Definition ensure_path : M sys unit :=
  present ← in_host (gets (fun h => path_exists (fs h) start_timestamp));
  if negb present then
    info "Creating temporary unsaved store path: %s"
         [APath start_timestamp None];;
    in_host (fs_update (fun st => makedirs st start_timestamp))
  else mret tt.

Definition is_enabled : M sys bool :=
  try_except
    (getattr enabled)
    AttributeError
    (b ← in_host (get_boolean "auto-save");
     setattr (set_enabled (Some b));;
     n ← in_host (get_uint "auto-save-interval");
     setattr (set_run_interval_s (Some n));;
     e ← getattr enabled;
     (if negb e then
        warning ("Plugin will not do anything because the " ++
                 "standard 'auto-save' configurable is not " ++
                 "enabled.") []
      else mret tt);;
     e ← getattr enabled;
     debug "Enabled? %s" [ABool e];;
     getattr enabled).

Definition set_schedule : M sys unit :=
  interval ← getattr run_interval_s;
  let wait_s := (interval * 60)%N in
  debug "Scheduling save for (%d) second intervals." [ANum (Z.of_N wait_s)];;
  me ← gets self;
  i ← in_host (timeout_add_seconds wait_s me);
  setattr (set_save_timer_id (Some i)).

Definition clear_schedule : M sys unit :=
  debug "Cancelling save schedule." [];;
  i ← getattr save_timer_id;
  in_host (source_remove i);;
  getattr save_timer_id;;
  setattr (set_save_timer_id None).

Definition hook_signals : M sys unit :=
  debug "Configuring 'saved' signal handler." [];;
  get_document;;
  h ← connect_saved;
  setattr (set_sig_saved (Some h)).

Definition unhook_signals : M sys unit :=
  debug "Removing 'saved' signal handler." [];;
  get_document;;
  h ← getattr sig_saved;
  disconnect h;;
  getattr sig_saved;;
  setattr (set_sig_saved None).

Definition watch_start : M sys unit :=
  setattr (set_watch_state true);;
  debug "Starting watch." [];;
  name ← get_name;
  setattr (set_file_path (Some (start_timestamp, name)));;
  hook_signals;;
  set_schedule.

Definition is_watching : M sys bool := gets (fun s => watch_state (obj s)).

Definition watch_stop : M sys unit :=
  watching ← is_watching;
  if negb watching then mret tt
  else
    setattr (set_watch_state false);;
    debug "Stopping watch." [];;
    clear_schedule;;
    unhook_signals.

Definition cleanup_temp_file : M sys unit :=
  p ← getattr file_path;
  info "Cleaning-up temporary file: %s" [APath p.1 (Some p.2)];;
  p ← getattr file_path;
  in_host (fs_update (fun st => unlink st p.1 p.2));;
  names ← in_host (fs_query (fun st => listdir st start_timestamp));
  let temp_file_count := length names in
  if Nat.ltb 0 temp_file_count then
    debug "Other temporary files still exist for this session." []
  else
    info ("No more temporary files exist for this session. " ++
          "Removing storage path: %s") [APath start_timestamp None];;
    in_host (fs_update (fun st => rmdir st start_timestamp)).

Definition on_saved : M sys unit :=
  watching ← is_watching;
  if (watching : bool) then
    watch_stop;;
    cleanup_temp_file
  else mret tt.

Definition store_unsaved_cb : M sys bool :=
  debug "Checking state of unsaved document." [];;
  d ← get_document;
  if untouched d then
    debug ("Unsaved document has not been touched and will not " ++
           "be stored/updated on disk.") [];;
    mret true
  else
    ensure_path;;
    d ← get_document;
    let text := text d in
    p ← getattr file_path;
    info "Storing unnamed file as (%d) bytes to: %s"
         [ANum (Z.of_nat (String.length text)); APath p.1 (Some p.2)];;
    p ← getattr file_path;
    in_host (fs_update (fun st => open_write st p.1 p.2 text));;
    mret true.

Definition do_activate : M sys unit :=
  setattr (set_has_document true);;
  e ← is_enabled;
  if negb e then
    warning "Plugin is not enabled." []
  else
    d ← get_document;
    if negb (untitled d) then
      debug "Document is already assigned a name. Skipping." []
    else
      watch_start.

Definition do_deactivate : M sys unit :=
  e ← is_enabled;
  if negb e then mret tt
  else watch_stop.

End ViewExtension.

(** ** The life of one view

    The host drives the extension: it activates it once, then delivers
    timeouts and 'saved' signals for as long as they are registered, and may
    deactivate it.  The user edits the buffer and may change the settings.
    An exception that escapes a callback is reported by the dispatcher and
    the host goes on; a timeout callback that raised, or returned [False],
    has its source removed. *)

Inductive event :=
| Edit (new_text : string) (still_untouched : bool)
| Tick (source : nat)
| Saved (name : string)
| Deactivate
| SettingsChanged (g : settings).

Definition fresh_watcher : watcher :=
  Watcher false false None None None None None.

Definition report (e : exn) (s : sys) : sys :=
  set_host (set_stderr (stderr (the_host s) ++ [e]) (the_host s)) s.

(** Call a signal handler or a method of the extension. *)
Definition dispatch (m : M sys unit) (s : sys) : sys :=
  match m s with
  | (s', Ret _) => s'
  | (s', Raise e) => report e s'
  end.

(** Call a timeout callback for source [i]. *)
Definition dispatch_timeout (i : nat) (m : M sys bool) (s : sys) : sys :=
  match m s with
  | (s', Ret true) => s'
  | (s', Ret false) =>
      set_host (source_remove i (the_host s')).1 s'
  | (s', Raise e) =>
      report e (set_host (source_remove i (the_host s')).1 s')
  end.

Definition edit_buffer (new_text : string) (still_untouched : bool)
  (d : document) : document :=
  Document (short_name d) (untitled d) still_untouched new_text
           (saved_handlers d) (next_handler_id d).

Definition name_buffer (name : string) (d : document) : document :=
  Document name false false (text d) (saved_handlers d) (next_handler_id d).

Section Lifecycle.

Variable start_timestamp : string.

Definition step (ev : event) (s : sys) : sys :=
  match ev with
  | Edit new_text still_untouched =>
      set_buffer (edit_buffer new_text still_untouched (buffer s)) s
  | Tick i =>
      match sources (the_host s) !! i with
      | Some (owner, _) =>
          if bool_decide (owner = self s)
          then dispatch_timeout i (store_unsaved_cb start_timestamp) s
          else s
      | None => s
      end
  | Saved name =>
      let s1 := set_buffer (name_buffer name (buffer s)) s in
      foldr (fun _ => dispatch (on_saved start_timestamp)) s1
            (elements (saved_handlers (buffer s1)))
  | Deactivate => dispatch do_deactivate s
  | SettingsChanged g => set_host (set_gedit_settings g (the_host s)) s
  end.

Definition run (evs : list event) (s : sys) : sys :=
  foldl (fun s ev => step ev s) s evs.

(** A view just created on buffer [d], before its activation. *)
Definition new_view (h : host) (me : nat) (d : document) : sys :=
  Sys h me d fresh_watcher.

Definition activate (s : sys) : sys := dispatch (do_activate start_timestamp) s.

End Lifecycle.

(** ** The process: one sweep and many views

    The views of a process share the host.  A view is known by its position
    in [views].  The process starts with no view and no timeout source. *)

Record process := Process {
  shared : host;
  views : list (document * watcher);
}.

Inductive process_event :=
| AppStart
| Open (name : string) (is_untitled is_untouched : bool) (content : string)
| At (v : nat) (ev : event).

Definition boot (st : store) (g : settings) : process :=
  Process (Host st g [] ∅ 1 [] [] [] 0) [].

Section Process.

Variable strptime : string → option Z.
Variable datetime_now : nat → Z.
Variable start_timestamp : string.

Definition process_step (ev : process_event) (p : process) : process :=
  match ev with
  | AppStart =>
      match app_do_activate strptime datetime_now start_timestamp (shared p)
      with
      | (h, Ret _) => Process h (views p)
      | (h, Raise e) => Process (set_stderr (stderr h ++ [e]) h) (views p)
      end
  | Open name is_untitled is_untouched content =>
      let d := Document name is_untitled is_untouched content ∅ 1 in
      let s := activate start_timestamp
                 (new_view (shared p) (length (views p)) d) in
      Process (the_host s) (views p ++ [(buffer s, obj s)])
  | At v ev =>
      match views p !! v with
      | Some (d, w) =>
          let s := step start_timestamp ev (Sys (shared p) v d w) in
          Process (the_host s) (<[ v := (buffer s, obj s) ]> (views p))
      | None => p
      end
  end.

Definition process_run (evs : list process_event) (p : process) : process :=
  foldl (fun p ev => process_step ev p) p evs.

End Process.

(** ** Properties of states used in the statements *)

(** What [__watch_start] leaves behind, until [__watch_stop] undoes it;
    [name] is the file name in [__file_path], the display name the buffer
    had when the watch started. *)
Definition Watching (start_timestamp name : string) (s : sys) : Prop :=
  watch_state (obj s) = true ∧
  has_document (obj s) = true ∧
  enabled (obj s) = Some true ∧
  is_Some (run_interval_s (obj s)) ∧
  is_Some (save_timer_id (obj s)) ∧
  is_Some (sig_saved (obj s)) ∧
  file_path (obj s) = Some (start_timestamp, name).

(** The timeout source of the watcher is registered with the host. *)
Definition Scheduled (s : sys) (i : nat) : Prop :=
  save_timer_id (obj s) = Some i ∧
  ∃ seconds, sources (the_host s) !! i = Some (self s, seconds).

(** Nothing stands in the way of writing [ts/name]: [ts] is missing or a
    directory, and [name] is not a directory inside it. *)
Definition storable (st : store) (ts name : string) : bool :=
  match st with
  | None => true
  | Some root =>
      match root !! ts with
      | None => true
      | Some TopFile => false
      | Some (SessionDir files) =>
          match files !! name with
          | Some Subdir => false
          | _ => true
          end
      end
  end.

(** The events of a watched document that is edited and autosaved: edits,
    and firings of source [i]. *)
Definition edit_or_tick (i : nat) (ev : event) : bool :=
  match ev with
  | Edit _ _ => true
  | Tick j => Nat.eqb i j
  | _ => false
  end.

(** The text read at the most recent tick that found the document touched,
    [last] when there is no such tick; [d] is the buffer as it stands. *)
Fixpoint text_at_last_touched_tick (evs : list event) (d : document)
  (last : option string) : option string :=
  match evs with
  | [] => last
  | Edit new_text still_untouched :: evs' =>
      text_at_last_touched_tick evs'
        (edit_buffer new_text still_untouched d) last
  | Tick _ :: evs' =>
      text_at_last_touched_tick evs' d
        (if untouched d then last else Some (text d))
  | _ :: evs' => text_at_last_touched_tick evs' d last
  end.

(** Records of the log at error level. *)
Definition at_error_level (r : log_record) : bool :=
  match lr_level r with
  | ERROR => true
  | _ => false
  end.

Definition error_records (l : list log_record) : list log_record :=
  List.filter at_error_level l.

(** [after] holds nothing that [before] did not hold: every entry of the
    root was there, every file of a session directory was there with the
    same text. *)
Definition entry_kept (e' e : top_entry) : Prop :=
  match e', e with
  | TopFile, TopFile => True
  | SessionDir files', SessionDir files => files' ⊆ files
  | _, _ => False
  end.

Definition nothing_written (before after : store) : Prop :=
  match after with
  | None => True
  | Some root' =>
      ∃ root, before = Some root ∧
        ∀ ts e', root' !! ts = Some e' →
          ∃ e, root !! ts = Some e ∧ entry_kept e' e
  end.

(** The toggle stays off whenever the settings are changed. *)
Definition toggle_off (ev : process_event) : bool :=
  match ev with
  | At _ (SettingsChanged g) => negb (booleans g "auto-save")
  | _ => true
  end.

Definition is_settings_change (ev : event) : bool :=
  match ev with
  | SettingsChanged _ => true
  | _ => false
  end.

(** A state with the settings blanked, to compare runs up to the settings
    store. *)
Definition blank_settings : settings := Settings (fun _ => false) (fun _ => 0%N).

Definition forget_settings (s : sys) : sys :=
  set_host (set_gedit_settings blank_settings (the_host s)) s.

(** A new view of the host: no source calls it yet, no handler is
    connected to its buffer. *)
Definition unknown_to_host (h : host) (me : nat) (d : document) : Prop :=
  saved_handlers d = ∅ ∧
  ∀ i owner seconds, sources h !! i = Some (owner, seconds) → owner ≠ me.

(** A session directory as the plugin leaves them: a directory that holds
    plain files only. *)
Definition plain_file (x : entry) : Prop :=
  match x with
  | File _ => True
  | Subdir => False
  end.

Definition session_directory (e : top_entry) : Prop :=
  match e with
  | SessionDir files => map_Forall (fun _ x => plain_file x) files
  | TopFile => False
  end.

(** A session directory whose name the sweep can read. *)
Definition dated_session (strptime : string → option Z)
  (ts : string) (e : top_entry) : Prop :=
  is_Some (strptime ts) ∧ session_directory e.

(** The test of line 53 for the directory [ts], with the clock read for the
    [k]-th time. *)
Definition too_recent (strptime : string → option Z)
  (datetime_now : nat → Z) (k : nat) (ts : string) : bool :=
  match strptime ts with
  | Some dt => total_seconds_lt (datetime_now k - dt) _MAX_STORED_AGE_S
  | None => false
  end.

(** The predicates of the statements can be decided on given states. *)

#[global] Instance Watching_dec ts name s : Decision (Watching ts name s).
Proof. unfold Watching. apply _. Defined.

#[global] Instance plain_file_dec x : Decision (plain_file x).
Proof. destruct x; apply _. Defined.

#[global] Instance session_directory_dec e : Decision (session_directory e).
Proof. destruct e; apply _. Defined.

#[global] Instance dated_session_dec strptime ts e :
  Decision (dated_session strptime ts e).
Proof. unfold dated_session. apply _. Defined.

(** ** Relations and invariants used in the proofs *)

(** [Keeps R m]: running [m] takes every state to an [R]-related one,
    whether it returns or raises. *)
Definition Keeps {S A} (R : relation S) (m : M S A) : Prop :=
  ∀ s, R s (m s).1.

(** A relation on hosts, seen on the states of a view. *)
Definition on_host (Rh : relation host) : relation sys :=
  fun s s' => Rh (the_host s) (the_host s').

(** Hosts with the same records at error level in their logs. *)
Definition same_errors : relation host :=
  fun h h' => error_records (log h') = error_records (log h).

(** The parts of the host that only the store, the sources and the settings
    calls change. *)
Definition same_but_log (h h' : host) : Prop :=
  fs h' = fs h ∧ gedit_settings h' = gedit_settings h ∧
  sources h' = sources h ∧ next_source_id h' = next_source_id h ∧
  stdout h' = stdout h ∧ stderr h' = stderr h ∧
  clock_reads h' = clock_reads h.

(** A view that was activated without starting to watch. *)
Definition Idle (s : sys) : Prop :=
  watch_state (obj s) = false ∧
  has_document (obj s) = true ∧
  is_Some (enabled (obj s)) ∧
  saved_handlers (buffer s) = ∅ ∧
  ∀ i owner seconds,
    sources (the_host s) !! i = Some (owner, seconds) → owner ≠ self s.

(** The store once the temporary file [ts/name] is unlinked and the session
    directory removed if that leaves it empty. *)
Definition without_temp_file (st : store) (ts name : string) : store :=
  match st with
  | Some root =>
      match root !! ts with
      | Some (SessionDir files) =>
          if bool_decide (delete name files = ∅) then Some (delete ts root)
          else Some (<[ ts := SessionDir (delete name files) ]> root)
      | _ => st
      end
  | None => st
  end.

(** [Respects R m]: from [R]-related states, [m] ends with the same outcome
    in [R]-related states. *)
Definition Respects {S A} (R : relation S) (m : M S A) : Prop :=
  ∀ s1 s2, R s1 s2 → R (m s1).1 (m s2).1 ∧ (m s1).2 = (m s2).2.

(** Two states of a view that differ at most in the settings store, and in
    which the enabled check has been made. *)
Definition alike (s1 s2 : sys) : Prop :=
  forget_settings s1 = forget_settings s2 ∧ is_Some (enabled (obj s1)).

(** Two hosts that differ at most in the settings store. *)
Definition alike_hosts (h1 h2 : host) : Prop :=
  set_gedit_settings blank_settings h1 = set_gedit_settings blank_settings h2.

(** Hosts with the same reads of the settings store behind them. *)
Definition same_reads : relation host :=
  fun h h' => settings_reads h' = settings_reads h.

(** What the sweep keeps of the host: the settings, the sources, and a
    store to which nothing was added. *)
Definition swept : relation host :=
  fun h h' =>
    gedit_settings h' = gedit_settings h ∧ sources h' = sources h ∧
    nothing_written (fs h) (fs h').

(** A view of a process whose enabled check found the toggle off. *)
Definition idle_view (vw : document * watcher) : Prop :=
  watch_state vw.2 = false ∧ has_document vw.2 = true ∧
  enabled vw.2 = Some false ∧ saved_handlers vw.1 = ∅.

(** A process with the toggle off and nothing registered. *)
Definition all_disabled (p : process) : Prop :=
  booleans (gedit_settings (shared p)) "auto-save" = false ∧
  sources (shared p) = ∅ ∧
  Forall idle_view (views p).

Definition is_app_start (ev : process_event) : bool :=
  match ev with
  | AppStart => true
  | _ => false
  end.

(** What a watcher whose [__file_path] is [p] may do to the store, the
    session directory being [ts]: the entries of the root other than [ts]
    stay as they are when [p] lies in [ts], and no file other than [p] is
    created, changed or removed. *)
Definition confined (ts : string) (p : option (string * string))
  : relation store :=
  fun st st' =>
    ((∀ q, p = Some q → q.1 = ts) →
     ∀ ts', ts' ≠ ts → root_entry st' ts' = root_entry st ts') ∧
    (∀ ts' name', p ≠ Some (ts', name') →
       file_at st' ts' name' = file_at st ts' name').

(** States of a view between which [__file_path] is the same and the store
    changed as [confined] allows. *)
Definition in_session (ts : string) : relation sys :=
  fun s s' =>
    file_path (obj s') = file_path (obj s) ∧
    confined ts (file_path (obj s)) (fs (the_host s)) (fs (the_host s')).

(** States of the same view. *)
Definition same_self : relation sys := fun s s' => self s' = self s.

(** The session directory of a watcher that started from a store without
    it: not there yet, or holding its temporary file and nothing else. *)
Definition own_session (ts name : string) (st : store) : Prop :=
  root_entry st ts = None ∨
  ∃ t, root_entry st ts = Some (SessionDir {[ name := File t ]}).

(** Hosts whose stores hold the same entries under every name but [ts]. *)
Definition elsewhere (ts : string) : relation host :=
  fun h h' =>
    ∀ ts', ts' ≠ ts → root_entry (fs h') ts' = root_entry (fs h) ts'.

(** Hosts with the same count of clock readings. *)
Definition same_clock : relation host :=
  fun h h' => clock_reads h' = clock_reads h.

(** Outside the session directory [ts], [after] holds nothing that [before]
    did not hold. *)
Definition outside_kept (ts : string) : relation store :=
  fun before after =>
    ∀ ts' e', ts' ≠ ts → root_entry after ts' = Some e' →
      ∃ e, root_entry before ts' = Some e ∧ entry_kept e' e.

(** The temporary files of the views of a process lie in its session
    directory. *)
Definition paths_in_session (ts : string) (p : process) : Prop :=
  Forall (fun vw : document * watcher =>
            ∀ q, file_path vw.2 = Some q → q.1 = ts) (views p).

(** ** Timestamps as the plugin writes them

    [strptime_written] is [datetime.strptime] with [_DATETIME_FORMAT] on the
    names that [strftime] writes with that format: four digits of year, two
    each of month and day, a dash, two each of hour, minute and second.  The
    result is the count of microseconds since the start of year 1, through
    the proleptic Gregorian ordinal of the day. *)

Definition digit (c : ascii) : option Z :=
  let n := Z.of_N (N_of_ascii c) in
  if ((48 <=? n) && (n <=? 57))%Z then Some (n - 48)%Z else None.

Fixpoint number (s : string) (acc : Z) : option Z :=
  match s with
  | EmptyString => Some acc
  | String c s' =>
      match digit c with
      | Some d => number s' (acc * 10 + d)%Z
      | None => None
      end
  end.

Definition is_leap (y : Z) : bool :=
  ((y mod 4 =? 0) && (negb (y mod 100 =? 0) || (y mod 400 =? 0)))%Z.

Definition days_in_month (y m : Z) : Z :=
  if (m =? 2)%Z then (if is_leap y then 29 else 28)%Z
  else if ((m =? 4) || (m =? 6) || (m =? 9) || (m =? 11))%Z then 30%Z
  else 31%Z.

Definition days_before_year (y : Z) : Z :=
  ((y - 1) * 365 + (y - 1) / 4 - (y - 1) / 100 + (y - 1) / 400)%Z.

Definition days_before_month (y m : Z) : Z :=
  foldr (fun k acc => (days_in_month y (Z.of_nat k) + acc)%Z) 0%Z
        (seq 1 (Z.to_nat m - 1)).

Definition microseconds (y m d hh mm ss : Z) : Z :=
  (((days_before_year y + days_before_month y m + d) * 86400
    + hh * 3600 + mm * 60 + ss) * 1000000)%Z.

Definition strptime_written (name : string) : option Z :=
  if negb (Nat.eqb (String.length name) 15) then None
  else if negb (String.eqb (String.substring 8 1 name) "-") then None
  else
    y ← number (String.substring 0 4 name) 0%Z;
    m ← number (String.substring 4 2 name) 0%Z;
    d ← number (String.substring 6 2 name) 0%Z;
    hh ← number (String.substring 9 2 name) 0%Z;
    mm ← number (String.substring 11 2 name) 0%Z;
    ss ← number (String.substring 13 2 name) 0%Z;
    if ((1 <=? y) && (1 <=? m) && (m <=? 12) && (1 <=? d)
        && (d <=? days_in_month y m) && (hh <=? 23) && (mm <=? 59)
        && (ss <=? 59))%Z
    then Some (microseconds y m d hh mm ss)
    else None.

(** ** Sample states *)

Module Sample.

Definition session : string := "20240301-120000".
Definition doc_name : string := "Untitled Document 1".

Definition autosave_on : settings :=
  Settings (fun key => String.eqb key "auto-save") (fun _ => 10%N).
Definition autosave_off : settings :=
  Settings (fun _ => false) (fun _ => 10%N).

Definition host_with (st : store) (g : settings) : host :=
  Host st g [] ∅ 1 [] [] [] 0.

Definition unnamed : document := Document doc_name true true "" ∅ 1.
Definition named : document := Document "notes.txt" false false "kept" ∅ 1.

(** A view just activated on an unnamed buffer, nothing on disk. *)
Definition watched : sys :=
  activate session (new_view (host_with None autosave_on) 0 unnamed).

(** The same after an edit and a tick: the temporary file is there. *)
Definition stored : sys :=
  run session [Edit "first draft" false; Tick 1] watched.

(** A directory sits where the temporary file should go. *)
Definition blocked_store : store :=
  Some {[ session := SessionDir {[ doc_name := Subdir ]} ]}.

Definition blocked : sys :=
  run session [Edit "first draft" false]
      (activate session (new_view (host_with blocked_store autosave_on) 0 unnamed)).

(** Three old sessions, seen on 1 March 2024 at noon: 50, 20 and 1 day
    old. *)
Definition noon : Z := microseconds 2024 3 1 12 0 0.
Definition clock (k : nat) : Z := (noon + Z.of_nat k)%Z.

Definition old_sessions : gmap string top_entry :=
  {[ "20240111-120000" := SessionDir {[ "Untitled Document 1" := File "a";
                                          "Untitled Document 2" := File "b" ]};
     "20240210-120000" := SessionDir {[ "Untitled Document 1" := File "c" ]};
     "20240229-120000" := SessionDir {[ "Untitled Document 3" := File "d" ]} ]}.

(** A store in which a desktop tool left a file of its own beside the
    sessions. *)
Definition cluttered : gmap string top_entry :=
  <[ ".directory" := TopFile ]> old_sessions.

(** A session of 50 days ago that holds a directory beside its file. *)
Definition nested : gmap string top_entry :=
  {[ "20240111-120000" := SessionDir {[ "Untitled Document 1" := File "a";
                                          "attachments" := Subdir ]};
     "20240229-120000" := SessionDir {[ "Untitled Document 3" := File "d" ]} ]}.

(** A clock that stands still at noon. *)
Definition still (k : nat) : Z := noon.

(** A watcher whose session directory already holds the file of another
    document, after a first edit. *)
Definition shared_store : store :=
  Some {[ session := SessionDir {[ "Untitled Document 2" := File "other" ]} ]}.

Definition second : sys :=
  run session [Edit "first draft" false]
      (activate session (new_view (host_with shared_store autosave_on) 0 unnamed)).

End Sample.

(** * Properties *)

(** ** Reasoning about computations *)

Ltac py_unfold :=
  cbv [store_unsaved_cb ensure_path cleanup_temp_file on_saved watch_stop
       watch_start is_watching clear_schedule set_schedule hook_signals
       unhook_signals is_enabled do_activate do_deactivate activate
       info debug warning error view_log get_name get_document getattr
       setattr in_host zoom emit modify gets mbind py_bind bind mret py_ret
       ret raise try_except fs_update fs_query get_boolean get_uint
       timeout_add_seconds source_remove connect_saved disconnect dispatch
       dispatch_timeout report new_view fresh_watcher exn_eqb].

Ltac py_run := py_unfold; simpl.

Section Keeps.

Context {S : Type} (R : relation S) `{!PreOrder R}.

Lemma keeps_ret {A} (a : A) : Keeps R (mret a : M S A).
Proof. intros s. reflexivity. Qed.

Lemma keeps_raise {A} e : Keeps R (raise e : M S A).
Proof. intros s. reflexivity. Qed.

Lemma keeps_gets {A} (f : S → A) : Keeps R (gets f).
Proof. intros s. reflexivity. Qed.

Lemma keeps_bind {A B} (m : M S A) (k : A → M S B) :
  Keeps R m → (∀ a, Keeps R (k a)) → Keeps R (m ≫= k).
Proof.
  intros Hm Hk s. specialize (Hm s).
  unfold mbind, py_bind, bind. destruct (m s) as [s1 [a|e]]; simpl in *.
  - etransitivity; [exact Hm | apply Hk].
  - exact Hm.
Qed.

Lemma keeps_try {A} (m h : M S A) e :
  Keeps R m → Keeps R h → Keeps R (try_except m e h).
Proof.
  intros Hm Hh s. specialize (Hm s). unfold try_except.
  destruct (m s) as [s1 [a|e']]; simpl in *; [exact Hm|].
  destruct (exn_eqb e e'); simpl; [|exact Hm].
  etransitivity; [exact Hm | apply Hh].
Qed.

End Keeps.

#[global] Instance on_host_preorder Rh `{!PreOrder Rh} : PreOrder (on_host Rh).
Proof.
  split.
  - intros s. unfold on_host. reflexivity.
  - intros s1 s2 s3 H12 H23. unfold on_host in *. by etransitivity.
Qed.

Ltac keeps_step :=
  lazymatch goal with
  | |- Keeps _ (_ ≫= _) =>
      apply keeps_bind; [typeclasses eauto ..| |intros ?]
  | |- Keeps _ (mret _) => apply keeps_ret; typeclasses eauto
  | |- Keeps _ (raise _) => apply keeps_raise; typeclasses eauto
  | |- Keeps _ (try_except _ _ _) =>
      apply keeps_try; [typeclasses eauto ..| |]
  | |- Keeps _ (if ?b then _ else _) => destruct b
  | |- Keeps _ (match ?x with _ => _ end) => destruct x
  end.

(** What the operations of a view keep, given what the calls on the host
    keep.  The settings store is left out: only [__is_enabled] reads it. *)
Section ViewKeeps.

Variable Rh : relation host.
Context `{!PreOrder Rh}.
Hypothesis keeps_log :
  ∀ r, at_error_level r = false → Keeps Rh (emit r).
Hypothesis keeps_fs_update : ∀ f, Keeps Rh (fs_update f).
Hypothesis keeps_timeout_add : ∀ n o, Keeps Rh (timeout_add_seconds n o).
Hypothesis keeps_source_remove : ∀ i, Keeps Rh (source_remove i).

Lemma keeps_in_host {A} (m : M host A) :
  Keeps Rh m → Keeps (on_host Rh) (in_host m).
Proof.
  intros H s. specialize (H (the_host s)).
  unfold in_host, zoom, on_host. by destruct (m (the_host s)).
Qed.

Lemma keeps_host_read {A} (f : host → A) : Keeps Rh (gets f).
Proof. intros h. reflexivity. Qed.

Lemma keeps_fs_query {A} (f : store → exn + A) : Keeps Rh (fs_query f).
Proof. intros h. unfold fs_query. destruct (f (fs h)); reflexivity. Qed.

Lemma keeps_getattr {A} (f : watcher → option A) :
  Keeps (on_host Rh) (getattr f).
Proof.
  intros s. unfold getattr, on_host. destruct (f (obj s)); reflexivity.
Qed.

Lemma keeps_setattr f : Keeps (on_host Rh) (setattr f).
Proof. intros s. unfold on_host. simpl. reflexivity. Qed.

Lemma keeps_get_document : Keeps (on_host Rh) get_document.
Proof.
  intros s. unfold get_document, on_host.
  destruct (has_document (obj s)); reflexivity.
Qed.

Lemma keeps_connect_saved : Keeps (on_host Rh) connect_saved.
Proof. intros s. unfold on_host. simpl. reflexivity. Qed.

Lemma keeps_disconnect i : Keeps (on_host Rh) (disconnect i).
Proof. intros s. unfold on_host. simpl. reflexivity. Qed.

Lemma keeps_view_log l format args :
  l ≠ ERROR → Keeps (on_host Rh) (view_log l format args).
Proof.
  intros Hl. unfold view_log, get_name. repeat keeps_step.
  - apply keeps_get_document.
  - apply keeps_in_host, keeps_log. by destruct l.
Qed.

Ltac keeps :=
  repeat keeps_step;
  try (apply keeps_view_log; discriminate);
  try (apply (keeps_gets (on_host Rh)));
  auto using keeps_in_host, keeps_host_read, keeps_fs_query, keeps_getattr,
    keeps_setattr, keeps_get_document, keeps_connect_saved, keeps_disconnect.

Lemma keeps_ensure_path ts : Keeps (on_host Rh) (ensure_path ts).
Proof. unfold ensure_path, info. keeps. Qed.

Lemma keeps_watch_start ts : Keeps (on_host Rh) (watch_start ts).
Proof.
  unfold watch_start, hook_signals, set_schedule, get_name, debug. keeps.
Qed.

Lemma keeps_watch_stop : Keeps (on_host Rh) watch_stop.
Proof.
  unfold watch_stop, is_watching, clear_schedule, unhook_signals, debug.
  keeps.
Qed.

Lemma keeps_cleanup_temp_file ts : Keeps (on_host Rh) (cleanup_temp_file ts).
Proof. unfold cleanup_temp_file, info, debug. keeps. Qed.

Lemma keeps_on_saved ts : Keeps (on_host Rh) (on_saved ts).
Proof.
  unfold on_saved, is_watching. keeps.
  - apply keeps_watch_stop.
  - apply keeps_cleanup_temp_file.
Qed.

Lemma keeps_store_unsaved_cb ts : Keeps (on_host Rh) (store_unsaved_cb ts).
Proof.
  unfold store_unsaved_cb, info, debug. keeps. apply keeps_ensure_path.
Qed.

Hypothesis keeps_get_boolean : ∀ key, Keeps Rh (get_boolean key).
Hypothesis keeps_get_uint : ∀ key, Keeps Rh (get_uint key).

Lemma keeps_is_enabled : Keeps (on_host Rh) is_enabled.
Proof. unfold is_enabled, warning, debug. keeps. Qed.

Lemma keeps_do_activate ts : Keeps (on_host Rh) (do_activate ts).
Proof.
  unfold do_activate, warning, debug. keeps.
  - apply keeps_is_enabled.
  - apply keeps_watch_start.
Qed.

Lemma keeps_do_deactivate : Keeps (on_host Rh) do_deactivate.
Proof.
  unfold do_deactivate. keeps.
  - apply keeps_is_enabled.
  - apply keeps_watch_stop.
Qed.

End ViewKeeps.

(** ** Nothing is ever logged at error level *)

#[global] Instance same_errors_preorder : PreOrder same_errors.
Proof.
  split.
  - intros h. reflexivity.
  - intros h1 h2 h3 H12 H23. unfold same_errors in *. congruence.
Qed.

Lemma same_errors_emit r :
  at_error_level r = false → Keeps same_errors (emit r).
Proof.
  intros Hr h. unfold same_errors, error_records. simpl.
  rewrite List.filter_app. simpl. rewrite Hr. apply app_nil_r.
Qed.

Lemma same_errors_log_untouched {A} (m : M host A) :
  (∀ h, log (m h).1 = log h) → Keeps same_errors m.
Proof. intros H h. unfold same_errors. by rewrite H. Qed.

Lemma same_errors_fs_update f : Keeps same_errors (fs_update f).
Proof.
  apply same_errors_log_untouched. intros h. unfold fs_update.
  by destruct (f (fs h)).
Qed.

Lemma store_unsaved_cb_logs_no_error ts s :
  error_records (log (the_host (store_unsaved_cb ts s).1))
  = error_records (log (the_host s)).
Proof.
  apply (keeps_store_unsaved_cb same_errors);
    first [done | apply same_errors_emit | apply same_errors_fs_update].
Qed.

Lemma on_saved_logs_no_error ts s :
  error_records (log (the_host (on_saved ts s).1))
  = error_records (log (the_host s)).
Proof.
  apply (keeps_on_saved same_errors);
    first [done | apply same_errors_emit | apply same_errors_fs_update].
Qed.

Lemma do_activate_logs_no_error ts s :
  error_records (log (the_host (do_activate ts s).1))
  = error_records (log (the_host s)).
Proof.
  apply (keeps_do_activate same_errors);
    first [done | apply same_errors_emit | apply same_errors_fs_update].
Qed.

Lemma do_deactivate_logs_no_error s :
  error_records (log (the_host (do_deactivate s).1))
  = error_records (log (the_host s)).
Proof.
  apply (keeps_do_deactivate same_errors);
    first [done | apply same_errors_emit | apply same_errors_fs_update].
Qed.

(** ** Running one operation at a time *)

Lemma bind_ret_eq {S A B} (m : M S A) (k : A → M S B) s s' a :
  m s = (s', Ret a) → (m ≫= k) s = k a s'.
Proof. intros H. unfold mbind, py_bind, bind. by rewrite H. Qed.

Ltac expose_setters :=
  cbv [set_host set_buffer set_obj set_fs set_gedit_settings
       set_settings_reads set_sources set_log set_stdout set_stderr
       set_clock_reads set_watch_state set_has_document set_enabled
       set_run_interval_s set_save_timer_id set_sig_saved set_file_path
       new_view fresh_watcher edit_buffer name_buffer] in * |-.

Ltac open_state s :=
  let h := fresh "h" in
  let d := fresh "d" in
  let w := fresh "w" in
  expose_setters;
  destruct s as [h me d w];
  destruct w as [w_state w_doc w_enabled w_interval w_timer w_sig w_path];
  destruct d as [d_name d_untitled d_untouched d_text d_handlers d_next];
  destruct h as [st g reads srcs next_src records out err clk];
  simpl in *;
  repeat match goal with
  | H : Watcher _ _ _ _ _ _ _ = Watcher _ _ _ _ _ _ _ |- _ =>
      injection H as ? ? ? ? ? ? ?
  | H : Host _ _ _ _ _ _ _ _ _ = Host _ _ _ _ _ _ _ _ _ |- _ =>
      injection H as ? ? ? ? ? ? ? ? ?
  end;
  simplify_eq; simpl in *; simplify_eq.

Ltac watching_fields H :=
  destruct H as (? & ? & ? & [? ?] & [? ?] & [? ?] & ?).

(** ** The enabled check *)

Lemma is_enabled_cached s b :
  enabled (obj s) = Some b → is_enabled s = (s, Ret b).
Proof. intros H. py_run. by rewrite H. Qed.

Lemma is_enabled_first s :
  enabled (obj s) = None →
  has_document (obj s) = true →
  let b := booleans (gedit_settings (the_host s)) "auto-save" in
  let n := uints (gedit_settings (the_host s)) "auto-save-interval" in
  ∃ s', is_enabled s = (s', Ret b) ∧
        obj s' = set_run_interval_s (Some n) (set_enabled (Some b) (obj s)) ∧
        buffer s' = buffer s ∧ self s' = self s ∧
        same_but_log (the_host s) (the_host s') ∧
        settings_reads (the_host s')
        = (settings_reads (the_host s)
           ++ ["auto-save"; "auto-save-interval"])%list.
Proof.
  intros Hnone Hdoc. open_state s. destruct g as [bs us]. simpl.
  destruct (bs "auto-save") eqn:Hb.
  - eexists. split; [py_run; rewrite Hb; reflexivity|].
    unfold same_but_log. simpl. repeat split. by rewrite <- app_assoc.
  - eexists. split; [py_run; rewrite Hb; reflexivity|].
    unfold same_but_log. simpl. repeat split. by rewrite <- app_assoc.
Qed.

(** ** Activation *)

Lemma activate_watching ts h v d :
  booleans (gedit_settings h) "auto-save" = true →
  untitled d = true →
  let s := activate ts (new_view h v d) in
  Watching ts (short_name d) s ∧ Scheduled s (next_source_id h) ∧
  fs (the_host s) = fs h ∧ self s = v ∧
  short_name (buffer s) = short_name d ∧
  untouched (buffer s) = untouched d ∧ text (buffer s) = text d ∧
  stderr (the_host s) = stderr h.
Proof.
  intros Hon Hun.
  destruct (is_enabled_first
              (set_obj (set_has_document true fresh_watcher)
                       (new_view h v d)))
    as (s2 & Hrun & Hobj & Hbuf & Hself & Hhost & _); [done..|].
  simpl in Hrun, Hobj, Hbuf, Hself, Hhost. rewrite Hon in Hrun, Hobj.
  unfold activate, dispatch, do_activate.
  erewrite bind_ret_eq; [|reflexivity].
  erewrite bind_ret_eq; [|exact Hrun].
  clear Hrun. destruct Hhost as (Hfs & _ & Hsrc & Hnext & _ & Herr & _).
  open_state s2.
  py_run. unfold Watching, Scheduled. simpl.
  rewrite lookup_insert_eq. naive_solver.
Qed.

Lemma activate_idle ts h v d :
  unknown_to_host h v d →
  booleans (gedit_settings h) "auto-save" = false ∨ untitled d = false →
  let s := activate ts (new_view h v d) in
  Idle s ∧ same_but_log h (the_host s) ∧ self s = v ∧
  enabled (obj s) = Some (booleans (gedit_settings h) "auto-save").
Proof.
  intros [Hnone Hsrc] Hwhy.
  destruct (is_enabled_first
              (set_obj (set_has_document true fresh_watcher)
                       (new_view h v d)))
    as (s2 & Hrun & Hobj & Hbuf & Hself & Hhost & _); [done..|].
  simpl in Hrun, Hobj, Hbuf, Hself, Hhost.
  unfold activate, dispatch, do_activate.
  erewrite bind_ret_eq; [|reflexivity].
  erewrite bind_ret_eq; [|exact Hrun].
  clear Hrun. destruct Hhost as (Hfs & Hg & Hsrcs & Hnext & Hout & Herr & Hclk).
  open_state s2.
  destruct (booleans (gedit_settings h) "auto-save") eqn:Hb.
  - destruct Hwhy as [Hoff|Hun]; [discriminate|]. subst.
    py_run. unfold Idle, same_but_log. simpl. naive_solver.
  - clear Hwhy. py_run. unfold Idle, same_but_log. simpl. naive_solver.
Qed.

Lemma do_deactivate_idle s : Idle s → do_deactivate s = (s, Ret tt).
Proof.
  intros (Hw & _ & [b Hb] & _). unfold do_deactivate.
  erewrite bind_ret_eq; [|by apply is_enabled_cached].
  destruct b; simpl; [|done].
  unfold watch_stop, is_watching.
  erewrite bind_ret_eq; [|reflexivity]. by rewrite Hw.
Qed.

Lemma step_idle ts ev s :
  Idle s →
  let s' := step ts ev s in
  Idle s' ∧ obj s' = obj s ∧ self s' = self s ∧
  fs (the_host s') = fs (the_host s) ∧
  sources (the_host s') = sources (the_host s) ∧
  next_source_id (the_host s') = next_source_id (the_host s) ∧
  stderr (the_host s') = stderr (the_host s) ∧
  settings_reads (the_host s') = settings_reads (the_host s) ∧
  log (the_host s') = log (the_host s).
Proof.
  intros Hidle. pose proof Hidle as (Hw & Hdoc & Hen & Hnone & Hsrc).
  destruct ev as [new_text still|i|name| |g]; simpl.
  - done.
  - destruct (sources (the_host s) !! i) as [[owner seconds]|] eqn:Hi; [|done].
    rewrite bool_decide_eq_false_2; [done|]. by eapply Hsrc.
  - rewrite Hnone, elements_empty. simpl. done.
  - unfold dispatch. by rewrite do_deactivate_idle.
  - done.
Qed.

Lemma run_idle ts evs s :
  Idle s →
  let s' := run ts evs s in
  Idle s' ∧ obj s' = obj s ∧ self s' = self s ∧
  fs (the_host s') = fs (the_host s) ∧
  sources (the_host s') = sources (the_host s) ∧
  next_source_id (the_host s') = next_source_id (the_host s) ∧
  stderr (the_host s') = stderr (the_host s) ∧
  settings_reads (the_host s') = settings_reads (the_host s) ∧
  log (the_host s') = log (the_host s).
Proof.
  revert s. induction evs as [|ev evs IH]; intros s Hidle; [done|].
  simpl. destruct (step_idle ts ev s Hidle) as (Hidle' & Ho & Hs & Hf & Hsr & Hn & He & Hr & Hl).
  destruct (IH _ Hidle') as (? & Ho' & Hs' & Hf' & Hsr' & Hn' & He' & Hr' & Hl').
  unfold run in *. simpl in *.
  rewrite Ho', Hs', Hf', Hsr', Hn', He', Hr', Hl'. done.
Qed.

Lemma watching_by_check ts name s :
  bool_decide (Watching ts name s) = true → Watching ts name s.
Proof. apply bool_decide_eq_true_1. Qed.

(** ** The untouched tick *)

(** C5: a tick of a watched document that reports itself untouched returns
    [True] (the schedule goes on), and changes neither the store (no file,
    no session directory) nor the sources, the buffer or the watcher; the
    host keeps the source after such a tick. *)
Theorem untouched_tick_writes_nothing ts name s :
  Watching ts name s →
  untouched (buffer s) = true →
  ∃ s', store_unsaved_cb ts s = (s', Ret true) ∧
        fs (the_host s') = fs (the_host s) ∧
        sources (the_host s') = sources (the_host s) ∧
        buffer s' = buffer s ∧ obj s' = obj s ∧
        ∀ i, Scheduled s i → step ts (Tick i) s = s'.
Proof.
  intros Hw Hu. watching_fields Hw. open_state s.
  eexists. split; [py_run; reflexivity|].
  repeat split. intros i [_ [seconds Hi]]. simpl in Hi.
  unfold step. simpl. rewrite Hi. rewrite bool_decide_eq_true_2 by done.
  py_run. reflexivity.
Qed.

Lemma untouched_tick_writes_nothing_witness :
  ∃ s', store_unsaved_cb Sample.session Sample.watched = (s', Ret true) ∧
        fs (the_host s') = None.
Proof.
  destruct (untouched_tick_writes_nothing Sample.session Sample.doc_name
              Sample.watched)
    as (s' & Hrun & Hfs & _).
  - apply watching_by_check. vm_compute. reflexivity.
  - vm_compute. reflexivity.
  - exists s'. split; [exact Hrun|]. rewrite Hfs. vm_compute. reflexivity.
Defined.

(** ** Deactivation *)

(** C4: deactivating a watcher that is Watching removes its timeout source,
    disconnects its 'saved' handler and leaves Watching, and the store is
    exactly as it was: the temporary file stays, unchanged. *)
Theorem deactivate_keeps_temp_file ts name s i hid :
  Watching ts name s →
  save_timer_id (obj s) = Some i →
  sig_saved (obj s) = Some hid →
  ∃ s', do_deactivate s = (s', Ret tt) ∧
        fs (the_host s') = fs (the_host s) ∧
        sources (the_host s') = delete i (sources (the_host s)) ∧
        saved_handlers (buffer s') = saved_handlers (buffer s) ∖ {[ hid ]} ∧
        watch_state (obj s') = false ∧
        save_timer_id (obj s') = None ∧ sig_saved (obj s') = None.
Proof.
  intros Hw Hi Hh. watching_fields Hw. open_state s.
  eexists. split; [py_run; reflexivity|]. by simpl.
Qed.

Lemma deactivate_keeps_temp_file_witness :
  ∃ s', do_deactivate Sample.stored = (s', Ret tt) ∧
        file_at (fs (the_host s')) Sample.session Sample.doc_name
        = Some (File "first draft") ∧
        sources (the_host s') = delete 1 (sources (the_host Sample.stored)).
Proof.
  destruct (deactivate_keeps_temp_file Sample.session Sample.doc_name
              Sample.stored 1 1)
    as (s' & Hrun & Hfs & Hsrc & _).
  - apply watching_by_check. vm_compute. reflexivity.
  - vm_compute. reflexivity.
  - vm_compute. reflexivity.
  - exists s'. split; [exact Hrun|]. split; [|exact Hsrc].
    rewrite Hfs. vm_compute. reflexivity.
Defined.

(** C9: a watcher that never entered Watching, because the toggle was off
    or the document already had a name when the view was activated, is not
    changed by deactivation, whatever happened to the view in between: the
    state after [do_deactivate] is the state before it, so no source is
    removed, no handler disconnected, no file touched. *)
Theorem stop_without_watching_is_noop ts h v d evs :
  unknown_to_host h v d →
  booleans (gedit_settings h) "auto-save" = false ∨ untitled d = false →
  let s := run ts evs (activate ts (new_view h v d)) in
  watch_state (obj s) = false ∧ do_deactivate s = (s, Ret tt).
Proof.
  intros Hnew Hwhy.
  destruct (activate_idle ts h v d Hnew Hwhy) as (Hidle & _).
  destruct (run_idle ts evs _ Hidle) as (Hidle' & _).
  split; [apply Hidle' | by apply do_deactivate_idle].
Qed.

Lemma stop_without_watching_is_noop_witness :
  let s := run Sample.session [Edit "x" false; Saved "y.txt"; Tick 1]
             (activate Sample.session
                (new_view (Sample.host_with None Sample.autosave_on) 0
                          Sample.named)) in
  watch_state (obj s) = false ∧ do_deactivate s = (s, Ret tt).
Proof.
  apply (stop_without_watching_is_noop Sample.session
           (Sample.host_with None Sample.autosave_on) 0 Sample.named).
  - split; [reflexivity|]. intros i owner seconds H.
    vm_compute in H. discriminate.
  - right. reflexivity.
Defined.

(** ** The sweep without a store root *)

(** C6: when the store root does not exist, the sweep returns normally and
    removes nothing: the root is still missing afterwards. *)
Theorem cleanup_without_store_root strptime datetime_now ts h :
  fs h = None →
  ∃ h', do_cleanup strptime datetime_now ts h = (h', Ret tt) ∧
        fs h' = None ∧ stderr h' = stderr h.
Proof.
  intros Hfs. destruct h; simpl in *; subst.
  eexists. split; [|split].
  - unfold do_cleanup, app_log. py_run. reflexivity.
  - reflexivity.
  - reflexivity.
Qed.

Lemma cleanup_without_store_root_witness :
  ∃ h', do_cleanup strptime_written Sample.clock Sample.session
          (Sample.host_with None Sample.autosave_on) = (h', Ret tt) ∧
        fs h' = None.
Proof.
  destruct (cleanup_without_store_root strptime_written Sample.clock
              Sample.session (Sample.host_with None Sample.autosave_on))
    as (h' & Hrun & Hfs & _).
  - reflexivity.
  - exists h'. split; [exact Hrun | exact Hfs].
Defined.

(** ** Ticks of a touched document *)

Lemma storable_after_write st ts name text st' :
  open_write st ts name text = inr st' →
  storable st' ts name = true ∧ file_at st' ts name = Some (File text).
Proof.
  unfold open_write, storable, file_at, session_files.
  destruct st as [root|]; [|done].
  destruct (root !! ts) as [[files|]|]; try done.
  destruct (files !! name) as [[t|]|]; try done; intros [= <-];
    by rewrite !lookup_insert_eq.
Qed.

Lemma write_after_ensure st ts name text :
  storable st ts name = true →
  ∃ st1 st2,
    (if path_exists st ts then st1 = st else makedirs st ts = inr st1) ∧
    open_write st1 ts name text = inr st2.
Proof.
  unfold storable, path_exists, makedirs, open_write, session_files.
  destruct st as [root|].
  - destruct (root !! ts) as [[files|]|] eqn:Hts.
    + rewrite bool_decide_eq_true_2 by eauto. intros Hst.
      eexists _, _. split; [done|]. simpl. rewrite Hts.
      by destruct (files !! name) as [[t|]|].
    + done.
    + rewrite bool_decide_eq_false_2 by (by intros [? ?]). intros _.
      eexists _, _. split; [done|]. simpl. by rewrite lookup_insert_eq, lookup_empty.
  - intros _. eexists _, _. split; [done|]. simpl.
    by rewrite lookup_singleton_eq, lookup_empty.
Qed.

Lemma tick_touched ts name s :
  Watching ts name s →
  untouched (buffer s) = false →
  storable (fs (the_host s)) ts name = true →
  ∃ s', store_unsaved_cb ts s = (s', Ret true) ∧
        obj s' = obj s ∧ buffer s' = buffer s ∧ self s' = self s ∧
        sources (the_host s') = sources (the_host s) ∧
        stderr (the_host s') = stderr (the_host s) ∧
        storable (fs (the_host s')) ts name = true ∧
        file_at (fs (the_host s')) ts name
        = Some (File (text (buffer s))).
Proof.
  intros Hw Hu Hst. watching_fields Hw. open_state s.
  destruct (write_after_ensure _ _ _ d_text Hst) as (st1 & st2 & H1 & H2).
  destruct (storable_after_write _ _ _ _ _ H2) as [Hst2 Hfile].
  destruct (path_exists st ts) eqn:Hex.
  - subst st1. eexists. split.
    + py_run. rewrite Hex. simpl. rewrite H2. reflexivity.
    + by simpl.
  - eexists. split.
    + py_run. rewrite Hex. simpl. rewrite H1. simpl. rewrite H2. reflexivity.
    + by simpl.
Qed.

Lemma tick_untouched ts name s :
  Watching ts name s →
  untouched (buffer s) = true →
  ∃ s', store_unsaved_cb ts s = (s', Ret true) ∧
        obj s' = obj s ∧ buffer s' = buffer s ∧ self s' = self s ∧
        sources (the_host s') = sources (the_host s) ∧
        stderr (the_host s') = stderr (the_host s) ∧
        fs (the_host s') = fs (the_host s).
Proof.
  intros Hw Hu. watching_fields Hw. open_state s.
  eexists. split; [py_run; reflexivity|]. by simpl.
Qed.

Lemma step_tick_returns_true ts s i s' :
  Scheduled s i →
  store_unsaved_cb ts s = (s', Ret true) →
  step ts (Tick i) s = s'.
Proof.
  intros [_ [seconds Hi]] Hrun. simpl. rewrite Hi.
  rewrite bool_decide_eq_true_2 by done.
  unfold dispatch_timeout. by rewrite Hrun.
Qed.

Lemma watching_transfer ts name s s' :
  Watching ts name s → obj s' = obj s → Watching ts name s'.
Proof. unfold Watching. intros Hw ->. exact Hw. Qed.

Lemma scheduled_transfer s s' i :
  Scheduled s i → obj s' = obj s → self s' = self s →
  sources (the_host s') = sources (the_host s) →
  Scheduled s' i.
Proof. unfold Scheduled. intros Hs -> -> ->. exact Hs. Qed.

Lemma run_cons ts ev evs s :
  run ts (ev :: evs) s = run ts evs (step ts ev s).
Proof. reflexivity. Qed.

Lemma run_edits_and_ticks ts name i evs :
  ∀ s last base,
    Watching ts name s →
    Scheduled s i →
    storable (fs (the_host s)) ts name = true →
    forallb (edit_or_tick i) evs = true →
    file_at (fs (the_host s)) ts name
    = match last with Some t => Some (File t) | None => base end →
    let s' := run ts evs s in
    stderr (the_host s') = stderr (the_host s) ∧
    Watching ts name s' ∧
    short_name (buffer s') = short_name (buffer s) ∧
    file_at (fs (the_host s')) ts name
    = match text_at_last_touched_tick evs (buffer s) last with
      | Some t => Some (File t)
      | None => base
      end.
Proof.
  induction evs as [|ev evs IH]; intros s last base Hw Hs Hst Hevs Hlast.
  { simpl. done. }
  simpl in Hevs. apply andb_prop in Hevs as [Hev Hevs].
  rewrite run_cons. cbv zeta.
  destruct ev as [new_text still|j| | |]; try discriminate.
  - (* an edit *)
    change (step ts (Edit new_text still) s)
      with (set_buffer (edit_buffer new_text still (buffer s)) s).
    set (s1 := set_buffer (edit_buffer new_text still (buffer s)) s).
    destruct (IH s1 last base) as (Herr & Hw' & Hname & Hfile);
      [by eapply watching_transfer | by eapply scheduled_transfer
      | done | done | done |].
    done.
  - (* a tick *)
    simpl in Hev. apply Nat.eqb_eq in Hev as <-.
    destruct (untouched (buffer s)) eqn:Hu.
    + destruct (tick_untouched ts name s Hw Hu)
        as (s1 & Hrun & Ho & Hb & Hme & Hsrc & Herr & Hfs).
      rewrite (step_tick_returns_true ts s i s1 Hs Hrun).
      destruct (IH s1 last base) as (Herr' & Hw' & Hname & Hfile).
      * by eapply watching_transfer.
      * by eapply scheduled_transfer.
      * by rewrite Hfs.
      * done.
      * by rewrite Hfs.
      * rewrite Hb in Hfile, Hname. rewrite Herr', Herr. simpl.
        rewrite Hu. done.
    + destruct (tick_touched ts name s Hw Hu Hst)
        as (s1 & Hrun & Ho & Hb & Hme & Hsrc & Herr & Hst1 & Hfile1).
      rewrite (step_tick_returns_true ts s i s1 Hs Hrun).
      destruct (IH s1 (Some (text (buffer s))) base)
        as (Herr' & Hw' & Hname & Hfile).
      * by eapply watching_transfer.
      * by eapply scheduled_transfer.
      * done.
      * done.
      * done.
      * rewrite Hb in Hfile, Hname. rewrite Herr', Herr. simpl.
        rewrite Hu. done.
Qed.

(** ** What the temporary file holds *)

(** C1: for a watched document whose temporary file can be written, after
    any sequence of edits and of firings of the watcher's timeout, the file
    [<session>/<name>], where [name] is the display name of the document
    (taken when the watch started, and not changed by edits), holds exactly
    the text the buffer had at the most recent tick that found the document
    touched, and is as it was when there was no such tick; no callback
    raised on the way. *)
Theorem temp_file_holds_last_touched_text ts name s i evs :
  Watching ts name s →
  Scheduled s i →
  short_name (buffer s) = name →
  storable (fs (the_host s)) ts name = true →
  forallb (edit_or_tick i) evs = true →
  let s' := run ts evs s in
  stderr (the_host s') = stderr (the_host s) ∧
  short_name (buffer s') = name ∧
  file_at (fs (the_host s')) ts name
  = match text_at_last_touched_tick evs (buffer s) None with
    | Some t => Some (File t)
    | None => file_at (fs (the_host s)) ts name
    end.
Proof.
  intros Hw Hs Hname Hst Hevs.
  destruct (run_edits_and_ticks ts name i evs s None
              (file_at (fs (the_host s)) ts name))
    as (Herr & _ & Hname' & Hfile); try done.
  split; [done|]. split; [congruence | done].
Qed.

Lemma temp_file_holds_last_touched_text_witness :
  file_at
    (fs (the_host
           (run Sample.session
                [Tick 1; Edit "a" false; Tick 1; Edit "ab" false; Tick 1;
                 Edit "abc" false]
                Sample.watched)))
    Sample.session Sample.doc_name
  = Some (File "ab").
Proof.
  destruct (temp_file_holds_last_touched_text Sample.session Sample.doc_name
              Sample.watched 1
              [Tick 1; Edit "a" false; Tick 1; Edit "ab" false; Tick 1;
               Edit "abc" false]) as (_ & _ & Hfile).
  - apply watching_by_check. vm_compute. reflexivity.
  - split; [vm_compute; reflexivity|]. exists 600%N. vm_compute. reflexivity.
  - vm_compute. reflexivity.
  - vm_compute. reflexivity.
  - vm_compute. reflexivity.
  - exact Hfile.
Defined.

(** ** The 'saved' signal *)

Lemma listing_empty {A} (m : gmap string A) :
  length (map fst (map_to_list m)) = 0 ↔ m = ∅.
Proof.
  rewrite length_map. split.
  - intros H. apply map_to_list_empty_iff. by apply nil_length_inv.
  - intros ->. by rewrite map_to_list_empty.
Qed.

Lemma cleanup_temp_file_result ts s name :
  has_document (obj s) = true →
  file_path (obj s) = Some (ts, name) →
  ∃ s' o, cleanup_temp_file ts s = (s', o) ∧
          obj s' = obj s ∧ buffer s' = buffer s ∧
          sources (the_host s') = sources (the_host s) ∧
          stderr (the_host s') = stderr (the_host s) ∧
          match file_at (fs (the_host s)) ts name with
          | Some (File _) =>
              o = Ret tt ∧
              fs (the_host s') = without_temp_file (fs (the_host s)) ts name
          | _ => o = Raise OSError ∧ fs (the_host s') = fs (the_host s)
          end.
Proof.
  intros Hdoc Hpath. open_state s.
  unfold file_at, without_temp_file, session_files.
  destruct st as [root|].
  - destruct (root !! ts) as [[files|]|] eqn:Hts.
    + destruct (files !! name) as [[t|]|] eqn:Hname.
      * destruct (bool_decide (delete name files = ∅)) eqn:Hempty.
        -- eexists _, _. split.
           ++ py_run. unfold unlink, listdir, rmdir, session_files. simpl.
              rewrite Hts, Hname. simpl. rewrite lookup_insert_eq. simpl.
              apply bool_decide_eq_true_1 in Hempty. rewrite Hempty.
              rewrite map_to_list_empty. simpl.
              rewrite lookup_insert_eq. simpl.
              rewrite delete_insert_eq. reflexivity.
           ++ by simpl.
        -- eexists _, _. split.
           ++ py_run. unfold unlink, listdir, session_files. simpl.
              rewrite Hts, Hname. simpl. rewrite lookup_insert_eq. simpl.
              apply bool_decide_eq_false_1 in Hempty.
              destruct (length (map fst (map_to_list (delete name files))))
                eqn:Hlen; [by apply listing_empty in Hlen|].
              simpl. reflexivity.
           ++ by simpl.
      * eexists _, _. split.
        -- py_run. unfold unlink, session_files. rewrite Hts, Hname.
           reflexivity.
        -- by simpl.
      * eexists _, _. split.
        -- py_run. unfold unlink, session_files. rewrite Hts, Hname.
           reflexivity.
        -- by simpl.
    + eexists _, _. split.
      * py_run. unfold unlink, session_files. rewrite Hts. reflexivity.
      * by simpl.
    + eexists _, _. split.
      * py_run. unfold unlink, session_files. rewrite Hts. reflexivity.
      * by simpl.
  - eexists _, _. split; [py_run; reflexivity | by simpl].
Qed.

Lemma watch_stop_watching ts name s i hid :
  Watching ts name s →
  save_timer_id (obj s) = Some i →
  sig_saved (obj s) = Some hid →
  ∃ s1, watch_stop s = (s1, Ret tt) ∧
        watch_state (obj s1) = false ∧
        save_timer_id (obj s1) = None ∧ sig_saved (obj s1) = None ∧
        has_document (obj s1) = true ∧
        file_path (obj s1) = file_path (obj s) ∧
        enabled (obj s1) = enabled (obj s) ∧
        sources (the_host s1) = delete i (sources (the_host s)) ∧
        saved_handlers (buffer s1) = saved_handlers (buffer s) ∖ {[ hid ]} ∧
        short_name (buffer s1) = short_name (buffer s) ∧
        fs (the_host s1) = fs (the_host s) ∧
        stderr (the_host s1) = stderr (the_host s).
Proof.
  intros Hw Hi Hh. watching_fields Hw. open_state s.
  eexists. split; [py_run; reflexivity|]. by simpl.
Qed.

(** What [__on_saved] does to a watcher that is Watching: it always stops
    the watch; then it unlinks the temporary file, which raises when the
    file is not there. *)
Lemma on_saved_watching ts name s i hid :
  Watching ts name s →
  save_timer_id (obj s) = Some i →
  sig_saved (obj s) = Some hid →
  ∃ s' o, on_saved ts s = (s', o) ∧
          watch_state (obj s') = false ∧
          save_timer_id (obj s') = None ∧ sig_saved (obj s') = None ∧
          sources (the_host s') = delete i (sources (the_host s)) ∧
          saved_handlers (buffer s') = saved_handlers (buffer s) ∖ {[ hid ]} ∧
          stderr (the_host s') = stderr (the_host s) ∧
          match file_at (fs (the_host s)) ts name with
          | Some (File _) =>
              o = Ret tt ∧
              fs (the_host s')
              = without_temp_file (fs (the_host s)) ts name
          | _ => o = Raise OSError ∧ fs (the_host s') = fs (the_host s)
          end.
Proof.
  intros Hw Hi Hh.
  destruct (watch_stop_watching ts name s i hid Hw Hi Hh)
    as (s1 & Hstop & Hws & Hti & Hsg & Hdoc & Hpath & _ & Hsrc & Hhs & Hnm
        & Hfs & Herr).
  pose proof Hw as (Hwatching & _ & _ & _ & _ & _ & Hfp).
  rewrite Hfp in Hpath.
  destruct (cleanup_temp_file_result ts s1 _ Hdoc Hpath)
    as (s' & o & Hrun & Ho & Hb & Hsrc' & Herr' & Hres).
  exists s', o. split.
  - unfold on_saved, is_watching.
    erewrite bind_ret_eq; [|reflexivity]. rewrite Hwatching.
    erewrite bind_ret_eq; [|exact Hstop]. exact Hrun.
  - rewrite Ho, Hb, Hsrc', Herr'. rewrite Hfs in Hres. done.
Qed.

(** The 'saved' signal delivered to a watcher that is Watching: the buffer
    has its new name, the one connected handler runs, and an exception it
    raises is reported by the dispatcher. *)
Lemma saved_watching ts name s new_name i hid :
  Watching ts name s →
  save_timer_id (obj s) = Some i →
  sig_saved (obj s) = Some hid →
  saved_handlers (buffer s) = {[ hid ]} →
  let s' := step ts (Saved new_name) s in
  watch_state (obj s') = false ∧
  sources (the_host s') = delete i (sources (the_host s)) ∧
  saved_handlers (buffer s') = ∅ ∧
  match file_at (fs (the_host s)) ts name with
  | Some (File _) =>
      stderr (the_host s') = stderr (the_host s) ∧
      fs (the_host s') = without_temp_file (fs (the_host s)) ts name
  | _ =>
      stderr (the_host s') = (stderr (the_host s) ++ [OSError])%list ∧
      fs (the_host s') = fs (the_host s)
  end.
Proof.
  intros Hw Hi Hh Hhs.
  set (s1 := set_buffer (name_buffer new_name (buffer s)) s).
  assert (Watching ts name s1) as Hw1 by by eapply watching_transfer.
  destruct (on_saved_watching ts name s1 i hid Hw1 Hi Hh)
    as (s2 & o & Hrun & Hws & _ & _ & Hsrc & Hhs2 & Herr & Hres).
  simpl in Hsrc, Hhs2, Herr, Hres.
  unfold step. fold s1. simpl. rewrite Hhs, elements_singleton. simpl.
  unfold dispatch. rewrite Hrun.
  rewrite Hhs, difference_diag_L in Hhs2.
  destruct (file_at (fs (the_host s)) ts name) as [[t|]|];
    destruct Hres as [-> Hfs]; simpl;
    repeat split; congruence.
Qed.

(** C2: a document is saved under a name before the first tick wrote its
    temporary file (here: nothing at all is on disk).  [__on_saved] stops the
    watch, then [unlink] raises [OSError] because the file is not there: the
    handler ends with that exception, which reaches the dispatcher, instead
    of skipping the removal. *)
Example saved_before_first_write :
  (∃ s1, on_saved Sample.session
           (set_buffer (name_buffer "notes.txt" (buffer Sample.watched))
                       Sample.watched)
         = (s1, Raise OSError)) ∧
  let s' := step Sample.session (Saved "notes.txt") Sample.watched in
  stderr (the_host s') = [OSError] ∧
  watch_state (obj s') = false ∧
  sources (the_host s') = ∅ ∧
  saved_handlers (buffer s') = ∅ ∧
  fs (the_host s') = None.
Proof.
  split; [eexists; vm_compute; reflexivity|]. by vm_compute.
Qed.

(** ** Failures of the write and of the delete *)

Lemma tick_blocked ts name s :
  Watching ts name s →
  untouched (buffer s) = false →
  storable (fs (the_host s)) ts name = false →
  ∃ s', store_unsaved_cb ts s = (s', Raise OSError) ∧
        obj s' = obj s ∧ buffer s' = buffer s ∧ self s' = self s ∧
        sources (the_host s') = sources (the_host s) ∧
        fs (the_host s') = fs (the_host s) ∧
        stderr (the_host s') = stderr (the_host s).
Proof.
  intros Hw Hu Hst. watching_fields Hw. open_state s.
  unfold storable in Hst.
  destruct st as [root|]; [|done].
  destruct (root !! ts) as [[files|]|] eqn:Hts; [| |done].
  - destruct (files !! name) as [[t|]|] eqn:Hname; try done.
    eexists. split.
    + py_run. rewrite Hts. rewrite bool_decide_eq_true_2 by eauto. simpl.
      unfold open_write, session_files. rewrite Hts, Hname. reflexivity.
    + by simpl.
  - eexists. split.
    + py_run. rewrite Hts. rewrite bool_decide_eq_true_2 by eauto. simpl.
      unfold open_write, session_files. rewrite Hts. reflexivity.
    + by simpl.
Qed.

(** C8, as the code has it.  The watcher catches no failure of the file
    system and logs nothing at error level.

    The write: when the temporary file of a touched document cannot be
    written, the timeout callback raises [OSError].  The callback itself
    leaves the watcher, the sources and the handlers as they were; because
    it raised, the dispatcher of the host reports the exception and removes
    the timeout source, so that no further timeout comes, while the watcher
    still has [__watch_state] true and still holds the id of the removed
    source.

    The delete: when something that is not a file sits at the path of the
    temporary file, [__on_saved] raises [OSError] from [unlink], after it
    has stopped the watch: the source is removed, the handler disconnected,
    and the entry at the path is still there.  (A temporary file that is
    not there at all is the case treated with the 'saved' signal above.) *)
Theorem write_or_delete_failure_is_raised ts name s i hid :
  Watching ts name s →
  Scheduled s i →
  sig_saved (obj s) = Some hid →
  (untouched (buffer s) = false →
   storable (fs (the_host s)) ts name = false →
   ∃ s', store_unsaved_cb ts s = (s', Raise OSError) ∧
         error_records (log (the_host s')) = error_records (log (the_host s)) ∧
         obj s' = obj s ∧
         sources (the_host s') = sources (the_host s) ∧
         saved_handlers (buffer s') = saved_handlers (buffer s) ∧
         let s'' := step ts (Tick i) s in
         stderr (the_host s'') = (stderr (the_host s) ++ [OSError])%list ∧
         sources (the_host s'') = delete i (sources (the_host s)) ∧
         watch_state (obj s'') = true ∧
         save_timer_id (obj s'') = Some i ∧
         saved_handlers (buffer s'') = saved_handlers (buffer s) ∧
         error_records (log (the_host s''))
         = error_records (log (the_host s))) ∧
  (file_at (fs (the_host s)) ts name = Some Subdir →
   ∃ s', on_saved ts s = (s', Raise OSError) ∧
         error_records (log (the_host s')) = error_records (log (the_host s)) ∧
         file_at (fs (the_host s')) ts name = Some Subdir ∧
         watch_state (obj s') = false ∧
         sources (the_host s') = delete i (sources (the_host s)) ∧
         saved_handlers (buffer s') = saved_handlers (buffer s) ∖ {[ hid ]}).
Proof.
  intros Hw Hs Hh. pose proof Hs as [Hi [seconds Hsrc]]. split.
  - intros Hu Hst.
    pose proof (store_unsaved_cb_logs_no_error ts s) as Hlog.
    destruct (tick_blocked ts name s Hw Hu Hst)
      as (s' & Hrun & Ho & Hb & Hme & Hsrc' & Hfs & Herr).
    rewrite Hrun in Hlog. simpl in Hlog.
    pose proof Hw as (Hws & _).
    exists s'. split; [done|]. split; [done|]. split; [done|].
    split; [done|]. split; [by rewrite Hb|].
    cbv zeta. unfold step. rewrite Hsrc.
    rewrite bool_decide_eq_true_2 by done.
    unfold dispatch_timeout. rewrite Hrun. simpl.
    rewrite Herr, Hsrc', Ho, Hb, Hws, Hi. done.
  - intros Hfile.
    pose proof (on_saved_logs_no_error ts s) as Hlog.
    destruct (on_saved_watching ts name s i hid Hw Hi Hh)
      as (s' & o & Hrun & Hws & _ & _ & Hsrc' & Hhs & _ & Hres).
    rewrite Hfile in Hres. destruct Hres as [-> Hfs].
    rewrite Hrun in Hlog. simpl in Hlog.
    exists s'. rewrite Hfs, Hfile. done.
Qed.

Lemma write_or_delete_failure_is_raised_witness :
  (∃ s', store_unsaved_cb Sample.session Sample.blocked
         = (s', Raise OSError) ∧
         obj s' = obj Sample.blocked) ∧
  sources (the_host (step Sample.session (Tick 1) Sample.blocked)) = ∅ ∧
  (∃ s', on_saved Sample.session Sample.blocked = (s', Raise OSError) ∧
         watch_state (obj s') = false).
Proof.
  destruct (write_or_delete_failure_is_raised Sample.session Sample.doc_name
              Sample.blocked 1 1)
    as [Htick Hsaved].
  - apply watching_by_check. vm_compute. reflexivity.
  - split; [vm_compute; reflexivity|]. exists 600%N. vm_compute. reflexivity.
  - vm_compute. reflexivity.
  - destruct Htick as (s1 & Hrun1 & _ & Ho & _ & _ & _ & Hsrc & _);
      [vm_compute; reflexivity..|].
    destruct Hsaved as (s2 & Hrun2 & _ & _ & Hws & _);
      [vm_compute; reflexivity|].
    split; [exists s1; split; [exact Hrun1 | exact Ho]|].
    split; [|exists s2; split; [exact Hrun2 | exact Hws]].
    rewrite Hsrc. vm_compute. reflexivity.
Defined.

(** C8 as stated does not hold: here a directory sits where the temporary
    file should be written, the write fails, and the tick ends by raising
    [OSError] to its caller with no record at error level in the log. *)
Lemma write_failure_is_not_logged :
  ∃ s', store_unsaved_cb Sample.session Sample.blocked = (s', Raise OSError) ∧
        error_records (log (the_host s')) = [].
Proof. eexists. split; [vm_compute; reflexivity|]. vm_compute. reflexivity. Qed.

(** ** The settings are read once *)

Section Respects.

Context {S : Type} (R : relation S).

Lemma respects_ret {A} (a : A) : Respects R (mret a : M S A).
Proof. intros s1 s2 H. done. Qed.

Lemma respects_bind {A B} (m : M S A) (k : A → M S B) :
  Respects R m → (∀ a, Respects R (k a)) → Respects R (m ≫= k).
Proof.
  intros Hm Hk s1 s2 H. destruct (Hm s1 s2 H) as [HR Ho].
  unfold mbind, py_bind, bind.
  destruct (m s1) as [s1' o1], (m s2) as [s2' o2]. simpl in *. subst o2.
  destruct o1 as [a|e]; [by apply Hk | done].
Qed.

Lemma respects_try {A} (m h : M S A) e :
  Respects R m → Respects R h → Respects R (try_except m e h).
Proof.
  intros Hm Hh s1 s2 H. destruct (Hm s1 s2 H) as [HR Ho].
  unfold try_except.
  destruct (m s1) as [s1' o1], (m s2) as [s2' o2]. simpl in *. subst o2.
  destruct o1 as [a|e']; [done|].
  destruct (exn_eqb e e'); [by apply Hh | done].
Qed.

End Respects.

Lemma alike_parts s1 s2 :
  alike s1 s2 ↔
  alike_hosts (the_host s1) (the_host s2) ∧ self s1 = self s2 ∧
  buffer s1 = buffer s2 ∧ obj s1 = obj s2 ∧ is_Some (enabled (obj s1)).
Proof.
  unfold alike, alike_hosts, forget_settings, set_host.
  destruct s1, s2. simpl. split.
  - intros [[= ? ? ? ?] ?]. subst.
    split; [unfold set_gedit_settings; congruence | done].
  - intros (-> & -> & -> & -> & ?). done.
Qed.

Lemma alike_hosts_parts h1 h2 :
  alike_hosts h1 h2 ↔
  fs h1 = fs h2 ∧ settings_reads h1 = settings_reads h2 ∧
  sources h1 = sources h2 ∧ next_source_id h1 = next_source_id h2 ∧
  log h1 = log h2 ∧ stdout h1 = stdout h2 ∧ stderr h1 = stderr h2 ∧
  clock_reads h1 = clock_reads h2.
Proof.
  unfold alike_hosts, set_gedit_settings. destruct h1, h2. simpl. split.
  - intros [= ? ? ? ? ? ? ? ?]. by subst.
  - intros (-> & -> & -> & -> & -> & -> & -> & ->). done.
Qed.

Ltac alike_split :=
  intros s1 s2 H; apply alike_parts in H;
  destruct H as (Hh & Hme & Hb & Ho & Hc);
  rewrite alike_parts;
  destruct s1 as [h1 me1 d1 w1], s2 as [h2 me2 d2 w2];
  simpl in *; subst.

Lemma respects_in_host {A} (m : M host A) :
  Respects alike_hosts m → Respects alike (in_host m).
Proof.
  intros Hm. alike_split.
  destruct (Hm _ _ Hh) as [HR Hout]. unfold in_host, zoom. simpl.
  destruct (m h1) as [h1' o1], (m h2) as [h2' o2].
  simpl in *. done.
Qed.

Lemma respects_host_update (f : host → host) :
  (∀ h1 h2, alike_hosts h1 h2 → alike_hosts (f h1) (f h2)) →
  Respects alike_hosts (modify f).
Proof. intros Hf h1 h2 H. split; [by apply Hf | done]. Qed.

Lemma respects_emit r : Respects alike_hosts (emit r).
Proof.
  apply respects_host_update. intros h1 h2. rewrite !alike_hosts_parts.
  destruct h1, h2. simpl. intros (? & ? & ? & ? & ? & ? & ? & ?). by subst.
Qed.

Lemma respects_source_remove i : Respects alike_hosts (source_remove i).
Proof.
  apply respects_host_update. intros h1 h2. rewrite !alike_hosts_parts.
  destruct h1, h2. simpl. intros (? & ? & ? & ? & ? & ? & ? & ?). by subst.
Qed.

Lemma respects_timeout_add n o :
  Respects alike_hosts (timeout_add_seconds n o).
Proof.
  intros h1 h2. rewrite !alike_hosts_parts. destruct h1, h2. simpl.
  intros (? & ? & ? & ? & ? & ? & ? & ?). by subst.
Qed.

Lemma respects_fs_update f : Respects alike_hosts (fs_update f).
Proof.
  intros h1 h2. rewrite !alike_hosts_parts. unfold fs_update.
  destruct h1, h2. simpl. intros (? & ? & ? & ? & ? & ? & ? & ?). subst.
  by destruct (f _).
Qed.

Lemma respects_fs_query {A} (f : store → exn + A) :
  Respects alike_hosts (fs_query f).
Proof.
  intros h1 h2 H. pose proof H as Hp. rewrite alike_hosts_parts in Hp.
  destruct Hp as (Hfs & _). unfold fs_query. rewrite Hfs.
  destruct (f (fs h2)); simpl; done.
Qed.

Lemma respects_fs_read {A} (f : store → A) :
  Respects alike_hosts (gets (fun h => f (fs h))).
Proof.
  intros h1 h2 H. pose proof H as Hp. rewrite alike_hosts_parts in Hp.
  destruct Hp as (Hfs & _). unfold gets. simpl. by rewrite Hfs.
Qed.

Lemma respects_getattr {A} (f : watcher → option A) :
  Respects alike (getattr f).
Proof. alike_split. unfold getattr. simpl. by destruct (f w2). Qed.

Lemma respects_setattr f :
  (∀ w, enabled (f w) = enabled w) → Respects alike (setattr f).
Proof. intros Hf. alike_split. by rewrite Hf. Qed.

Lemma respects_get_document : Respects alike get_document.
Proof.
  alike_split. unfold get_document. simpl. by destruct (has_document w2).
Qed.

Lemma respects_connect_saved : Respects alike connect_saved.
Proof. alike_split. done. Qed.

Lemma respects_disconnect i : Respects alike (disconnect i).
Proof. alike_split. done. Qed.

Lemma respects_is_watching : Respects alike is_watching.
Proof. alike_split. done. Qed.

Lemma respects_self : Respects alike (gets self).
Proof. alike_split. done. Qed.

Lemma respects_is_enabled : Respects alike is_enabled.
Proof.
  intros s1 s2 H. pose proof H as Hp. apply alike_parts in Hp.
  destruct Hp as (_ & _ & _ & Ho & [b Hb]).
  rewrite (is_enabled_cached s1 b Hb).
  rewrite (is_enabled_cached s2 b) by (by rewrite <- Ho). done.
Qed.

Ltac respects_step :=
  lazymatch goal with
  | |- Respects _ (_ ≫= _) => apply respects_bind; [|intros ?]
  | |- Respects _ (mret _) => apply respects_ret
  | |- Respects _ (try_except _ _ _) => apply respects_try
  | |- Respects _ (if ?b then _ else _) => destruct b
  | |- Respects _ (match ?x with _ => _ end) => destruct x
  | |- Respects _ (setattr _) =>
      apply respects_setattr; intros []; reflexivity
  end.

Ltac respects_call :=
  auto using respects_in_host, respects_emit, respects_source_remove,
    respects_timeout_add, respects_fs_update, respects_fs_query,
    respects_getattr, respects_get_document, respects_connect_saved,
    respects_disconnect, respects_is_watching, respects_self,
    respects_is_enabled.

Ltac respects := repeat respects_step; respects_call.

Lemma respects_view_log l format args :
  Respects alike (view_log l format args).
Proof. unfold view_log, get_name. respects. Qed.

Ltac respects_ops :=
  repeat respects_step; auto using respects_view_log; respects_call.

Lemma respects_ensure_path ts : Respects alike (ensure_path ts).
Proof.
  unfold ensure_path, info. respects_ops.
  apply respects_in_host.
  apply (respects_fs_read (fun st => path_exists st ts)).
Qed.

Lemma respects_watch_stop : Respects alike watch_stop.
Proof.
  unfold watch_stop, clear_schedule, unhook_signals, debug. respects_ops.
Qed.

Lemma respects_cleanup_temp_file ts : Respects alike (cleanup_temp_file ts).
Proof. unfold cleanup_temp_file, info, debug. respects_ops. Qed.

Lemma respects_on_saved ts : Respects alike (on_saved ts).
Proof.
  unfold on_saved. respects_ops.
  - apply respects_watch_stop.
  - apply respects_cleanup_temp_file.
Qed.

Lemma respects_store_unsaved_cb ts : Respects alike (store_unsaved_cb ts).
Proof.
  unfold store_unsaved_cb, info, debug. respects_ops.
  apply respects_ensure_path.
Qed.

Lemma respects_do_deactivate : Respects alike do_deactivate.
Proof. unfold do_deactivate. respects_ops. apply respects_watch_stop. Qed.

(** The dispatcher, the steps and the runs. *)

Lemma alike_report e s1 s2 : alike s1 s2 → alike (report e s1) (report e s2).
Proof.
  rewrite !alike_parts, !alike_hosts_parts. unfold report.
  destruct s1 as [[] ? ? ?], s2 as [[] ? ? ?]. simpl.
  intros ((? & ? & ? & ? & ? & ? & ? & ?) & ? & ? & ? & ?). subst.
  by repeat split.
Qed.

Lemma alike_remove_source i s1 s2 :
  alike s1 s2 →
  alike (set_host (source_remove i (the_host s1)).1 s1)
        (set_host (source_remove i (the_host s2)).1 s2).
Proof.
  rewrite !alike_parts, !alike_hosts_parts.
  destruct s1 as [[] ? ? ?], s2 as [[] ? ? ?]. simpl.
  intros ((? & ? & ? & ? & ? & ? & ? & ?) & ? & ? & ? & ?). subst.
  by repeat split.
Qed.

Lemma alike_dispatch m s1 s2 :
  Respects alike m → alike s1 s2 → alike (dispatch m s1) (dispatch m s2).
Proof.
  intros Hm H. destruct (Hm s1 s2 H) as [HR Ho]. unfold dispatch.
  destruct (m s1) as [s1' o1], (m s2) as [s2' o2]. simpl in *. subst.
  destruct o2; [done | by apply alike_report].
Qed.

Lemma alike_dispatch_timeout i m s1 s2 :
  Respects alike m → alike s1 s2 →
  alike (dispatch_timeout i m s1) (dispatch_timeout i m s2).
Proof.
  intros Hm H. destruct (Hm s1 s2 H) as [HR Ho]. unfold dispatch_timeout.
  destruct (m s1) as [s1' o1], (m s2) as [s2' o2]. simpl in *. subst.
  destruct o2 as [[]|]; [done | by apply alike_remove_source |].
  by apply alike_report, alike_remove_source.
Qed.

Lemma alike_step ts ev s1 s2 :
  is_settings_change ev = false →
  alike s1 s2 → alike (step ts ev s1) (step ts ev s2).
Proof.
  intros Hev H. pose proof H as Hp. apply alike_parts in Hp.
  destruct Hp as (Hh & Hme & Hb & Ho & Hc).
  pose proof (proj1 (alike_hosts_parts _ _) Hh) as (_ & _ & Hsrc & _).
  destruct ev as [new_text still|i|name| |g]; simpl; try discriminate.
  - apply alike_parts. destruct s1, s2. simpl in *. by subst.
  - rewrite Hsrc, Hme.
    destruct (sources (the_host s2) !! i) as [[owner seconds]|]; [|done].
    case_bool_decide; [|done].
    apply alike_dispatch_timeout; [apply respects_store_unsaved_cb | done].
  - rewrite Hb.
    assert (alike (set_buffer (name_buffer name (buffer s2)) s1)
                  (set_buffer (name_buffer name (buffer s2)) s2)) as Hs.
    { apply alike_parts. destruct s1, s2. simpl in *. by subst. }
    induction (elements (saved_handlers (buffer s2))) as [|hid l IH];
      [done|].
    simpl. apply alike_dispatch; [apply respects_on_saved | exact IH].
  - apply alike_dispatch; [apply respects_do_deactivate | done].
Qed.

Lemma alike_settings_changed ts g s1 s2 :
  alike s1 s2 → alike (step ts (SettingsChanged g) s1) s2.
Proof.
  rewrite !alike_parts, !alike_hosts_parts.
  destruct s1 as [[] ? ? ?], s2 as [[] ? ? ?]. simpl. done.
Qed.

Lemma alike_run ts evs :
  ∀ s1 s2,
    alike s1 s2 →
    alike (run ts evs s1)
          (run ts (List.filter (fun ev => negb (is_settings_change ev)) evs) s2).
Proof.
  induction evs as [|ev evs IH]; intros s1 s2 H; [done|].
  rewrite run_cons. cbn [List.filter].
  destruct (is_settings_change ev) eqn:Hev; cbn [negb].
  - destruct ev; try discriminate. apply IH.
    by apply alike_settings_changed.
  - rewrite run_cons. apply IH. by apply alike_step.
Qed.

(** The reads of the settings store. *)

#[global] Instance same_reads_preorder : PreOrder same_reads.
Proof.
  split.
  - intros h. reflexivity.
  - intros h1 h2 h3 H12 H23. unfold same_reads in *. congruence.
Qed.

Lemma same_reads_untouched {A} (m : M host A) :
  (∀ h, settings_reads (m h).1 = settings_reads h) → Keeps same_reads m.
Proof. intros H h. apply H. Qed.

Lemma same_reads_fs_update f : Keeps same_reads (fs_update f).
Proof.
  apply same_reads_untouched. intros h. unfold fs_update.
  by destruct (f (fs h)).
Qed.

Lemma store_unsaved_cb_reads_nothing ts s :
  settings_reads (the_host (store_unsaved_cb ts s).1)
  = settings_reads (the_host s).
Proof.
  apply (keeps_store_unsaved_cb same_reads);
    first [done | apply same_reads_fs_update].
Qed.

Lemma on_saved_reads_nothing ts s :
  settings_reads (the_host (on_saved ts s).1) = settings_reads (the_host s).
Proof.
  apply (keeps_on_saved same_reads);
    first [done | apply same_reads_fs_update].
Qed.

Lemma watch_stop_reads_nothing s :
  settings_reads (the_host (watch_stop s).1) = settings_reads (the_host s).
Proof. apply (keeps_watch_stop same_reads); done. Qed.

Lemma do_deactivate_reads_nothing s :
  is_Some (enabled (obj s)) →
  settings_reads (the_host (do_deactivate s).1) = settings_reads (the_host s).
Proof.
  intros [b Hb]. unfold do_deactivate.
  erewrite bind_ret_eq; [|by apply is_enabled_cached].
  destruct b; simpl; [apply watch_stop_reads_nothing | done].
Qed.

Lemma dispatch_reads m s :
  settings_reads (the_host (m s).1) = settings_reads (the_host s) →
  settings_reads (the_host (dispatch m s)) = settings_reads (the_host s).
Proof. unfold dispatch. by destruct (m s) as [s' [a|e]]. Qed.

Lemma alike_refl s : is_Some (enabled (obj s)) → alike s s.
Proof. intros H. by split. Qed.

Lemma alike_cached s1 s2 : alike s1 s2 → is_Some (enabled (obj s1)).
Proof. by intros [_ H]. Qed.

Lemma step_reads_nothing ts ev s :
  is_Some (enabled (obj s)) →
  is_Some (enabled (obj (step ts ev s))) ∧
  settings_reads (the_host (step ts ev s)) = settings_reads (the_host s).
Proof.
  intros Hc. split.
  { destruct (is_settings_change ev) eqn:Hev.
    - by destruct ev.
    - eapply alike_cached, alike_step; [done | by apply alike_refl]. }
  destruct ev as [new_text still|i|name| |g]; simpl; try done.
  - destruct (sources (the_host s) !! i) as [[owner seconds]|]; [|done].
    case_bool_decide; [|done]. unfold dispatch_timeout.
    pose proof (store_unsaved_cb_reads_nothing ts s) as Hcb.
    by destruct (store_unsaved_cb ts s) as [s' [[]|e]].
  - set (s1 := set_buffer (name_buffer name (buffer s)) s).
    change (settings_reads (the_host s)) with (settings_reads (the_host s1)).
    match goal with |- context [foldr _ _ ?l] => generalize l end.
    intros l. induction l as [|hid l IH]; [done|].
    simpl. rewrite dispatch_reads; [exact IH | apply on_saved_reads_nothing].
  - apply dispatch_reads. by apply do_deactivate_reads_nothing.
Qed.

Lemma run_reads_nothing ts evs :
  ∀ s, is_Some (enabled (obj s)) →
       settings_reads (the_host (run ts evs s)) = settings_reads (the_host s).
Proof.
  induction evs as [|ev evs IH]; intros s Hc; [done|].
  rewrite run_cons. destruct (step_reads_nothing ts ev s Hc) as [Hc' Hr].
  rewrite IH by done. exact Hr.
Qed.

Lemma activate_reads_once ts h v d :
  let s := activate ts (new_view h v d) in
  is_Some (enabled (obj s)) ∧
  settings_reads (the_host s)
  = (settings_reads h ++ ["auto-save"; "auto-save-interval"])%list.
Proof.
  destruct (is_enabled_first
              (set_obj (set_has_document true fresh_watcher)
                       (new_view h v d)))
    as (s2 & Hrun & Hobj & Hbuf & Hself & Hhost & Hreads); [done..|].
  simpl in Hrun, Hobj, Hbuf, Hself, Hhost, Hreads.
  unfold activate, dispatch, do_activate.
  erewrite bind_ret_eq; [|reflexivity].
  erewrite bind_ret_eq; [|exact Hrun].
  clear Hrun. destruct Hhost as (Hfs & Hg & Hsrcs & Hnext & Hout & Herr & Hclk).
  open_state s2.
  destruct (booleans (gedit_settings h) "auto-save"); [destruct d_untitled|];
    py_run; eauto.
Qed.

(** C10: a watcher reads the toggle and the interval from the settings
    store once each, at its activation (the first enabled check), and never
    again, whatever happens to the view afterwards; and changes of the
    settings after the activation change nothing of what the view does: the
    run with the changes and the run without them end in states that differ
    at most in the settings store itself. *)
Theorem settings_are_read_once ts h v d evs :
  let s := activate ts (new_view h v d) in
  settings_reads (the_host (run ts evs s))
  = (settings_reads h ++ ["auto-save"; "auto-save-interval"])%list ∧
  forget_settings (run ts evs s)
  = forget_settings
      (run ts (List.filter (fun ev => negb (is_settings_change ev)) evs) s).
Proof.
  destruct (activate_reads_once ts h v d) as [Hc Hreads]. split.
  - by rewrite run_reads_nothing.
  - apply (alike_run ts evs). by apply alike_refl.
Qed.

(** ** The sweep *)

Lemma unlink_each_all ts :
  ∀ filenames h root files,
    fs h = Some root →
    root !! ts = Some (SessionDir files) →
    NoDup filenames →
    (∀ name, name ∈ filenames → ∃ t, files !! name = Some (File t)) →
    ∃ h', unlink_each ts filenames h = (h', Ret tt) ∧
          fs h' = Some (<[ ts := SessionDir
                                   (foldl (fun m name => delete name m)
                                          files filenames) ]> root) ∧
          clock_reads h' = clock_reads h ∧ stderr h' = stderr h.
Proof.
  induction filenames as [|name rest IH];
    intros h root files Hfs Hts Hnodup Hfiles.
  - exists h. simpl. rewrite insert_id by done. done.
  - apply NoDup_cons in Hnodup as [Hnotin Hnodup].
    destruct (Hfiles name) as [t Hname]; [by left|].
    simpl.
    set (h1 := set_fs (Some (<[ ts := SessionDir (delete name files) ]> root))
                 (app_log INFO "Removing: %s" [AStr name] h).1).
    destruct (IH h1 (<[ ts := SessionDir (delete name files) ]> root)
                 (delete name files)) as (h' & Hrun & Hfs' & Hclk & Herr).
    + done.
    + by rewrite lookup_insert_eq.
    + done.
    + intros name' Hin. destruct (Hfiles name') as [t' Hname']; [by right|].
      exists t'. rewrite lookup_delete_ne; [done|]. by intros ->.
    + exists h'. split; [|split].
      * erewrite bind_ret_eq; [|reflexivity].
        erewrite bind_ret_eq; [exact Hrun|].
        unfold fs_update, unlink, session_files. simpl.
        rewrite Hfs, Hts, Hname. reflexivity.
      * rewrite Hfs'. by rewrite insert_insert_eq.
      * destruct h. simpl in *. done.
Qed.

Lemma delete_all_keys {A} (m : gmap string A) :
  foldl (fun m name => delete name m) m (map fst (map_to_list m)) = ∅.
Proof.
  assert (∀ (l : list string) (m : gmap string A) k,
            foldl (fun m name => delete name m) m l !! k
            = if decide (k ∈ l) then None else m !! k) as Hfold.
  { induction l as [|x l IH]; intros m' k.
    - by destruct (decide (k ∈ [])) as [Hin%elem_of_nil|].
    - cbn [foldl]. rewrite IH.
      destruct (decide (k = x)) as [->|Hne].
      + rewrite lookup_delete_eq.
        rewrite (decide_True (P := x ∈ x :: l)) by set_solver.
        by destruct (decide (x ∈ l)).
      + rewrite lookup_delete_ne by done.
        destruct (decide (k ∈ l)) as [Hin|Hnotin].
        * by rewrite (decide_True (P := k ∈ x :: l)) by set_solver.
        * rewrite (decide_False (P := k ∈ x :: l)); [done|].
          by intros [?|?]%elem_of_cons. }
  apply map_eq. intros k. rewrite Hfold, lookup_empty.
  destruct (decide (k ∈ map fst (map_to_list m))) as [|Hnotin]; [done|].
  destruct (m !! k) as [x|] eqn:Hk; [|done].
  exfalso. apply Hnotin. apply list_elem_of_fmap.
  exists (k, x). split; [done|]. by apply elem_of_map_to_list.
Qed.

Lemma insert_sorted_perm x l : insert_sorted x l ≡ₚ x :: l.
Proof.
  induction l as [|y l IH]; simpl; [done|].
  destruct (String.leb x y); [done|].
  rewrite IH. apply perm_swap.
Qed.

Lemma sorted_perm l : sorted l ≡ₚ l.
Proof.
  induction l as [|x l IH]; simpl; [done|].
  unfold sorted in *. simpl. by rewrite insert_sorted_perm, IH.
Qed.

Section Sweep.

Variable strptime : string → option Z.
Variable datetime_now : nat → Z.

Lemma cleanup_subdir_result ts h root e :
  fs h = Some root →
  root !! ts = Some e →
  dated_session strptime ts e →
  ∃ h', cleanup_subdir strptime datetime_now ts h = (h', Ret tt) ∧
        fs h' = Some (if too_recent strptime datetime_now (clock_reads h) ts
                      then root else delete ts root) ∧
        clock_reads h' = S (clock_reads h) ∧ stderr h' = stderr h.
Proof.
  intros Hfs Hts [[dt Hdt] Hdir].
  destruct e as [files|]; [|done]. simpl in Hdir.
  destruct h as [st g reads srcs next_src records out err clk].
  simpl in *. subst st.
  unfold cleanup_subdir, parse_timestamp, too_recent. rewrite Hdt.
  erewrite bind_ret_eq; [|reflexivity].
  erewrite bind_ret_eq; [|reflexivity].
  cbn [clock_reads].
  destruct (total_seconds_lt (datetime_now clk - dt) _MAX_STORED_AGE_S).
  - eexists. split; [reflexivity|]. done.
  - erewrite bind_ret_eq; [|reflexivity].
    erewrite bind_ret_eq; cycle 1.
    { unfold fs_query, listdir, session_files. simpl. rewrite Hts.
      reflexivity. }
    match goal with |- context [(unlink_each ts ?l ≫= _) ?h1] =>
      destruct (unlink_each_all ts l h1 root files)
        as (h2 & Hrun & Hfs2 & Hclk2 & Herr2)
    end.
    + done.
    + done.
    + apply NoDup_fst_map_to_list.
    + intros name [[name' x] [-> Hin]]%list_elem_of_fmap.
      apply elem_of_map_to_list in Hin. simpl.
      specialize (Hdir name' x Hin). destruct x as [t|]; [eauto|done].
    + rewrite delete_all_keys in Hfs2.
      erewrite bind_ret_eq; [|exact Hrun].
      erewrite bind_ret_eq; [|reflexivity].
      destruct h2 as [st2 g2 reads2 srcs2 next_src2 records2 out2 err2 clk2].
      simpl in *. subst.
      erewrite bind_ret_eq; cycle 1.
      { unfold fs_update, rmdir, session_files. simpl.
        rewrite lookup_insert_eq, bool_decide_eq_true_2 by done.
        reflexivity. }
      eexists. split; [reflexivity|]. simpl.
      by rewrite delete_insert_eq.
Qed.

Lemma cleanup_each_result :
  ∀ names h root,
    fs h = Some root →
    NoDup names →
    (∀ ts, ts ∈ names →
           ∃ e, root !! ts = Some e ∧ dated_session strptime ts e) →
    ∃ h' root',
      cleanup_each strptime datetime_now names h = (h', Ret tt) ∧
      fs h' = Some root' ∧ stderr h' = stderr h ∧
      (∀ ts, ts ∉ names → root' !! ts = root !! ts) ∧
      (∀ k ts, names !! k = Some ts →
               root' !! ts
               = if too_recent strptime datetime_now (clock_reads h + k) ts
                 then root !! ts else None).
Proof.
  induction names as [|ts rest IH]; intros h root Hfs Hnodup Hall.
  - exists h, root. simpl. done.
  - apply NoDup_cons in Hnodup as [Hnotin Hnodup].
    destruct (Hall ts) as (e & Hts & Hdated); [by left|].
    destruct (cleanup_subdir_result ts h root e)
      as (h1 & Hrun1 & Hfs1 & Hclk1 & Herr1); [done..|].
    set (root1 := if too_recent strptime datetime_now (clock_reads h) ts
                  then root else delete ts root) in *.
    assert (∀ ts', ts' ≠ ts → root1 !! ts' = root !! ts') as Hother.
    { intros ts' Hne. unfold root1.
      destruct (too_recent _ _ _ _); [done|]. by rewrite lookup_delete_ne. }
    destruct (IH h1 root1) as (h' & root' & Hrun & Hfs' & Herr' & Hout & Hin);
      [done | done | |].
    { intros ts' Hin. destruct (Hall ts') as (e' & Hts' & Hdated');
        [by right|].
      exists e'. split; [|done]. rewrite Hother; [done|]. by intros ->. }
    exists h', root'. split; [|split; [|split; [|split]]].
    + simpl. erewrite bind_ret_eq; [exact Hrun | exact Hrun1].
    + done.
    + congruence.
    + intros ts' Hnotin'. rewrite Hout by set_solver.
      apply Hother. set_solver.
    + intros [|k] ts' Hk; simpl in Hk.
      * injection Hk as <-. rewrite Hout by done. rewrite Nat.add_0_r.
        unfold root1. destruct (too_recent _ _ _ _); [done|].
        by rewrite lookup_delete_eq.
      * rewrite (Hin k ts' Hk). rewrite Hclk1.
        replace (S (clock_reads h) + k) with (clock_reads h + S k) by lia.
        rewrite Hother; [done|]. intros ->. apply Hnotin.
        by eapply list_elem_of_lookup_2.
Qed.

(** C3: when every entry of the store root is a session directory named by
    its timestamp and holding plain files, the sweep returns normally, and
    for every such directory, taken in sorted order: it is left exactly as
    it was when its age, the clock reading made for it minus the timestamp
    of its name, is strictly below [_MAX_STORED_AGE_S] (28 days); otherwise
    it is gone with everything in it.  Nothing else appears in the root. *)
Theorem sweep_removes_old_sessions start_timestamp h root :
  fs h = Some root →
  map_Forall (dated_session strptime) root →
  let subdirs := sorted (map fst (map_to_list root)) in
  ∃ h' root',
    do_cleanup strptime datetime_now start_timestamp h = (h', Ret tt) ∧
    fs h' = Some root' ∧
    (∀ ts, is_Some (root !! ts) → ts ∈ subdirs) ∧
    (∀ ts, root !! ts = None → root' !! ts = None) ∧
    (∀ k ts, subdirs !! k = Some ts →
             root' !! ts
             = if too_recent strptime datetime_now (clock_reads h + k) ts
               then root !! ts else None).
Proof.
  intros Hfs Hall subdirs.
  destruct h as [st g reads srcs next_src records out err clk].
  simpl in *. subst st.
  assert (∀ ts, ts ∈ subdirs ↔ is_Some (root !! ts)) as Hdom.
  { intros ts. unfold subdirs. rewrite sorted_perm. split.
    - intros [[ts' e] [-> Hin]]%list_elem_of_fmap.
      apply elem_of_map_to_list in Hin. by exists e.
    - intros [e He]. apply list_elem_of_fmap. exists (ts, e).
      split; [done|]. by apply elem_of_map_to_list. }
  unfold do_cleanup.
  erewrite bind_ret_eq; [|reflexivity].
  erewrite bind_ret_eq; [|unfold listdir_root; py_run; reflexivity].
  cbv beta iota.
  erewrite bind_ret_eq; [|reflexivity].
  match goal with |- context [cleanup_each _ _ _ ?h0] =>
    destruct (cleanup_each_result subdirs h0 root)
      as (h' & root' & Hrun & Hfs' & Herr' & Hout & Hin)
  end.
  - done.
  - unfold subdirs. rewrite sorted_perm. apply NoDup_fst_map_to_list.
  - intros ts [e He]%Hdom. exists e. split; [done|]. by apply Hall.
  - exists h', root'. split; [exact Hrun|]. split; [done|].
    split; [intros ts; apply Hdom|]. split.
    + intros ts Hnone. rewrite Hout; [done|].
      intros [e He]%Hdom. congruence.
    + intros k ts Hk. by rewrite (Hin k ts Hk).
Qed.

End Sweep.

Lemma sweep_removes_old_sessions_witness :
  ∃ h' root',
    do_cleanup strptime_written Sample.clock Sample.session
      (Sample.host_with (Some Sample.old_sessions) Sample.autosave_on)
    = (h', Ret tt) ∧
    fs h' = Some root' ∧
    root' !! "20240111-120000" = None ∧
    root' !! "20240210-120000" = Sample.old_sessions !! "20240210-120000" ∧
    root' !! "20240229-120000" = Sample.old_sessions !! "20240229-120000" ∧
    root' !! Sample.session = None.
Proof.
  set (h := Sample.host_with (Some Sample.old_sessions) Sample.autosave_on).
  destruct (sweep_removes_old_sessions strptime_written Sample.clock
              Sample.session h Sample.old_sessions)
    as (h' & root' & Hrun & Hfs & _ & Hout & Hin).
  - reflexivity.
  - apply (bool_decide_eq_true_1
             (map_Forall (dated_session strptime_written) Sample.old_sessions)).
    vm_compute. reflexivity.
  - exists h', root'. split; [exact Hrun|]. split; [exact Hfs|].
    assert (too_recent strptime_written Sample.clock (clock_reads h + 0)
              "20240111-120000" = false) as E0 by (vm_compute; reflexivity).
    assert (too_recent strptime_written Sample.clock (clock_reads h + 1)
              "20240210-120000" = true) as E1 by (vm_compute; reflexivity).
    assert (too_recent strptime_written Sample.clock (clock_reads h + 2)
              "20240229-120000" = true) as E2 by (vm_compute; reflexivity).
    split; [|split; [|split]].
    + rewrite (Hin 0 "20240111-120000"), E0; [done|].
      vm_compute. reflexivity.
    + rewrite (Hin 1 "20240210-120000"), E1; [done|].
      vm_compute. reflexivity.
    + rewrite (Hin 2 "20240229-120000"), E2; [done|].
      vm_compute. reflexivity.
    + apply Hout. vm_compute. reflexivity.
Defined.

(** ** The sweep only removes *)

Lemma entry_kept_refl e : entry_kept e e.
Proof. destruct e; simpl; [reflexivity | done]. Qed.

Lemma entry_kept_trans e1 e2 e3 :
  entry_kept e1 e2 → entry_kept e2 e3 → entry_kept e1 e3.
Proof.
  destruct e1, e2, e3; simpl; try done. intros H12 H23. by etransitivity.
Qed.

#[global] Instance nothing_written_preorder : PreOrder nothing_written.
Proof.
  split.
  - intros [root|]; simpl; [|done]. exists root. split; [done|].
    intros ts e He. exists e. split; [done | apply entry_kept_refl].
  - intros st1 st2 st3 H12 H23. destruct st3 as [root3|]; simpl in *; [|done].
    destruct H23 as (root2 & -> & H23). simpl in H12.
    destruct H12 as (root1 & -> & H12). exists root1. split; [done|].
    intros ts e3 He3. destruct (H23 ts e3 He3) as (e2 & He2 & Hk23).
    destruct (H12 ts e2 He2) as (e1 & He1 & Hk12).
    exists e1. split; [done|]. by eapply entry_kept_trans.
Qed.

Lemma unlink_only_removes st ts name st' :
  unlink st ts name = inr st' → nothing_written st st'.
Proof.
  unfold unlink, session_files. destruct st as [root|]; [|done].
  destruct (root !! ts) as [[files|]|] eqn:Hts; try done.
  destruct (files !! name) as [[t|]|]; try done. intros [= <-].
  exists root. split; [done|]. intros ts' e'.
  destruct (decide (ts' = ts)) as [->|Hne].
  - rewrite lookup_insert_eq. intros [= <-]. exists (SessionDir files).
    split; [done|]. simpl. apply delete_subseteq.
  - rewrite lookup_insert_ne by done. intros He'. exists e'.
    split; [done | apply entry_kept_refl].
Qed.

Lemma rmdir_only_removes st ts st' :
  rmdir st ts = inr st' → nothing_written st st'.
Proof.
  unfold rmdir, session_files. destruct st as [root|]; [|done].
  destruct (root !! ts) as [[files|]|] eqn:Hts; try done.
  case_bool_decide; [|done]. intros [= <-].
  exists root. split; [done|]. intros ts' e' He'.
  apply lookup_delete_Some in He' as [_ He']. exists e'.
  split; [done | apply entry_kept_refl].
Qed.

#[global] Instance swept_preorder : PreOrder swept.
Proof.
  split.
  - intros h. by split; [|split].
  - intros h1 h2 h3 (Hg12 & Hs12 & Hf12) (Hg23 & Hs23 & Hf23).
    split; [congruence|]. split; [congruence|]. by etransitivity.
Qed.

Lemma swept_fs_untouched {A} (m : M host A) :
  (∀ h, gedit_settings (m h).1 = gedit_settings h ∧
        sources (m h).1 = sources h ∧ fs (m h).1 = fs h) →
  Keeps swept m.
Proof.
  intros H h. destruct (H h) as (Hg & Hs & Hf). unfold swept.
  rewrite Hg, Hs, Hf. done.
Qed.

Lemma swept_removal f :
  (∀ st st', f st = inr st' → nothing_written st st') →
  Keeps swept (fs_update f).
Proof.
  intros Hf h. unfold fs_update. destruct (f (fs h)) as [e|st'] eqn:Hrun.
  - reflexivity.
  - simpl. split; [done|]. split; [done|]. by apply Hf.
Qed.

Lemma swept_fs_query {A} (f : store → exn + A) : Keeps swept (fs_query f).
Proof. intros h. unfold fs_query. by destruct (f (fs h)). Qed.

Lemma swept_app_log l format args : Keeps swept (app_log l format args).
Proof. by apply swept_fs_untouched. Qed.

Lemma swept_print line : Keeps swept (print line).
Proof. by apply swept_fs_untouched. Qed.

Lemma swept_now datetime_now : Keeps swept (now datetime_now).
Proof. by apply swept_fs_untouched. Qed.

Lemma swept_unlink ts name :
  Keeps swept (fs_update (fun st => unlink st ts name)).
Proof. apply swept_removal. intros st st'. apply unlink_only_removes. Qed.

Lemma swept_rmdir ts : Keeps swept (fs_update (fun st => rmdir st ts)).
Proof. apply swept_removal. intros st st'. apply rmdir_only_removes. Qed.

Ltac swept_call :=
  auto using swept_fs_query, swept_app_log, swept_print, swept_now,
    swept_unlink, swept_rmdir.

Section SweepKeeps.

Variable strptime : string → option Z.
Variable datetime_now : nat → Z.

Lemma swept_unlink_each ts filenames :
  Keeps swept (unlink_each ts filenames).
Proof.
  induction filenames as [|filename rest IH]; simpl;
    repeat keeps_step; swept_call.
Qed.

Lemma swept_cleanup_subdir ts :
  Keeps swept (cleanup_subdir strptime datetime_now ts).
Proof.
  unfold cleanup_subdir, parse_timestamp.
  repeat keeps_step; auto using swept_unlink_each; swept_call.
Qed.

Lemma swept_cleanup_each subdirs :
  Keeps swept (cleanup_each strptime datetime_now subdirs).
Proof.
  induction subdirs as [|ts rest IH]; simpl;
    repeat keeps_step; auto using swept_cleanup_subdir.
Qed.

Lemma swept_do_cleanup ts : Keeps swept (do_cleanup strptime datetime_now ts).
Proof.
  unfold do_cleanup.
  repeat keeps_step; auto using swept_cleanup_each; swept_call.
Qed.

End SweepKeeps.

(** ** A process with the toggle off *)

Lemma step_idle_settings ts ev s :
  Idle s →
  gedit_settings (the_host (step ts ev s))
  = match ev with
    | SettingsChanged g => g
    | _ => gedit_settings (the_host s)
    end.
Proof.
  intros Hidle. pose proof Hidle as (Hw & Hdoc & Hen & Hnone & Hsrc).
  destruct ev as [new_text still|i|name| |g]; simpl.
  - done.
  - destruct (sources (the_host s) !! i) as [[owner seconds]|] eqn:Hi; [|done].
    rewrite bool_decide_eq_false_2; [done|]. by eapply Hsrc.
  - by rewrite Hnone, elements_empty.
  - unfold dispatch. by rewrite do_deactivate_idle.
  - done.
Qed.

Section DisabledProcess.

Variable strptime : string → option Z.
Variable datetime_now : nat → Z.
Variable start_timestamp : string.

Abbreviation pstep := (process_step strptime datetime_now start_timestamp).
Abbreviation prun := (process_run strptime datetime_now start_timestamp).

Lemma process_step_disabled ev p :
  all_disabled p →
  toggle_off ev = true →
  all_disabled (pstep ev p) ∧
  nothing_written (fs (shared p)) (fs (shared (pstep ev p))) ∧
  (is_app_start ev = false →
   fs (shared (pstep ev p)) = fs (shared p)).
Proof.
  intros (Hoff & Hsrc & Hviews) Hev. unfold all_disabled.
  destruct ev as [|name is_untitled is_untouched content|v ev]; simpl.
  - (* the sweep *)
    pose proof (swept_do_cleanup strptime datetime_now start_timestamp
                  (shared p)) as (Hg & Hs & Hfs).
    unfold app_do_activate.
    destruct (do_cleanup _ _ _ (shared p)) as [h' [[]|e]]; simpl in *.
    + split; [|done]. split; [congruence|]. split; [congruence|done].
    + split; [|done]. split; [congruence|]. split; [congruence|done].
  - (* a view is opened *)
    set (d := Document name is_untitled is_untouched content ∅ 1).
    destruct (activate_idle start_timestamp (shared p) (length (views p)) d)
      as ((Hw & Hdoc & _ & Hnone & _) & Hsame & _ & Hen).
    { split; [done|]. intros i owner seconds. by rewrite Hsrc, lookup_empty. }
    { by left. }
    destruct Hsame as (Hfs & Hg & Hsrcs & _).
    rewrite Hoff in Hen.
    split; [|split].
    + split; [congruence|]. split; [congruence|].
      apply Forall_app. split; [done|]. by apply Forall_singleton.
    + rewrite Hfs. reflexivity.
    + done.
  - (* something happens to view [v] *)
    destruct (views p !! v) as [[d w]|] eqn:Hv; [|done].
    pose proof (Forall_lookup_1 _ _ _ _ Hviews Hv) as (Hw & Hdoc & Hen & Hnone).
    simpl in *.
    assert (Idle (Sys (shared p) v d w)) as Hidle.
    { split; [done|]. split; [done|]. split; [by eexists|]. split; [done|].
      intros i owner seconds. simpl. by rewrite Hsrc, lookup_empty. }
    destruct (step_idle start_timestamp ev _ Hidle)
      as ((Hw' & Hdoc' & _ & Hnone' & _) & Hobj & _ & Hfs & Hsrcs & _).
    pose proof (step_idle_settings start_timestamp ev _ Hidle) as Hg.
    simpl in *. split; [|split].
    + split; [|split].
      * rewrite Hg. destruct ev; try done. simpl in Hev.
        by apply negb_true_iff in Hev.
      * congruence.
      * apply Forall_insert; [done|]. split; [done|]. split; [done|].
        simpl. rewrite Hobj. done.
    + rewrite Hfs. reflexivity.
    + done.
Qed.

Lemma process_run_disabled evs :
  ∀ p,
    all_disabled p →
    forallb toggle_off evs = true →
    all_disabled (prun evs p) ∧
    nothing_written (fs (shared p)) (fs (shared (prun evs p))) ∧
    (forallb (fun ev => negb (is_app_start ev)) evs = true →
     fs (shared (prun evs p)) = fs (shared p)).
Proof.
  induction evs as [|ev evs IH]; intros p Hp Hevs.
  { split; [done|]. split; [reflexivity | done]. }
  simpl in Hevs. apply andb_prop in Hevs as [Hev Hevs].
  destruct (process_step_disabled ev p Hp Hev) as (Hp1 & Hfs1 & Hsame1).
  destruct (IH _ Hp1 Hevs) as (Hp' & Hfs' & Hsame').
  split; [exact Hp'|]. split.
  - etransitivity; [exact Hfs1 | exact Hfs'].
  - simpl. intros [Hno Hnos]%andb_prop.
    unfold process_run in *. simpl.
    rewrite Hsame' by done. apply Hsame1. by apply negb_true_iff.
Qed.

(** C7: in a process that starts with the toggle off, and in which the
    toggle stays off, no view ever enters Watching (its enabled check is
    cached as false, no handler is connected to its buffer, no timeout
    source exists), and nothing is ever written to the store: every
    directory and file of the store was there at the start with the same
    contents, and the store is exactly as it was at the start when no sweep
    was run.  This holds after any sequence of sweeps, openings of views,
    edits, saves, deactivations and changes of the other settings. *)
Theorem disabled_toggle_writes_nothing st g evs :
  booleans g "auto-save" = false →
  forallb toggle_off evs = true →
  let p := prun evs (boot st g) in
  nothing_written st (fs (shared p)) ∧
  (forallb (fun ev => negb (is_app_start ev)) evs = true →
   fs (shared p) = st) ∧
  sources (shared p) = ∅ ∧
  ∀ v d w, views p !! v = Some (d, w) →
           watch_state w = false ∧ enabled w = Some false ∧
           saved_handlers d = ∅.
Proof.
  intros Hoff Hevs.
  destruct (process_run_disabled evs (boot st g))
    as ((_ & Hsrc & Hviews) & Hfs & Hsame); [|done|].
  { split; [done|]. split; [done|]. apply Forall_nil_2. }
  split; [exact Hfs|]. split; [exact Hsame|]. split; [exact Hsrc|].
  intros v d w Hv.
  pose proof (Forall_lookup_1 _ _ _ _ Hviews Hv) as (Hw & _ & Hen & Hnone).
  done.
Qed.

End DisabledProcess.

Lemma disabled_toggle_writes_nothing_witness :
  let p := process_run strptime_written Sample.clock Sample.session
             [Open Sample.doc_name true true ""; At 0 (Edit "abc" false);
              At 0 (Tick 1); At 0 (SettingsChanged Sample.autosave_off);
              Open "Untitled Document 2" true false "x"; At 1 (Tick 1);
              At 0 (Saved "x.txt"); At 0 Deactivate]
             (boot None Sample.autosave_off) in
  fs (shared p) = None ∧ sources (shared p) = ∅.
Proof.
  destruct (disabled_toggle_writes_nothing strptime_written Sample.clock
              Sample.session None Sample.autosave_off
              [Open Sample.doc_name true true ""; At 0 (Edit "abc" false);
               At 0 (Tick 1); At 0 (SettingsChanged Sample.autosave_off);
               Open "Untitled Document 2" true false "x"; At 1 (Tick 1);
               At 0 (Saved "x.txt"); At 0 Deactivate])
    as (_ & Hfs & Hsrc & _).
  - reflexivity.
  - reflexivity.
  - split; [apply Hfs; reflexivity | exact Hsrc].
Defined.

(** * Further properties of the code *)

(** ** Activation and deactivation *)

(** What [do_activate] leaves behind on an untitled document with the
    toggle on. *)
Lemma do_activate_watching ts h v d :
  booleans (gedit_settings h) "auto-save" = true →
  untitled d = true →
  ∃ s, do_activate ts (new_view h v d) = (s, Ret tt) ∧
       Watching ts (short_name d) s ∧
       save_timer_id (obj s) = Some (next_source_id h) ∧
       sources (the_host s)
       = <[ next_source_id h :=
              (v, (uints (gedit_settings h) "auto-save-interval" * 60)%N) ]>
           (sources h) ∧
       sig_saved (obj s) = Some (next_handler_id d) ∧
       saved_handlers (buffer s) = {[ next_handler_id d ]} ∪ saved_handlers d ∧
       short_name (buffer s) = short_name d ∧
       untouched (buffer s) = untouched d ∧ text (buffer s) = text d ∧
       fs (the_host s) = fs h ∧ stderr (the_host s) = stderr h.
Proof.
  intros Hon Hun.
  destruct (is_enabled_first
              (set_obj (set_has_document true fresh_watcher)
                       (new_view h v d)))
    as (s2 & Hrun & Hobj & Hbuf & Hself & Hhost & _); [done..|].
  simpl in Hrun, Hobj, Hbuf, Hself, Hhost. rewrite Hon in Hrun, Hobj.
  unfold do_activate.
  erewrite bind_ret_eq; [|reflexivity].
  erewrite bind_ret_eq; [|exact Hrun].
  clear Hrun. destruct Hhost as (Hfs & Hg & Hsrc & Hnext & _ & Herr & _).
  open_state s2.
  eexists. split; [py_run; reflexivity|].
  unfold Watching. simpl. naive_solver.
Qed.

(** X1: activating a view on an untitled document with the toggle on returns
    normally and starts the watch: the temporary file path is the session
    directory joined with the display name, one timeout source is added
    under a fresh id, owned by the view, with an interval of sixty times
    the 'auto-save-interval' setting, one handler is connected to 'saved',
    and the store is not touched (no directory is made yet). *)
Theorem activation_starts_watch ts h v d :
  booleans (gedit_settings h) "auto-save" = true →
  untitled d = true →
  ∃ s, do_activate ts (new_view h v d) = (s, Ret tt) ∧
       Watching ts (short_name d) s ∧
       save_timer_id (obj s) = Some (next_source_id h) ∧
       sources (the_host s)
       = <[ next_source_id h :=
              (v, (uints (gedit_settings h) "auto-save-interval" * 60)%N) ]>
           (sources h) ∧
       sig_saved (obj s) = Some (next_handler_id d) ∧
       saved_handlers (buffer s) = {[ next_handler_id d ]} ∪ saved_handlers d ∧
       short_name (buffer s) = short_name d ∧
       untouched (buffer s) = untouched d ∧ text (buffer s) = text d ∧
       fs (the_host s) = fs h.
Proof.
  intros Hon Hun.
  destruct (do_activate_watching ts h v d Hon Hun)
    as (s & Hrun & Hw & Hi & Hsrc & Hh & Hhs & Hname & Hu & Ht & Hfs & _).
  exists s. done.
Qed.

Lemma activation_starts_watch_witness :
  ∃ s, do_activate Sample.session
         (new_view (Sample.host_with None Sample.autosave_on) 0 Sample.unnamed)
       = (s, Ret tt) ∧
       sources (the_host s) = {[ 1 := (0, 600%N) ]} ∧
       fs (the_host s) = None.
Proof.
  destruct (activation_starts_watch Sample.session
              (Sample.host_with None Sample.autosave_on) 0 Sample.unnamed)
    as (s & Hrun & _ & _ & Hsrc & _ & _ & _ & _ & _ & Hfs).
  - reflexivity.
  - reflexivity.
  - exists s. split; [exact Hrun|]. split; [|exact Hfs].
    rewrite Hsrc. vm_compute. reflexivity.
Defined.

(** X2: a view activated on a document that already has a name never
    watches it, toggle on or off: whatever edits, timeouts, 'saved' signals,
    deactivations and settings changes follow, the store and the timeout
    sources of the host are as they were before the activation, no handler
    is connected to the buffer, and no callback raised. *)
Theorem named_document_is_left_alone ts h v d evs :
  unknown_to_host h v d →
  untitled d = false →
  let s := run ts evs (activate ts (new_view h v d)) in
  watch_state (obj s) = false ∧
  fs (the_host s) = fs h ∧
  sources (the_host s) = sources h ∧
  saved_handlers (buffer s) = ∅ ∧
  stderr (the_host s) = stderr h.
Proof.
  intros Hnew Hnamed.
  destruct (activate_idle ts h v d Hnew) as (Hidle & Hsame & _); [by right|].
  destruct (run_idle ts evs _ Hidle)
    as ((Hw & _ & _ & Hnone & _) & _ & _ & Hfs & Hsrc & _ & Herr & _).
  destruct Hsame as (Hfs0 & _ & Hsrc0 & _ & _ & Herr0 & _).
  cbv zeta. rewrite Hfs, Hsrc, Herr. done.
Qed.

Lemma named_document_is_left_alone_witness :
  let s := run Sample.session
             [Edit "x" false; Tick 1; Saved "y.txt"; Deactivate]
             (activate Sample.session
                (new_view (Sample.host_with (Some Sample.old_sessions)
                                            Sample.autosave_on)
                          0 Sample.named)) in
  fs (the_host s) = Some Sample.old_sessions ∧ sources (the_host s) = ∅.
Proof.
  destruct (named_document_is_left_alone Sample.session
              (Sample.host_with (Some Sample.old_sessions) Sample.autosave_on)
              0 Sample.named
              [Edit "x" false; Tick 1; Saved "y.txt"; Deactivate])
    as (_ & Hfs & Hsrc & _).
  - split; [reflexivity|]. intros i owner seconds H.
    vm_compute in H. discriminate.
  - reflexivity.
  - split; [exact Hfs | exact Hsrc].
Defined.

(** X3: activation followed by deactivation undoes what the activation
    registered.  When the ids handed out by the host and by the buffer are
    fresh, the timeout sources of the host and the handlers of the buffer
    are again what they were, the watcher holds neither a timer id nor a
    handler id, and the store was not touched. *)
Theorem activate_then_deactivate ts h v d :
  booleans (gedit_settings h) "auto-save" = true →
  untitled d = true →
  sources h !! next_source_id h = None →
  next_handler_id d ∉ saved_handlers d →
  let s := run ts [Deactivate] (activate ts (new_view h v d)) in
  watch_state (obj s) = false ∧
  save_timer_id (obj s) = None ∧ sig_saved (obj s) = None ∧
  sources (the_host s) = sources h ∧
  saved_handlers (buffer s) = saved_handlers d ∧
  fs (the_host s) = fs h ∧
  stderr (the_host s) = stderr h.
Proof.
  intros Hon Hun Hfresh Hnew.
  destruct (do_activate_watching ts h v d Hon Hun)
    as (s1 & Hrun & Hw & Hi & Hsrc & Hh & Hhs & _ & _ & _ & Hfs & Herr).
  destruct (watch_stop_watching ts _ s1 _ _ Hw Hi Hh)
    as (s2 & Hstop & Hws & Hti & Hsg & _ & _ & _ & Hsrc2 & Hhs2 & _ & Hfs2
        & Herr2).
  pose proof Hw as (_ & _ & Hen & _).
  assert (do_deactivate s1 = (s2, Ret tt)) as Hde.
  { unfold do_deactivate.
    erewrite bind_ret_eq; [|by apply is_enabled_cached]. exact Hstop. }
  unfold run, activate, dispatch. simpl. rewrite Hrun.
  unfold dispatch. rewrite Hde.
  rewrite Hsrc2, Hhs2, Hfs2, Herr2, Hsrc, Hhs.
  rewrite delete_insert_id by done.
  repeat split; try done.
  rewrite difference_union_distr_l_L, difference_diag_L, (left_id_L ∅ (∪)).
  apply difference_disjoint_L. by apply disjoint_singleton_r.
Qed.

Lemma activate_then_deactivate_witness :
  let s := run Sample.session [Deactivate] Sample.watched in
  sources (the_host s) = ∅ ∧ saved_handlers (buffer s) = ∅.
Proof.
  destruct (activate_then_deactivate Sample.session
              (Sample.host_with None Sample.autosave_on) 0 Sample.unnamed)
    as (_ & _ & _ & Hsrc & Hhs & _).
  - reflexivity.
  - reflexivity.
  - reflexivity.
  - apply not_elem_of_empty.
  - split; [exact Hsrc | exact Hhs].
Defined.

(** X4: [do_deactivate] on an extension that was never activated raises
    [AttributeError]: the enabled check reads the two settings and caches
    them, then its log call needs the document for the name prefix, and
    [__document] is not assigned yet.  Nothing of the host but the log and
    the record of settings reads has changed, and because the toggle is
    cached, a second [do_deactivate] returns normally and changes
    nothing. *)
Theorem deactivate_before_activate h v d :
  ∃ s', do_deactivate (new_view h v d) = (s', Raise AttributeError) ∧
        enabled (obj s') = Some (booleans (gedit_settings h) "auto-save") ∧
        watch_state (obj s') = false ∧
        fs (the_host s') = fs h ∧ sources (the_host s') = sources h ∧
        do_deactivate s' = (s', Ret tt).
Proof.
  destruct h as [st [bs us] reads srcs next_src records out err clk].
  destruct d as [d_name d_untitled d_untouched d_text d_handlers d_next].
  destruct (bs "auto-save") eqn:Hb.
  - eexists. split; [py_run; rewrite Hb; reflexivity|]. simpl.
    rewrite Hb. repeat split.
  - eexists. split; [py_run; rewrite Hb; reflexivity|]. simpl.
    rewrite Hb. repeat split.
Qed.

(** ** Where the watcher writes *)

#[global] Instance confined_preorder ts p : PreOrder (confined ts p).
Proof.
  split.
  - intros st. split; by intros.
  - intros st1 st2 st3 [Hr12 Hf12] [Hr23 Hf23]. split.
    + intros Hp ts' Hne. rewrite Hr23 by done. by apply Hr12.
    + intros ts' name' Hne. rewrite Hf23 by done. by apply Hf12.
Qed.

Lemma confined_makedirs ts p st st' :
  makedirs st ts = inr st' → confined ts p st st'.
Proof.
  unfold makedirs. intros H. split.
  - intros _ ts' Hne. unfold root_entry. destruct st as [root|].
    + destruct (root !! ts); [done|]. injection H as <-.
      by rewrite lookup_insert_ne.
    + injection H as <-. by rewrite lookup_singleton_ne.
  - intros ts' name' _. unfold file_at, session_files.
    destruct st as [root|].
    + destruct (root !! ts) eqn:Hts; [done|]. injection H as <-.
      destruct (decide (ts' = ts)) as [->|Hne].
      * by rewrite lookup_insert_eq, Hts, lookup_empty.
      * by rewrite lookup_insert_ne.
    + injection H as <-.
      destruct (decide (ts' = ts)) as [->|Hne].
      * by rewrite lookup_singleton_eq, lookup_empty.
      * by rewrite lookup_singleton_ne.
Qed.

Lemma confined_rmdir ts p st st' :
  rmdir st ts = inr st' → confined ts p st st'.
Proof.
  unfold rmdir, session_files. intros H.
  destruct st as [root|]; [|done].
  destruct (root !! ts) as [[files|]|] eqn:Hts; try done.
  case_bool_decide as Hempty; [|done]. injection H as <-. subst files. split.
  - intros _ ts' Hne. simpl. by rewrite lookup_delete_ne.
  - intros ts' name' _. unfold file_at, session_files.
    destruct (decide (ts' = ts)) as [->|Hne].
    + by rewrite lookup_delete_eq, Hts, lookup_empty.
    + by rewrite lookup_delete_ne.
Qed.

Lemma confined_open_write ts ts0 name text st st' :
  open_write st ts0 name text = inr st' →
  confined ts (Some (ts0, name)) st st'.
Proof.
  unfold open_write, session_files. intros H.
  destruct st as [root|]; [|done].
  destruct (root !! ts0) as [[files|]|] eqn:Hts; try done.
  assert (st' = Some (<[ ts0 := SessionDir (<[ name := File text ]> files) ]>
                        root)) as ->.
  { destruct (files !! name) as [[t|]|]; [|done|]; by injection H as <-. }
  clear H. split.
  - intros Hp ts' Hne. specialize (Hp _ eq_refl). simpl in Hp. subst ts0.
    simpl. by rewrite lookup_insert_ne.
  - intros ts' name' Hne. unfold file_at, session_files.
    destruct (decide (ts' = ts0)) as [->|Hne'].
    + rewrite lookup_insert_eq, Hts. apply lookup_insert_ne. congruence.
    + by rewrite lookup_insert_ne.
Qed.

Lemma confined_unlink ts ts0 name st st' :
  unlink st ts0 name = inr st' →
  confined ts (Some (ts0, name)) st st'.
Proof.
  unfold unlink, session_files. intros H.
  destruct st as [root|]; [|done].
  destruct (root !! ts0) as [[files|]|] eqn:Hts; try done.
  destruct (files !! name) as [[t|]|]; try done. injection H as <-. split.
  - intros Hp ts' Hne. specialize (Hp _ eq_refl). simpl in Hp. subst ts0.
    simpl. by rewrite lookup_insert_ne.
  - intros ts' name' Hne. unfold file_at, session_files.
    destruct (decide (ts' = ts0)) as [->|Hne'].
    + rewrite lookup_insert_eq, Hts. apply lookup_delete_ne. congruence.
    + by rewrite lookup_insert_ne.
Qed.

#[global] Instance in_session_preorder ts : PreOrder (in_session ts).
Proof.
  split.
  - intros s. split; [done | reflexivity].
  - intros s1 s2 s3 [Hp12 Hf12] [Hp23 Hf23]. split; [congruence|].
    rewrite Hp12 in Hf23. by etransitivity.
Qed.

Lemma in_session_unchanged ts s s' :
  file_path (obj s') = file_path (obj s) →
  fs (the_host s') = fs (the_host s) → in_session ts s s'.
Proof. intros Ho Hf. split; [done|]. rewrite Hf. reflexivity. Qed.

Lemma in_session_store_unsaved_cb ts :
  Keeps (in_session ts) (store_unsaved_cb ts).
Proof.
  intros s. open_state s.
  destruct w_doc; [|by (apply in_session_unchanged; py_run)].
  destruct d_untouched; [by (apply in_session_unchanged; py_run)|].
  destruct (path_exists st ts) eqn:Hex.
  - destruct w_path as [[ts0 name]|].
    2:{ apply in_session_unchanged; py_run; by rewrite Hex. }
    destruct (open_write st ts0 name d_text) as [e|st2] eqn:Hwrite.
    + apply in_session_unchanged; py_run; rewrite Hex; simpl;
        by rewrite Hwrite.
    + py_run. rewrite Hex. simpl. rewrite Hwrite. simpl.
      split; [done|]. simpl. by eapply confined_open_write.
  - destruct (makedirs st ts) as [e|st1] eqn:Hmk.
    { apply in_session_unchanged; py_run; rewrite Hex; simpl; by rewrite Hmk. }
    destruct w_path as [[ts0 name]|].
    2:{ py_run. rewrite Hex. simpl. rewrite Hmk. simpl.
        split; [done|]. simpl. by apply confined_makedirs. }
    destruct (open_write st1 ts0 name d_text) as [e|st2] eqn:Hwrite.
    + py_run. rewrite Hex. simpl. rewrite Hmk. simpl. rewrite Hwrite. simpl.
      split; [done|]. simpl. by apply confined_makedirs.
    + py_run. rewrite Hex. simpl. rewrite Hmk. simpl. rewrite Hwrite. simpl.
      split; [done|]. simpl.
      etransitivity; [by apply confined_makedirs|].
      by eapply confined_open_write.
Qed.

Lemma in_session_watch_stop ts : Keeps (in_session ts) watch_stop.
Proof.
  intros s. open_state s.
  destruct w_state; [|by (apply in_session_unchanged; py_run)].
  destruct w_doc; [|by (apply in_session_unchanged; py_run)].
  destruct w_timer as [i|]; [|by (apply in_session_unchanged; py_run)].
  destruct w_sig as [hid|]; by (apply in_session_unchanged; py_run).
Qed.

Lemma in_session_cleanup_temp_file ts :
  Keeps (in_session ts) (cleanup_temp_file ts).
Proof.
  intros s. open_state s.
  destruct w_path as [[ts0 name]|]; [|by (apply in_session_unchanged; py_run)].
  destruct w_doc; [|by (apply in_session_unchanged; py_run)].
  destruct (unlink st ts0 name) as [e|st1] eqn:Hun.
  { apply in_session_unchanged; py_run; by rewrite Hun. }
  apply (confined_unlink ts) in Hun as Hframe.
  destruct (listdir st1 ts) as [e|names] eqn:Hls.
  { py_run. rewrite Hun. simpl. rewrite Hls. simpl. by split. }
  destruct (Nat.ltb 0 (length names)) eqn:Hlen.
  { py_run. rewrite Hun. simpl. rewrite Hls. simpl. rewrite Hlen. simpl.
    by split. }
  destruct (rmdir st1 ts) as [e|st2] eqn:Hrm.
  - py_run. rewrite Hun. simpl. rewrite Hls. simpl. rewrite Hlen. simpl.
    rewrite Hrm. simpl. by split.
  - py_run. rewrite Hun. simpl. rewrite Hls. simpl. rewrite Hlen. simpl.
    rewrite Hrm. simpl. split; [done|]. simpl.
    etransitivity; [exact Hframe|]. by apply confined_rmdir.
Qed.

Lemma in_session_on_saved ts : Keeps (in_session ts) (on_saved ts).
Proof.
  unfold on_saved. repeat keeps_step.
  - by apply keeps_gets, in_session_preorder.
  - apply in_session_watch_stop.
  - apply in_session_cleanup_temp_file.
Qed.

Lemma in_session_is_enabled ts : Keeps (in_session ts) is_enabled.
Proof.
  intros s. open_state s. destruct g as [bs us].
  destruct w_enabled as [b|]; [by (apply in_session_unchanged; py_run)|].
  destruct w_doc, (bs "auto-save") eqn:Hb;
    apply in_session_unchanged; py_run; by rewrite Hb.
Qed.

Lemma in_session_do_deactivate ts : Keeps (in_session ts) do_deactivate.
Proof.
  unfold do_deactivate. repeat keeps_step.
  - apply in_session_is_enabled.
  - apply in_session_watch_stop.
Qed.

Lemma in_session_step ts ev s : in_session ts s (step ts ev s).
Proof.
  destruct ev as [new_text still|i|name| |g]; simpl.
  - by apply in_session_unchanged.
  - destruct (sources (the_host s) !! i) as [[owner seconds]|]; [|reflexivity].
    case_bool_decide; [|reflexivity].
    pose proof (in_session_store_unsaved_cb ts s) as Hrun.
    unfold dispatch_timeout.
    destruct (store_unsaved_cb ts s) as [s' [[]|e]]; exact Hrun.
  - generalize (elements (saved_handlers (buffer s))) as l. intros l.
    etransitivity;
      [apply (in_session_unchanged ts s
                (set_buffer (name_buffer name (buffer s)) s)); done|].
    generalize (set_buffer (name_buffer name (buffer s)) s) as s1.
    intros s1. induction l as [|hid l IH]; simpl; [reflexivity|].
    etransitivity; [exact IH|].
    match goal with |- in_session _ ?s2 _ => generalize s2 end.
    intros s2. pose proof (in_session_on_saved ts s2) as Hrun.
    unfold dispatch. destruct (on_saved ts s2) as [s' [[]|e]]; exact Hrun.
  - pose proof (in_session_do_deactivate ts s) as Hrun.
    unfold dispatch. destruct (do_deactivate s) as [s' [[]|e]]; exact Hrun.
  - by apply in_session_unchanged.
Qed.

Lemma in_session_run ts evs : ∀ s, in_session ts s (run ts evs s).
Proof.
  induction evs as [|ev evs IH]; intros s; [reflexivity|].
  rewrite run_cons. etransitivity; [apply in_session_step | apply IH].
Qed.

Lemma activate_in_session ts h v d :
  let s := activate ts (new_view h v d) in
  (file_path (obj s) = None ∨ file_path (obj s) = Some (ts, short_name d)) ∧
  fs (the_host s) = fs h.
Proof.
  destruct (is_enabled_first
              (set_obj (set_has_document true fresh_watcher)
                       (new_view h v d)))
    as (s2 & Hrun & Hobj & Hbuf & Hself & Hhost & _); [done..|].
  simpl in Hrun, Hobj, Hbuf, Hself, Hhost.
  unfold activate, dispatch, do_activate.
  erewrite bind_ret_eq; [|reflexivity].
  erewrite bind_ret_eq; [|exact Hrun].
  clear Hrun. destruct Hhost as (Hfs & _).
  destruct (untitled d) eqn:Hun.
  - open_state s2.
    destruct (booleans (gedit_settings h) "auto-save"); py_run; auto.
  - open_state s2.
    destruct (booleans (gedit_settings h) "auto-save"); py_run; auto.
Qed.

(** X5: a timeout callback of a watcher that is Watching, whether it returns
    or raises, changes nothing of the watcher, the buffer, the timeout
    sources or the settings, and in the store nothing but its own temporary
    file (and the session directory that holds it): every other entry of
    the store root and every other file of the session directory is as it
    was. *)
Theorem tick_changes_only_its_file ts name s :
  Watching ts name s →
  let s' := (store_unsaved_cb ts s).1 in
  obj s' = obj s ∧ buffer s' = buffer s ∧
  sources (the_host s') = sources (the_host s) ∧
  gedit_settings (the_host s') = gedit_settings (the_host s) ∧
  settings_reads (the_host s') = settings_reads (the_host s) ∧
  (∀ ts', ts' ≠ ts →
     root_entry (fs (the_host s')) ts' = root_entry (fs (the_host s)) ts') ∧
  (∀ name', name' ≠ name →
     file_at (fs (the_host s')) ts name' = file_at (fs (the_host s)) ts name').
Proof.
  intros Hw.
  pose proof (in_session_store_unsaved_cb ts s) as [_ [Hroot Hfile]].
  pose proof Hw as (_ & _ & _ & _ & _ & _ & Hfp). rewrite Hfp in Hroot, Hfile.
  assert (let s' := (store_unsaved_cb ts s).1 in
          obj s' = obj s ∧ buffer s' = buffer s ∧
          sources (the_host s') = sources (the_host s) ∧
          gedit_settings (the_host s') = gedit_settings (the_host s) ∧
          settings_reads (the_host s') = settings_reads (the_host s))
    as (Ho & Hb & Hsrc & Hg & Hreads).
  { clear Hroot Hfile. watching_fields Hw. open_state s.
    destruct d_untouched; [by py_run|].
    destruct (path_exists st ts) eqn:Hex.
    - destruct (open_write st ts name d_text) as [e|st2] eqn:Hwrite;
        py_run; rewrite Hex; simpl; rewrite Hwrite; done.
    - destruct (makedirs st ts) as [e|st1] eqn:Hmk.
      + py_run. rewrite Hex. simpl. rewrite Hmk. done.
      + destruct (open_write st1 ts name d_text) as [e|st2] eqn:Hwrite;
          py_run; rewrite Hex; simpl; rewrite Hmk; simpl; rewrite Hwrite;
          done. }
  cbv zeta. split; [done|]. split; [done|]. split; [done|].
  split; [done|]. split; [done|]. split.
  - apply Hroot. by intros q [= <-].
  - intros name' Hne. apply Hfile. congruence.
Qed.

Lemma tick_changes_only_its_file_witness :
  file_at (fs (the_host (store_unsaved_cb Sample.session Sample.second).1))
    Sample.session "Untitled Document 2"
  = Some (File "other").
Proof.
  destruct (tick_changes_only_its_file Sample.session Sample.doc_name
              Sample.second)
    as (_ & _ & _ & _ & _ & _ & Hfile).
  - apply watching_by_check. vm_compute. reflexivity.
  - rewrite Hfile by discriminate. vm_compute. reflexivity.
Defined.

(** X6: over its whole life a view changes no file but its own temporary
    file.  From the activation on, whatever edits, timeouts, 'saved'
    signals, deactivations and settings changes follow, and whether
    callbacks return or raise: every entry of the store root other than the
    session directory is as it was, and so is every file other than the one
    named by the display name the document had at the activation. *)
Theorem view_changes_only_its_own_file ts h v d evs :
  let s := run ts evs (activate ts (new_view h v d)) in
  (∀ ts', ts' ≠ ts →
     root_entry (fs (the_host s)) ts' = root_entry (fs h) ts') ∧
  (∀ ts' name', (ts', name') ≠ (ts, short_name d) →
     file_at (fs (the_host s)) ts' name' = file_at (fs h) ts' name').
Proof.
  destruct (activate_in_session ts h v d) as [Hp Hfs].
  destruct (in_session_run ts evs (activate ts (new_view h v d)))
    as [_ [Hroot Hfile]].
  cbv zeta. rewrite <- Hfs. split.
  - apply Hroot. intros q Hq. destruct Hp as [Hp|Hp]; rewrite Hp in Hq.
    + discriminate.
    + by injection Hq as <-.
  - intros ts' name' Hne. apply Hfile.
    destruct Hp as [Hp|Hp]; rewrite Hp; congruence.
Qed.

(** ** The 'saved' signal when the temporary file is there *)

Lemma without_temp_file_entry st ts name files t :
  root_entry st ts = Some (SessionDir files) →
  files !! name = Some (File t) →
  root_entry (without_temp_file st ts name) ts
  = (if bool_decide (delete name files = ∅) then None
     else Some (SessionDir (delete name files))) ∧
  ∀ ts', ts' ≠ ts →
    root_entry (without_temp_file st ts name) ts' = root_entry st ts'.
Proof.
  unfold root_entry, without_temp_file. destruct st as [root|]; [|done].
  intros -> _. case_bool_decide; simpl.
  - split; [by rewrite lookup_delete_eq|].
    intros ts' Hne. by rewrite lookup_delete_ne.
  - split; [by rewrite lookup_insert_eq|].
    intros ts' Hne. by rewrite lookup_insert_ne.
Qed.

(** X7: when the temporary file of a watcher that is Watching exists,
    [__on_saved] returns normally: the timeout source is removed, the
    handler disconnected, the file deleted; the session directory is removed
    exactly when the file was its last entry, and stays with its other
    entries otherwise; the rest of the store is as it was. *)
Theorem saved_removes_temp_file ts name s i hid files t :
  Watching ts name s →
  save_timer_id (obj s) = Some i →
  sig_saved (obj s) = Some hid →
  root_entry (fs (the_host s)) ts = Some (SessionDir files) →
  files !! name = Some (File t) →
  ∃ s', on_saved ts s = (s', Ret tt) ∧
        watch_state (obj s') = false ∧
        sources (the_host s') = delete i (sources (the_host s)) ∧
        saved_handlers (buffer s') = saved_handlers (buffer s) ∖ {[ hid ]} ∧
        root_entry (fs (the_host s')) ts
        = (if bool_decide (delete name files = ∅) then None
           else Some (SessionDir (delete name files))) ∧
        ∀ ts', ts' ≠ ts →
          root_entry (fs (the_host s')) ts' = root_entry (fs (the_host s)) ts'.
Proof.
  intros Hw Hi Hh Hdir Hfile.
  destruct (on_saved_watching ts name s i hid Hw Hi Hh)
    as (s' & o & Hrun & Hws & _ & _ & Hsrc & Hhs & _ & Hres).
  assert (file_at (fs (the_host s)) ts name = Some (File t)) as Hat.
  { unfold file_at, session_files. unfold root_entry in Hdir.
    destruct (fs (the_host s)) as [root|]; [|done]. by rewrite Hdir. }
  rewrite Hat in Hres. destruct Hres as [-> Hfs].
  exists s'. split; [done|]. rewrite Hfs.
  destruct (without_temp_file_entry _ ts name files t Hdir Hfile) as [H1 H2].
  done.
Qed.

Lemma saved_removes_temp_file_witness :
  ∃ s', on_saved Sample.session Sample.stored = (s', Ret tt) ∧
        root_entry (fs (the_host s')) Sample.session = None.
Proof.
  destruct (saved_removes_temp_file Sample.session Sample.doc_name
              Sample.stored 1 1 {[ Sample.doc_name := File "first draft" ]}
              "first draft")
    as (s' & Hrun & _ & _ & _ & Hdir & _).
  - apply watching_by_check. vm_compute. reflexivity.
  - vm_compute. reflexivity.
  - vm_compute. reflexivity.
  - vm_compute. reflexivity.
  - vm_compute. reflexivity.
  - exists s'. split; [exact Hrun|]. rewrite Hdir. vm_compute. reflexivity.
Defined.

Lemma own_session_storable ts name st :
  own_session ts name st → storable st ts name = true.
Proof.
  unfold own_session, root_entry, storable. destruct st as [root|]; [|done].
  intros [->|[t ->]]; [done|]. by rewrite lookup_singleton_eq.
Qed.

Lemma own_session_other_file ts name st name' :
  own_session ts name st → name' ≠ name → file_at st ts name' = None.
Proof.
  unfold own_session, root_entry, file_at, session_files.
  destruct st as [root|]; [|done].
  intros [->|[t ->]] Hne; [done|]. by rewrite lookup_singleton_ne.
Qed.

Lemma tick_own_session ts name s s' :
  Watching ts name s →
  own_session ts name (fs (the_host s)) →
  store_unsaved_cb ts s = (s', Ret true) →
  own_session ts name (fs (the_host s')) ∧
  ∀ ts', ts' ≠ ts →
    root_entry (fs (the_host s')) ts' = root_entry (fs (the_host s)) ts'.
Proof.
  intros Hw Hown Hrun.
  pose proof (in_session_store_unsaved_cb ts s) as [_ [Hroot Hfile]].
  rewrite Hrun in Hroot, Hfile. simpl in Hroot, Hfile.
  pose proof Hw as (_ & _ & _ & _ & _ & _ & Hfp). rewrite Hfp in Hroot, Hfile.
  split; [|apply Hroot; by intros q [= <-]].
  destruct (untouched (buffer s)) eqn:Hu.
  - destruct (tick_untouched ts name s Hw Hu) as (s1 & Hrun1 & Hrest).
    rewrite Hrun in Hrun1. injection Hrun1 as <-.
    destruct Hrest as (_ & _ & _ & _ & _ & ->). done.
  - destruct (tick_touched ts name s Hw Hu (own_session_storable _ _ _ Hown))
      as (s1 & Hrun1 & Hrest).
    rewrite Hrun in Hrun1. injection Hrun1 as <-.
    destruct Hrest as (_ & _ & _ & _ & _ & _ & Hat).
    right. exists (text (buffer s)).
    unfold file_at, session_files in Hat, Hfile. unfold root_entry.
    destruct (fs (the_host s')) as [root'|]; [|done].
    destruct (root' !! ts) as [[files'|]|] eqn:Hts; try done.
    f_equal. f_equal. apply map_eq. intros name'.
    destruct (decide (name' = name)) as [->|Hne].
    + by rewrite lookup_singleton_eq.
    + rewrite lookup_singleton_ne by done.
      specialize (Hfile ts name'). rewrite Hts in Hfile. rewrite Hfile.
      * by apply (own_session_other_file ts name).
      * congruence.
Qed.

Lemma run_own_session ts name i evs :
  ∀ s,
    Watching ts name s →
    Scheduled s i →
    own_session ts name (fs (the_host s)) →
    forallb (edit_or_tick i) evs = true →
    let s' := run ts evs s in
    obj s' = obj s ∧ saved_handlers (buffer s') = saved_handlers (buffer s) ∧
    sources (the_host s') = sources (the_host s) ∧
    stderr (the_host s') = stderr (the_host s) ∧
    own_session ts name (fs (the_host s')) ∧
    ∀ ts', ts' ≠ ts →
      root_entry (fs (the_host s')) ts' = root_entry (fs (the_host s)) ts'.
Proof.
  induction evs as [|ev evs IH]; intros s Hw Hs Hown Hevs; [done|].
  simpl in Hevs. apply andb_prop in Hevs as [Hev Hevs].
  rewrite run_cons. cbv zeta.
  destruct ev as [new_text still|j| | |]; try discriminate.
  - change (step ts (Edit new_text still) s)
      with (set_buffer (edit_buffer new_text still (buffer s)) s).
    set (s1 := set_buffer (edit_buffer new_text still (buffer s)) s).
    destruct (IH s1) as (Ho & Hh & Hsrc & Herr & Hown' & Hroot);
      [by eapply watching_transfer | by eapply scheduled_transfer
      | done | done |].
    done.
  - simpl in Hev. apply Nat.eqb_eq in Hev as <-.
    assert (∃ s1, store_unsaved_cb ts s = (s1, Ret true) ∧
                  obj s1 = obj s ∧ buffer s1 = buffer s ∧ self s1 = self s ∧
                  sources (the_host s1) = sources (the_host s) ∧
                  stderr (the_host s1) = stderr (the_host s))
      as (s1 & Hrun & Ho & Hb & Hme & Hsrc & Herr).
    { destruct (untouched (buffer s)) eqn:Hu.
      - destruct (tick_untouched ts name s Hw Hu)
          as (s1 & ? & ? & ? & ? & ? & ? & ?).
        by exists s1.
      - destruct (tick_touched ts name s Hw Hu
                    (own_session_storable _ _ _ Hown))
          as (s1 & ? & ? & ? & ? & ? & ? & ?).
        by exists s1. }
    destruct (tick_own_session ts name s s1 Hw Hown Hrun) as [Hown1 Hroot1].
    rewrite (step_tick_returns_true ts s i s1 Hs Hrun).
    destruct (IH s1) as (Ho' & Hh' & Hsrc' & Herr' & Hown' & Hroot').
    + by eapply watching_transfer.
    + by eapply scheduled_transfer.
    + done.
    + done.
    + rewrite Ho', Hh', Hsrc', Herr', Ho, Hb, Hsrc, Herr.
      repeat split; try done.
      intros ts' Hne. rewrite Hroot' by done. by apply Hroot1.
Qed.

Lemma run_snoc ts evs ev s :
  run ts (evs ++ [ev]) s = step ts ev (run ts evs s).
Proof. unfold run. by rewrite foldl_app. Qed.

(** X8: the save of the document leaves nothing of the watch behind.  For a
    watcher that is Watching and whose session directory did not exist yet,
    after any edits and timeouts followed by the 'saved' signal, every entry
    of the store root is what it was before the first timeout (the session
    directory is gone again, with the temporary file), the timeout source is
    removed and the watcher has left Watching.  This holds too when no
    timeout ever wrote the file, where the delete fails and nothing was
    there to remove. *)
Theorem save_leaves_nothing_behind ts name s i hid evs new_name :
  Watching ts name s →
  Scheduled s i →
  sig_saved (obj s) = Some hid →
  saved_handlers (buffer s) = {[ hid ]} →
  root_entry (fs (the_host s)) ts = None →
  forallb (edit_or_tick i) evs = true →
  let s' := run ts (evs ++ [Saved new_name]) s in
  watch_state (obj s') = false ∧
  sources (the_host s') = delete i (sources (the_host s)) ∧
  ∀ ts', root_entry (fs (the_host s')) ts' = root_entry (fs (the_host s)) ts'.
Proof.
  intros Hw Hs Hh Hhs Hnone Hevs.
  destruct (run_own_session ts name i evs s Hw Hs)
    as (Ho & Hhs1 & Hsrc & _ & Hown & Hroot); [by left | done |].
  set (s1 := run ts evs s) in *.
  assert (Watching ts name s1) as Hw1 by by eapply watching_transfer.
  destruct Hs as [Hi _].
  destruct (saved_watching ts name s1 new_name i hid Hw1)
    as (Hws & Hsrc2 & _ & Hres); [congruence..|].
  rewrite run_snoc. fold s1. cbv zeta.
  split; [done|]. split; [congruence|]. intros ts'.
  assert (root_entry (fs (the_host (step ts (Saved new_name) s1))) ts'
          = if decide (ts' = ts) then None
            else root_entry (fs (the_host s1)) ts') as ->.
  { destruct Hown as [Hts|[t Hts]].
    - assert (file_at (fs (the_host s1)) ts name = None) as Hat.
      { unfold file_at, session_files. unfold root_entry in Hts.
        destruct (fs (the_host s1)) as [root|]; [|done]. by rewrite Hts. }
      rewrite Hat in Hres. destruct Hres as [_ ->].
      destruct (decide (ts' = ts)) as [->|]; done.
    - assert (file_at (fs (the_host s1)) ts name = Some (File t)) as Hat.
      { unfold file_at, session_files. unfold root_entry in Hts.
        destruct (fs (the_host s1)) as [root|]; [|done]. rewrite Hts.
        by rewrite lookup_singleton_eq. }
      rewrite Hat in Hres. destruct Hres as [_ ->].
      destruct (without_temp_file_entry _ ts name _ t Hts) as [H1 H2];
        [by rewrite lookup_singleton_eq|].
      destruct (decide (ts' = ts)) as [->|Hne]; [|by apply H2].
      rewrite H1, delete_singleton_eq. by rewrite bool_decide_eq_true_2. }
  destruct (decide (ts' = ts)) as [->|Hne]; [done | by apply Hroot].
Qed.

Lemma save_leaves_nothing_behind_witness :
  let s' := run Sample.session
              [Edit "a" false; Tick 1; Edit "ab" false; Tick 1;
               Saved "notes.txt"]
              Sample.watched in
  root_entry (fs (the_host s')) Sample.session = None.
Proof.
  destruct (save_leaves_nothing_behind Sample.session Sample.doc_name
              Sample.watched 1 1
              [Edit "a" false; Tick 1; Edit "ab" false; Tick 1] "notes.txt")
    as (_ & _ & Hroot).
  - apply watching_by_check. vm_compute. reflexivity.
  - split; [vm_compute; reflexivity|]. exists 600%N. vm_compute. reflexivity.
  - vm_compute. reflexivity.
  - vm_compute. reflexivity.
  - vm_compute. reflexivity.
  - vm_compute. reflexivity.
  - cbv zeta. simpl app in Hroot. rewrite Hroot. vm_compute. reflexivity.
Defined.

(** ** A watcher that has stopped *)

#[global] Instance same_self_preorder : PreOrder same_self.
Proof.
  split.
  - intros s. reflexivity.
  - intros s1 s2 s3 H12 H23. unfold same_self in *. congruence.
Qed.

Lemma same_self_in_host {A} (m : M host A) : Keeps same_self (in_host m).
Proof.
  intros s. unfold in_host, zoom, same_self. by destruct (m (the_host s)).
Qed.

Lemma same_self_getattr {A} (f : watcher → option A) :
  Keeps same_self (getattr f).
Proof. intros s. unfold getattr, same_self. by destruct (f (obj s)). Qed.

Lemma same_self_setattr f : Keeps same_self (setattr f).
Proof. intros s. reflexivity. Qed.

Lemma same_self_get_document : Keeps same_self get_document.
Proof.
  intros s. unfold get_document, same_self. by destruct (has_document (obj s)).
Qed.

Lemma same_self_connect_saved : Keeps same_self connect_saved.
Proof. intros s. reflexivity. Qed.

Lemma same_self_disconnect i : Keeps same_self (disconnect i).
Proof. intros s. reflexivity. Qed.

Ltac same_self :=
  repeat keeps_step;
  try (apply (keeps_gets same_self));
  auto using same_self_in_host, same_self_getattr, same_self_setattr,
    same_self_get_document, same_self_connect_saved, same_self_disconnect.

Lemma same_self_view_log l format args :
  Keeps same_self (view_log l format args).
Proof. unfold view_log, get_name. same_self. Qed.

Lemma same_self_on_saved ts : Keeps same_self (on_saved ts).
Proof.
  unfold on_saved, watch_stop, cleanup_temp_file, clear_schedule,
    unhook_signals, is_watching, info, debug.
  same_self; apply same_self_view_log.
Qed.

Lemma same_self_do_deactivate : Keeps same_self do_deactivate.
Proof.
  unfold do_deactivate, is_enabled, watch_stop, clear_schedule,
    unhook_signals, is_watching, warning, debug.
  same_self; apply same_self_view_log.
Qed.

(** After the 'saved' signal a watcher that was Watching, on a buffer with
    no other handler and a host with no other source of its own, is idle. *)
Lemma saved_idle ts name s new_name i hid :
  Watching ts name s →
  save_timer_id (obj s) = Some i →
  sig_saved (obj s) = Some hid →
  saved_handlers (buffer s) = {[ hid ]} →
  (∀ j owner seconds,
     sources (the_host s) !! j = Some (owner, seconds) →
     owner = self s → j = i) →
  Idle (step ts (Saved new_name) s).
Proof.
  intros Hw Hi Hh Hhs Hown.
  set (s1 := set_buffer (name_buffer new_name (buffer s)) s).
  assert (Watching ts name s1) as Hw1 by by eapply watching_transfer.
  destruct (watch_stop_watching ts name s1 i hid Hw1 Hi Hh)
    as (s2 & Hstop & Hws & _ & _ & Hdoc & Hpath & Hen & Hsrc & Hhs2 & _).
  pose proof Hw as (Hwatching & _ & Hon & _ & _ & _ & Hfp).
  simpl in Hpath, Hen, Hsrc, Hhs2. rewrite Hfp in Hpath.
  destruct (cleanup_temp_file_result ts s2 _ Hdoc Hpath)
    as (s3 & o & Hrun & Ho & Hb & Hsrc' & _).
  assert (on_saved ts s1 = (s3, o)) as Hsaved.
  { unfold on_saved, is_watching.
    erewrite bind_ret_eq; [|reflexivity]. simpl. rewrite Hwatching.
    erewrite bind_ret_eq; [|exact Hstop]. exact Hrun. }
  assert (self s3 = self s) as Hself.
  { pose proof (same_self_on_saved ts s1) as H. unfold same_self in H.
    by rewrite Hsaved in H. }
  unfold step. fold s1. simpl. rewrite Hhs, elements_singleton. simpl.
  unfold dispatch. rewrite Hsaved.
  assert (Idle s3) as Hidle.
  { unfold Idle. rewrite Ho, Hb, Hsrc', Hws, Hdoc, Hen, Hon, Hhs2, Hsrc, Hhs.
    split; [done|]. split; [done|]. split; [by eexists|].
    split; [by rewrite difference_diag_L|].
    intros j owner seconds [Hne Hj]%lookup_delete_Some Hme.
    apply Hne. symmetry. eapply Hown; [done|]. by rewrite Hme, Hself. }
  destruct o as [[]|e]; [done|].
  destruct Hidle as (? & ? & ? & ? & ?). by repeat split.
Qed.

(** X9: the 'saved' signal ends the watch for good.  Once it was delivered
    to a watcher that was Watching, whether the delete of the temporary
    file succeeded or not, no later event makes the view do anything:
    after any further edits, timeouts, 'saved' signals, deactivations and
    settings changes the store is what the 'saved' handler left, the
    timeout source stays removed, nothing more is logged and no callback
    raises. *)
Theorem saved_view_is_done ts name s new_name i hid evs :
  Watching ts name s →
  save_timer_id (obj s) = Some i →
  sig_saved (obj s) = Some hid →
  saved_handlers (buffer s) = {[ hid ]} →
  (∀ j owner seconds,
     sources (the_host s) !! j = Some (owner, seconds) →
     owner = self s → j = i) →
  let s1 := step ts (Saved new_name) s in
  let s2 := run ts evs s1 in
  watch_state (obj s2) = false ∧
  fs (the_host s2) = fs (the_host s1) ∧
  sources (the_host s2) = delete i (sources (the_host s)) ∧
  stderr (the_host s2) = stderr (the_host s1) ∧
  log (the_host s2) = log (the_host s1).
Proof.
  intros Hw Hi Hh Hhs Hown s1 s2.
  pose proof (saved_idle ts name s new_name i hid Hw Hi Hh Hhs Hown) as Hidle.
  destruct (saved_watching ts name s new_name i hid Hw Hi Hh Hhs)
    as (_ & Hsrc & _).
  destruct (run_idle ts evs _ Hidle)
    as ((Hws & _) & _ & _ & Hfs & Hsrc' & _ & Herr & _ & Hlog).
  fold s1 in Hsrc, Hws, Hfs, Hsrc', Herr, Hlog.
  fold s2 in Hws, Hfs, Hsrc', Herr, Hlog.
  rewrite <- Hsrc. done.
Qed.

Lemma sample_stored_sources :
  sources (the_host Sample.stored) = {[ 1 := (0, 600%N) ]}.
Proof. vm_compute. reflexivity. Qed.

Lemma saved_view_is_done_witness :
  let s1 := step Sample.session (Saved "notes.txt") Sample.stored in
  let s2 := run Sample.session
              [Edit "more" false; Tick 1; Saved "again.txt"; Deactivate] s1 in
  fs (the_host s2) = fs (the_host s1) ∧
  stderr (the_host s2) = stderr (the_host s1).
Proof.
  destruct (saved_view_is_done Sample.session Sample.doc_name Sample.stored
              "notes.txt" 1 1
              [Edit "more" false; Tick 1; Saved "again.txt"; Deactivate])
    as (_ & Hfs & _ & Herr & _).
  - apply watching_by_check. vm_compute. reflexivity.
  - vm_compute. reflexivity.
  - vm_compute. reflexivity.
  - vm_compute. reflexivity.
  - intros j owner seconds H _. rewrite sample_stored_sources in H.
    by apply lookup_singleton_Some in H as [<- _].
  - split; [exact Hfs | exact Herr].
Defined.

Lemma deactivated_idle ts name s i hid :
  Watching ts name s →
  save_timer_id (obj s) = Some i →
  sig_saved (obj s) = Some hid →
  saved_handlers (buffer s) = {[ hid ]} →
  (∀ j owner seconds,
     sources (the_host s) !! j = Some (owner, seconds) →
     owner = self s → j = i) →
  let s1 := step ts Deactivate s in
  Idle s1 ∧ fs (the_host s1) = fs (the_host s) ∧
  sources (the_host s1) = delete i (sources (the_host s)) ∧
  stderr (the_host s1) = stderr (the_host s).
Proof.
  intros Hw Hi Hh Hhs Hown.
  destruct (watch_stop_watching ts name s i hid Hw Hi Hh)
    as (s2 & Hstop & Hws & _ & _ & Hdoc & _ & Hen & Hsrc & Hhs2 & _ & Hfs
        & Herr).
  pose proof Hw as (_ & _ & Hon & _).
  assert (do_deactivate s = (s2, Ret tt)) as Hrun.
  { unfold do_deactivate.
    erewrite bind_ret_eq; [|by apply is_enabled_cached]. exact Hstop. }
  assert (self s2 = self s) as Hself.
  { pose proof (same_self_do_deactivate s) as H. unfold same_self in H.
    by rewrite Hrun in H. }
  simpl. unfold dispatch. rewrite Hrun.
  split; [|done]. unfold Idle. rewrite Hen, Hon, Hhs2, Hsrc, Hhs.
  split; [done|]. split; [done|]. split; [by eexists|].
  split; [by rewrite difference_diag_L|].
  intros j owner seconds [Hne Hj]%lookup_delete_Some Hme.
  apply Hne. symmetry. eapply Hown; [done|]. by rewrite Hme, Hself.
Qed.

(** X10: a deactivated view leaves its temporary file for good.  After
    [do_deactivate] on a watcher that was Watching, whatever happens to the
    view later, a 'saved' signal included (its handler is disconnected),
    the store is exactly what it was at the deactivation and no callback
    raises: the file is never deleted by the view that wrote it. *)
Theorem deactivated_view_is_done ts name s i hid evs :
  Watching ts name s →
  save_timer_id (obj s) = Some i →
  sig_saved (obj s) = Some hid →
  saved_handlers (buffer s) = {[ hid ]} →
  (∀ j owner seconds,
     sources (the_host s) !! j = Some (owner, seconds) →
     owner = self s → j = i) →
  let s' := run ts (Deactivate :: evs) s in
  watch_state (obj s') = false ∧
  fs (the_host s') = fs (the_host s) ∧
  sources (the_host s') = delete i (sources (the_host s)) ∧
  stderr (the_host s') = stderr (the_host s).
Proof.
  intros Hw Hi Hh Hhs Hown.
  destruct (deactivated_idle ts name s i hid Hw Hi Hh Hhs Hown)
    as (Hidle & Hfs & Hsrc & Herr).
  destruct (run_idle ts evs _ Hidle)
    as ((Hws & _) & _ & _ & Hfs' & Hsrc' & _ & Herr' & _).
  rewrite run_cons. cbv zeta. rewrite Hfs', Hsrc', Herr'. done.
Qed.

Lemma deactivated_view_is_done_witness :
  let s' := run Sample.session
              [Deactivate; Edit "more" false; Tick 1; Saved "notes.txt"]
              Sample.stored in
  file_at (fs (the_host s')) Sample.session Sample.doc_name
  = Some (File "first draft").
Proof.
  destruct (deactivated_view_is_done Sample.session Sample.doc_name
              Sample.stored 1 1 [Edit "more" false; Tick 1; Saved "notes.txt"])
    as (_ & Hfs & _).
  - apply watching_by_check. vm_compute. reflexivity.
  - vm_compute. reflexivity.
  - vm_compute. reflexivity.
  - vm_compute. reflexivity.
  - intros j owner seconds H _. rewrite sample_stored_sources in H.
    by apply lookup_singleton_Some in H as [<- _].
  - cbv zeta. rewrite Hfs. vm_compute. reflexivity.
Defined.

(** ** The log of a view *)

Lemma step_logs_no_error ts ev s :
  error_records (log (the_host (step ts ev s)))
  = error_records (log (the_host s)).
Proof.
  destruct ev as [new_text still|i|name| |g]; simpl.
  - done.
  - destruct (sources (the_host s) !! i) as [[owner seconds]|]; [|done].
    case_bool_decide; [|done].
    pose proof (store_unsaved_cb_logs_no_error ts s) as Hrun.
    unfold dispatch_timeout.
    destruct (store_unsaved_cb ts s) as [s' [[]|e]]; exact Hrun.
  - generalize (elements (saved_handlers (buffer s))) as l. intros l.
    change (error_records (log (the_host s))) with
      (error_records
         (log (the_host (set_buffer (name_buffer name (buffer s)) s)))).
    generalize (set_buffer (name_buffer name (buffer s)) s) as s1.
    intros s1. induction l as [|hid l IH]; simpl; [done|].
    rewrite <- IH.
    match goal with |- context [dispatch _ ?s2] => generalize s2 end.
    intros s2. pose proof (on_saved_logs_no_error ts s2) as Hrun.
    unfold dispatch. destruct (on_saved ts s2) as [s' [[]|e]]; exact Hrun.
  - pose proof (do_deactivate_logs_no_error s) as Hrun.
    unfold dispatch. destruct (do_deactivate s) as [s' [[]|e]]; exact Hrun.
  - done.
Qed.

(** X11: a view never logs at error level.  From its activation on, through
    any edits, timeouts, 'saved' signals, deactivations and settings
    changes, also when a callback raises, the records at error level in the
    log are those that were there before: the [__error] helper is never
    called. *)
Theorem view_never_logs_an_error ts h v d evs :
  error_records
    (log (the_host (run ts evs (activate ts (new_view h v d)))))
  = error_records (log h).
Proof.
  assert (∀ s, error_records (log (the_host (run ts evs s)))
               = error_records (log (the_host s))) as Hrun.
  { induction evs as [|ev evs IH]; intros s; [done|].
    rewrite run_cons, IH. apply step_logs_no_error. }
  rewrite Hrun.
  pose proof (do_activate_logs_no_error ts (new_view h v d)) as Hact.
  unfold activate, dispatch.
  destruct (do_activate ts (new_view h v d)) as [s' [[]|e]]; exact Hact.
Qed.

(** ** More on the sweep *)

#[global] Instance elsewhere_preorder ts : PreOrder (elsewhere ts).
Proof.
  split.
  - by intros h ts'.
  - intros h1 h2 h3 H12 H23 ts' Hne. rewrite H23 by done. by apply H12.
Qed.

Lemma elsewhere_fs_untouched ts {A} (m : M host A) :
  (∀ h, fs (m h).1 = fs h) → Keeps (elsewhere ts) m.
Proof. intros H h ts' _. by rewrite H. Qed.

Lemma unlink_elsewhere st ts name st' ts' :
  unlink st ts name = inr st' → ts' ≠ ts →
  root_entry st' ts' = root_entry st ts'.
Proof.
  unfold unlink, session_files, root_entry. intros H Hne.
  destruct st as [root|]; [|done].
  destruct (root !! ts) as [[files|]|]; try done.
  destruct (files !! name) as [[t|]|]; try done;
    injection H as <-; by rewrite lookup_insert_ne.
Qed.

Lemma rmdir_elsewhere st ts st' ts' :
  rmdir st ts = inr st' → ts' ≠ ts →
  root_entry st' ts' = root_entry st ts'.
Proof.
  unfold rmdir, session_files, root_entry. intros H Hne.
  destruct st as [root|]; [|done].
  destruct (root !! ts) as [[files|]|]; try done.
  case_bool_decide; [|done]. injection H as <-.
  by rewrite lookup_delete_ne.
Qed.

Lemma elsewhere_unlink ts name :
  Keeps (elsewhere ts) (fs_update (fun st => unlink st ts name)).
Proof.
  intros h ts' Hne. unfold fs_update.
  destruct (unlink (fs h) ts name) as [e|st'] eqn:Hrun; [done|].
  simpl. by eapply unlink_elsewhere.
Qed.

Lemma elsewhere_rmdir ts :
  Keeps (elsewhere ts) (fs_update (fun st => rmdir st ts)).
Proof.
  intros h ts' Hne. unfold fs_update.
  destruct (rmdir (fs h) ts) as [e|st'] eqn:Hrun; [done|].
  simpl. by eapply rmdir_elsewhere.
Qed.

Lemma elsewhere_fs_query ts {A} (f : store → exn + A) :
  Keeps (elsewhere ts) (fs_query f).
Proof.
  apply elsewhere_fs_untouched. intros h. unfold fs_query.
  by destruct (f (fs h)).
Qed.

Lemma elsewhere_unlink_each ts filenames :
  Keeps (elsewhere ts) (unlink_each ts filenames).
Proof.
  induction filenames as [|filename rest IH]; simpl; repeat keeps_step;
    auto using elsewhere_unlink.
  by apply elsewhere_fs_untouched.
Qed.

#[global] Instance same_clock_preorder : PreOrder same_clock.
Proof.
  split.
  - intros h. reflexivity.
  - intros h1 h2 h3 H12 H23. unfold same_clock in *. congruence.
Qed.

Lemma same_clock_untouched {A} (m : M host A) :
  (∀ h, clock_reads (m h).1 = clock_reads h) → Keeps same_clock m.
Proof. intros H h. apply H. Qed.

Lemma same_clock_fs_update f : Keeps same_clock (fs_update f).
Proof.
  apply same_clock_untouched. intros h. unfold fs_update.
  by destruct (f (fs h)).
Qed.

Lemma same_clock_fs_query {A} (f : store → exn + A) :
  Keeps same_clock (fs_query f).
Proof.
  apply same_clock_untouched. intros h. unfold fs_query.
  by destruct (f (fs h)).
Qed.

Lemma same_clock_unlink_each ts filenames :
  Keeps same_clock (unlink_each ts filenames).
Proof.
  induction filenames as [|filename rest IH]; simpl; repeat keeps_step;
    auto using same_clock_fs_update.
  by apply same_clock_untouched.
Qed.

Lemma cleanup_each_app strptime datetime_now l1 l2 h :
  cleanup_each strptime datetime_now (l1 ++ l2)%list h
  = match cleanup_each strptime datetime_now l1 h with
    | (h1, Ret _) => cleanup_each strptime datetime_now l2 h1
    | (h1, Raise e) => (h1, Raise e)
    end.
Proof.
  revert h. induction l1 as [|ts l1 IH]; intros h.
  { simpl. by destruct (cleanup_each _ _ _ _) as [h1 [[]|e]]. }
  simpl. unfold mbind, py_bind, bind.
  destruct (cleanup_subdir strptime datetime_now ts h) as [h1 [[]|e]]; [|done].
  apply IH.
Qed.

Section SweepFrame.

Variable strptime : string → option Z.
Variable datetime_now : nat → Z.

(** X12: the sweep only removes.  Whatever the store root holds, and
    whether the sweep returns or raises, every directory and file of the
    store afterwards was there before with the same contents; the timeout
    sources and the settings are not touched. *)
Theorem sweep_only_removes start_timestamp h :
  let h' := (do_cleanup strptime datetime_now start_timestamp h).1 in
  nothing_written (fs h) (fs h') ∧
  sources h' = sources h ∧
  gedit_settings h' = gedit_settings h.
Proof.
  destruct (swept_do_cleanup strptime datetime_now start_timestamp h)
    as (Hg & Hs & Hfs).
  done.
Qed.

(** One round of the loop touches its own directory only, and nothing when
    the directory is too recent at the clock reading made for it. *)
Lemma cleanup_subdir_frame ts h :
  let h' := (cleanup_subdir strptime datetime_now ts h).1 in
  elsewhere ts h h' ∧
  (too_recent strptime datetime_now (clock_reads h) ts = true →
   fs h' = fs h).
Proof.
  unfold cleanup_subdir, parse_timestamp, too_recent.
  destruct (strptime ts) as [dt|]; [|by split].
  erewrite bind_ret_eq; [|reflexivity].
  erewrite bind_ret_eq; [|reflexivity].
  destruct (total_seconds_lt _ _); [by split|].
  split; [|done].
  match goal with |- elsewhere _ _ (?m ?h1).1 =>
    transitivity h1; [by intros ts'|];
    assert (Keeps (elsewhere ts) m) as Hk; [|apply Hk]
  end.
  repeat keeps_step;
    auto using elsewhere_unlink_each, elsewhere_rmdir, elsewhere_fs_query;
    by apply elsewhere_fs_untouched.
Qed.

Lemma cleanup_each_spares ts :
  (∀ k, too_recent strptime datetime_now k ts = true) →
  ∀ names h,
    root_entry (fs (cleanup_each strptime datetime_now names h).1) ts
    = root_entry (fs h) ts.
Proof.
  intros Hrecent. induction names as [|ts0 rest IH]; intros h; [done|].
  simpl. destruct (cleanup_subdir_frame ts0 h) as [Hother Hsame].
  unfold mbind, py_bind, bind.
  destruct (cleanup_subdir strptime datetime_now ts0 h) as [h1 [[]|e]] eqn:Hrun;
    simpl in *.
  - rewrite IH. destruct (decide (ts = ts0)) as [->|Hne].
    + by rewrite Hsame.
    + by apply Hother.
  - destruct (decide (ts = ts0)) as [->|Hne].
    + by rewrite Hsame.
    + by apply Hother.
Qed.

(** X13: the sweep never touches a recent session.  An entry of the store
    root whose name reads as a timestamp less than [_MAX_STORED_AGE_S]
    before every reading of the clock is after the sweep exactly what it
    was, whatever else the root holds and even when the sweep ends by
    raising on another entry. *)
Theorem sweep_spares_recent_sessions start_timestamp h ts :
  (∀ k, too_recent strptime datetime_now k ts = true) →
  root_entry (fs (do_cleanup strptime datetime_now start_timestamp h).1) ts
  = root_entry (fs h) ts.
Proof.
  intros Hrecent. unfold do_cleanup.
  erewrite bind_ret_eq; [|reflexivity].
  destruct (fs h) as [root|] eqn:Hfs.
  - erewrite bind_ret_eq; cycle 1.
    { unfold try_except, fs_query, listdir_root. py_run. rewrite Hfs.
      reflexivity. }
    cbv beta iota. erewrite bind_ret_eq; [|reflexivity].
    rewrite cleanup_each_spares by done. simpl. by rewrite Hfs.
  - erewrite bind_ret_eq; cycle 1.
    { unfold try_except, fs_query, listdir_root, app_log. py_run. rewrite Hfs.
      reflexivity. }
    simpl. by rewrite Hfs.
Qed.

Lemma cleanup_subdir_clock ts h h' :
  cleanup_subdir strptime datetime_now ts h = (h', Ret tt) →
  clock_reads h' = S (clock_reads h).
Proof.
  unfold cleanup_subdir, parse_timestamp.
  destruct (strptime ts) as [dt|]; [|done].
  erewrite bind_ret_eq; [|reflexivity].
  erewrite bind_ret_eq; [|reflexivity].
  intros Hrun.
  match type of Hrun with ?m ?h1 = _ =>
    assert (Keeps same_clock m) as Hk
  end.
  { repeat keeps_step;
      auto using same_clock_unlink_each, same_clock_fs_update,
        same_clock_fs_query;
      by apply same_clock_untouched. }
  match type of Hrun with ?m ?h1 = _ => specialize (Hk h1) end.
  rewrite Hrun in Hk. exact Hk.
Qed.

Lemma cleanup_each_clock names :
  ∀ h h',
    cleanup_each strptime datetime_now names h = (h', Ret tt) →
    clock_reads h' = clock_reads h + length names.
Proof.
  induction names as [|ts rest IH]; intros h h' Hrun; simpl in *.
  - injection Hrun as <-. lia.
  - unfold mbind, py_bind, bind in Hrun.
    destruct (cleanup_subdir strptime datetime_now ts h) as [h1 [[]|e]] eqn:H1;
      [|done].
    apply cleanup_subdir_clock in H1. apply IH in Hrun. lia.
Qed.

(** The sweep up to the first entry it cannot handle: the entries [pre]
    that sort before it are treated as usual, then the round on [bad]
    raises, and the loop ends there. *)
Lemma sweep_prefix start_timestamp h root pre bad post :
  fs h = Some root →
  sorted (map fst (map_to_list root)) = (pre ++ bad :: post)%list →
  (∀ ts, ts ∈ pre →
         ∃ e, root !! ts = Some e ∧ dated_session strptime ts e) →
  ∃ h1 root1,
    fs h1 = Some root1 ∧
    clock_reads h1 = (clock_reads h + length pre)%nat ∧
    (∀ ts, ts ∉ pre → root1 !! ts = root !! ts) ∧
    (∀ k ts, pre !! k = Some ts →
             root1 !! ts
             = if too_recent strptime datetime_now (clock_reads h + k) ts
               then root !! ts else None) ∧
    (bad ∉ pre) ∧
    (∀ h2 e,
       cleanup_subdir strptime datetime_now bad h1 = (h2, Raise e) →
       do_cleanup strptime datetime_now start_timestamp h = (h2, Raise e)).
Proof.
  intros Hfs Hsorted Hpre.
  assert (NoDup (pre ++ bad :: post)) as Hnodup.
  { rewrite <- Hsorted, sorted_perm. apply NoDup_fst_map_to_list. }
  apply NoDup_app in Hnodup as (Hnodup & Hdisj & _).
  destruct h as [st g reads srcs next_src records out err clk].
  simpl in Hfs. subst st.
  unfold do_cleanup.
  erewrite bind_ret_eq; [|reflexivity].
  erewrite bind_ret_eq; [|unfold listdir_root; py_run; reflexivity].
  cbv beta iota.
  erewrite bind_ret_eq; [|reflexivity].
  rewrite Hsorted.
  match goal with |- context [cleanup_each _ _ _ ?h0] =>
    destruct (cleanup_each_result strptime datetime_now pre h0 root)
      as (h1 & root1 & Hrun & Hfs1 & Herr1 & Hout & Hin); [done..|]
  end.
  exists h1, root1. split; [done|].
  split; [by apply cleanup_each_clock in Hrun|].
  split; [done|]. split; [done|]. split.
  { intros Hbad. eapply Hdisj; [done|]. by left. }
  intros h2 e Hbad.
  rewrite cleanup_each_app, Hrun. simpl.
  unfold mbind, py_bind, bind. by rewrite Hbad.
Qed.

(** X14: an entry of the store root whose name does not read as a timestamp
    stops the sweep.  With the names of the root in sorted order, the
    session directories before the first such name are swept as usual, then
    [strptime] fails on it and the sweep, hence [do_activate] of the
    application extension, ends by raising [ValueError]: that entry and
    every entry that sorts after it is left as it was, old sessions
    included. *)
Theorem sweep_stops_at_unreadable_name start_timestamp h root pre bad post :
  fs h = Some root →
  sorted (map fst (map_to_list root)) = (pre ++ bad :: post)%list →
  (∀ ts, ts ∈ pre →
         ∃ e, root !! ts = Some e ∧ dated_session strptime ts e) →
  strptime bad = None →
  ∃ h' root',
    do_cleanup strptime datetime_now start_timestamp h
    = (h', Raise ValueError) ∧
    fs h' = Some root' ∧
    (∀ ts, ts ∉ pre → root' !! ts = root !! ts) ∧
    (∀ k ts, pre !! k = Some ts →
             root' !! ts
             = if too_recent strptime datetime_now (clock_reads h + k) ts
               then root !! ts else None).
Proof.
  intros Hfs Hsorted Hpre Hbad.
  destruct (sweep_prefix start_timestamp h root pre bad post)
    as (h1 & root1 & Hfs1 & _ & Hout & Hin & _ & Hrun); [done..|].
  exists h1, root1. split; [|done].
  apply Hrun. unfold cleanup_subdir, parse_timestamp. by rewrite Hbad.
Qed.

(** The inner loop on a directory that holds something that is not a plain
    file: [unlink] raises on it, and the entries not yet reached stay. *)
Lemma unlink_each_stops ts :
  ∀ filenames h root files,
    fs h = Some root →
    root !! ts = Some (SessionDir files) →
    NoDup filenames →
    (∀ name, name ∈ filenames → is_Some (files !! name)) →
    (∃ name, name ∈ filenames ∧ files !! name = Some Subdir) →
    ∃ h' files',
      unlink_each ts filenames h = (h', Raise OSError) ∧
      fs h' = Some (<[ ts := SessionDir files' ]> root) ∧
      files' ⊆ files.
Proof.
  induction filenames as [|name rest IH];
    intros h root files Hfs Hts Hnodup Hall (bad & Hin & Hbad).
  { by apply elem_of_nil in Hin. }
  apply NoDup_cons in Hnodup as [Hnotin Hnodup].
  destruct (Hall name) as [x Hname]; [by left|].
  simpl. erewrite bind_ret_eq; [|reflexivity].
  destruct x as [t|].
  - (* a file: it is unlinked, and the loop goes on *)
    set (h1 := set_fs (Some (<[ ts := SessionDir (delete name files) ]> root))
                 (app_log INFO "Removing: %s" [AStr name] h).1).
    destruct (IH h1 (<[ ts := SessionDir (delete name files) ]> root)
                 (delete name files)) as (h' & files' & Hrun & Hfs' & Hsub).
    + done.
    + by rewrite lookup_insert_eq.
    + done.
    + intros name' Hin'. rewrite lookup_delete_ne; [apply Hall; by right|].
      by intros ->.
    + exists bad. apply elem_of_cons in Hin as [->|Hin]; [congruence|].
      split; [done|]. rewrite lookup_delete_ne; [done|]. by intros ->.
    + exists h', files'. split; [|split].
      * erewrite bind_ret_eq; [exact Hrun|].
        unfold fs_update, unlink, session_files. simpl.
        rewrite Hfs, Hts, Hname. reflexivity.
      * rewrite Hfs'. by rewrite insert_insert_eq.
      * etransitivity; [exact Hsub | apply delete_subseteq].
  - (* not a file *)
    eexists _, files. split; [|split].
    + unfold mbind, py_bind, bind, fs_update, unlink, session_files. simpl.
      rewrite Hfs, Hts, Hname. reflexivity.
    + simpl. rewrite Hfs. by rewrite insert_id.
    + done.
Qed.

Lemma cleanup_subdir_fails ts h root e :
  fs h = Some root →
  root !! ts = Some e →
  is_Some (strptime ts) →
  too_recent strptime datetime_now (clock_reads h) ts = false →
  ¬ session_directory e →
  ∃ h' e',
    cleanup_subdir strptime datetime_now ts h = (h', Raise OSError) ∧
    fs h' = Some (<[ ts := e' ]> root) ∧ entry_kept e' e.
Proof.
  intros Hfs Hts [dt Hdt] Hold Hbad.
  destruct h as [st g reads srcs next_src records out err clk].
  simpl in *. subst st.
  unfold too_recent in Hold. rewrite Hdt in Hold.
  unfold cleanup_subdir, parse_timestamp. rewrite Hdt.
  erewrite bind_ret_eq; [|reflexivity].
  erewrite bind_ret_eq; [|reflexivity].
  cbn [clock_reads]. rewrite Hold.
  erewrite bind_ret_eq; [|reflexivity].
  destruct e as [files|].
  - erewrite bind_ret_eq; cycle 1.
    { unfold fs_query, listdir, session_files. simpl. rewrite Hts.
      reflexivity. }
    simpl in Hbad. apply map_not_Forall in Hbad; [|apply _].
    destruct Hbad as (bad & x & Hx & Hnot).
    match goal with |- context [(unlink_each ts ?l ≫= _) ?h1] =>
      destruct (unlink_each_stops ts l h1 root files)
        as (h2 & files' & Hrun & Hfs2 & Hsub)
    end.
    + done.
    + done.
    + apply NoDup_fst_map_to_list.
    + intros name [[name' y] [-> Hin]]%list_elem_of_fmap.
      apply elem_of_map_to_list in Hin. by exists y.
    + exists bad. split.
      * apply list_elem_of_fmap. exists (bad, x). split; [done|].
        by apply elem_of_map_to_list.
      * destruct x as [t|]; [by destruct Hnot|done].
    + exists h2, (SessionDir files'). split; [|done].
      unfold mbind, py_bind, bind in *. by rewrite Hrun.
  - eexists _, TopFile. split; [|split].
    + unfold mbind, py_bind, bind, fs_query, listdir, session_files. simpl.
      rewrite Hts. reflexivity.
    + simpl. by rewrite insert_id.
    + done.
Qed.

(** X15: an old entry that is not a directory of plain files stops the
    sweep.  When the first entry, in sorted order, that is not a session
    directory of plain files has a name that reads as a timestamp and is
    not too recent at its clock reading (a plain file in the store root, or
    a session directory that holds a sub-directory), the sweep ends by
    raising [OSError] from [listdir] or [unlink]: that entry is still
    there, holding nothing new, the entries after it are as they were, and
    those before it were swept as usual. *)
Theorem sweep_stops_at_a_non_file start_timestamp h root pre bad post e :
  fs h = Some root →
  sorted (map fst (map_to_list root)) = (pre ++ bad :: post)%list →
  (∀ ts, ts ∈ pre →
         ∃ e, root !! ts = Some e ∧ dated_session strptime ts e) →
  root !! bad = Some e →
  is_Some (strptime bad) →
  ¬ session_directory e →
  too_recent strptime datetime_now (clock_reads h + length pre) bad = false →
  ∃ h' root',
    do_cleanup strptime datetime_now start_timestamp h
    = (h', Raise OSError) ∧
    fs h' = Some root' ∧
    (∃ e', root' !! bad = Some e' ∧ entry_kept e' e) ∧
    (∀ ts, ts ∉ pre → ts ≠ bad → root' !! ts = root !! ts) ∧
    (∀ k ts, pre !! k = Some ts →
             root' !! ts
             = if too_recent strptime datetime_now (clock_reads h + k) ts
               then root !! ts else None).
Proof.
  intros Hfs Hsorted Hpre He Hdated Hbad Hold.
  destruct (sweep_prefix start_timestamp h root pre bad post)
    as (h1 & root1 & Hfs1 & Hclk & Hout & Hin & Hnotin & Hrun); [done..|].
  destruct (cleanup_subdir_fails bad h1 root1 e)
    as (h' & e' & Hfail & Hfs' & Hkept); [done| |done| |done|].
  { by rewrite Hout. }
  { by rewrite Hclk. }
  exists h', (<[ bad := e' ]> root1). split; [by apply Hrun|].
  split; [done|]. split; [|split].
  - exists e'. by rewrite lookup_insert_eq.
  - intros ts Hts Hne. rewrite lookup_insert_ne by done. by apply Hout.
  - intros k ts Hk. rewrite lookup_insert_ne; [by apply Hin|].
    intros <-. apply Hnotin. by eapply list_elem_of_lookup_2.
Qed.

End SweepFrame.

Lemma sweep_spares_recent_sessions_witness :
  root_entry
    (fs (do_cleanup strptime_written Sample.still Sample.session
           (Sample.host_with (Some Sample.cluttered) Sample.autosave_on)).1)
    "20240229-120000"
  = Some (SessionDir {[ "Untitled Document 3" := File "d" ]}).
Proof.
  rewrite (sweep_spares_recent_sessions strptime_written Sample.still
             Sample.session
             (Sample.host_with (Some Sample.cluttered) Sample.autosave_on)
             "20240229-120000").
  - vm_compute. reflexivity.
  - intros k. vm_compute. reflexivity.
Defined.

Lemma sweep_stops_at_unreadable_name_witness :
  ∃ h',
    do_cleanup strptime_written Sample.clock Sample.session
      (Sample.host_with (Some Sample.cluttered) Sample.autosave_on)
    = (h', Raise ValueError) ∧
    fs h' = Some Sample.cluttered.
Proof.
  destruct (sweep_stops_at_unreadable_name strptime_written Sample.clock
              Sample.session
              (Sample.host_with (Some Sample.cluttered) Sample.autosave_on)
              Sample.cluttered [] ".directory"
              ["20240111-120000"; "20240210-120000"; "20240229-120000"])
    as (h' & root' & Hrun & Hfs & Hout & _).
  - reflexivity.
  - vm_compute. reflexivity.
  - intros ts Hin. by apply elem_of_nil in Hin.
  - vm_compute. reflexivity.
  - exists h'. split; [exact Hrun|]. rewrite Hfs. f_equal.
    apply map_eq. intros ts. apply Hout. apply not_elem_of_nil.
Defined.

Lemma sweep_stops_at_a_non_file_witness :
  ∃ h' root',
    do_cleanup strptime_written Sample.clock Sample.session
      (Sample.host_with (Some Sample.nested) Sample.autosave_on)
    = (h', Raise OSError) ∧
    fs h' = Some root' ∧
    is_Some (root' !! "20240111-120000") ∧
    root' !! "20240229-120000" = Sample.nested !! "20240229-120000".
Proof.
  destruct (sweep_stops_at_a_non_file strptime_written Sample.clock
              Sample.session
              (Sample.host_with (Some Sample.nested) Sample.autosave_on)
              Sample.nested [] "20240111-120000" ["20240229-120000"]
              (SessionDir {[ "Untitled Document 1" := File "a";
                             "attachments" := Subdir ]}))
    as (h' & root' & Hrun & Hfs & (e' & He' & _) & Hout & _).
  - reflexivity.
  - vm_compute. reflexivity.
  - intros ts Hin. by apply elem_of_nil in Hin.
  - vm_compute. reflexivity.
  - vm_compute. eauto.
  - intros H. apply (bool_decide_eq_true_2 _) in H. vm_compute in H.
    discriminate.
  - vm_compute. reflexivity.
  - exists h', root'. split; [exact Hrun|]. split; [exact Hfs|].
    split; [by exists e'|]. apply Hout; [apply not_elem_of_nil | done].
Defined.

(** ** The whole process *)

#[global] Instance outside_kept_preorder ts : PreOrder (outside_kept ts).
Proof.
  split.
  - intros st ts' e' _ He'. exists e'. split; [done | apply entry_kept_refl].
  - intros st1 st2 st3 H12 H23 ts' e3 Hne He3.
    destruct (H23 ts' e3 Hne He3) as (e2 & He2 & Hk23).
    destruct (H12 ts' e2 Hne He2) as (e1 & He1 & Hk12).
    exists e1. split; [done|]. by eapply entry_kept_trans.
Qed.

Lemma outside_kept_nothing_written ts st st' :
  nothing_written st st' → outside_kept ts st st'.
Proof.
  intros H ts' e' _ He'. unfold root_entry in *.
  destruct st' as [root'|]; [|done]. simpl in H.
  destruct H as (root & -> & H). by apply H.
Qed.

Lemma outside_kept_same ts st st' :
  (∀ ts', ts' ≠ ts → root_entry st' ts' = root_entry st ts') →
  outside_kept ts st st'.
Proof.
  intros H ts' e' Hne He'. exists e'. rewrite <- H by done.
  split; [done | apply entry_kept_refl].
Qed.

Section ProcessFrame.

Variable strptime : string → option Z.
Variable datetime_now : nat → Z.
Variable start_timestamp : string.

Lemma process_step_in_session ev p :
  paths_in_session start_timestamp p →
  paths_in_session start_timestamp
    (process_step strptime datetime_now start_timestamp ev p) ∧
  outside_kept start_timestamp (fs (shared p))
    (fs (shared (process_step strptime datetime_now start_timestamp ev p))).
Proof.
  intros Hviews. unfold paths_in_session in *.
  destruct ev as [|name is_untitled is_untouched content|v ev]; simpl.
  - pose proof (swept_do_cleanup strptime datetime_now start_timestamp
                  (shared p)) as (_ & _ & Hfs).
    unfold app_do_activate.
    destruct (do_cleanup _ _ _ (shared p)) as [h' [[]|e]]; simpl in *;
      (split; [done | by apply outside_kept_nothing_written]).
  - set (d := Document name is_untitled is_untouched content ∅ 1).
    destruct (activate_in_session start_timestamp (shared p)
                (length (views p)) d) as [Hp Hfs].
    split.
    + apply Forall_app. split; [done|]. apply Forall_singleton. simpl.
      intros q Hq. destruct Hp as [Hp|Hp]; rewrite Hp in Hq; [done|].
      by injection Hq as <-.
    + rewrite Hfs. reflexivity.
  - destruct (views p !! v) as [[d w]|] eqn:Hv; [|by split].
    pose proof (Forall_lookup_1 _ _ _ _ Hviews Hv) as Hw. simpl in Hw.
    destruct (in_session_step start_timestamp ev (Sys (shared p) v d w))
      as [Hpath [Hroot _]].
    simpl in *. split.
    + apply Forall_insert; [done|]. simpl. by rewrite Hpath.
    + apply outside_kept_same. by apply Hroot.
Qed.

(** X16: the plugin writes in its own session directory only.  In a process
    that starts from any store and any settings, through any sequence of
    sweeps, openings of views, edits, timeouts, 'saved' signals,
    deactivations and settings changes, every entry of the store root other
    than the session directory of the process was there at the start, and
    holds nothing that it did not hold then: outside its session directory
    the process creates and changes nothing (the sweep may remove). *)
Theorem process_writes_only_in_its_session st g evs :
  let p := process_run strptime datetime_now start_timestamp evs (boot st g) in
  ∀ ts e',
    ts ≠ start_timestamp →
    root_entry (fs (shared p)) ts = Some e' →
    ∃ e, root_entry st ts = Some e ∧ entry_kept e' e.
Proof.
  assert (∀ p0,
            paths_in_session start_timestamp p0 →
            outside_kept start_timestamp (fs (shared p0))
              (fs (shared (process_run strptime datetime_now start_timestamp
                             evs p0)))) as Hrun.
  { induction evs as [|ev evs IH]; intros p0 Hp0; [reflexivity|].
    destruct (process_step_in_session ev p0 Hp0) as [Hp1 Hfs1].
    etransitivity; [exact Hfs1|]. by apply IH. }
  apply (Hrun (boot st g)). apply Forall_nil_2.
Qed.

End ProcessFrame.

Lemma process_writes_only_in_its_session_witness :
  let p := process_run strptime_written Sample.clock Sample.session
             [AppStart; Open Sample.doc_name true true "";
              At 0 (Edit "abc" false); At 0 (Tick 1)]
             (boot (Some Sample.old_sessions) Sample.autosave_on) in
  file_at (fs (shared p)) Sample.session Sample.doc_name = Some (File "abc") ∧
  ∃ e, Sample.old_sessions !! "20240210-120000" = Some e ∧
       entry_kept (SessionDir {[ "Untitled Document 1" := File "c" ]}) e.
Proof.
  split; [vm_compute; reflexivity|].
  apply (process_writes_only_in_its_session strptime_written Sample.clock
           Sample.session (Some Sample.old_sessions) Sample.autosave_on
           [AppStart; Open Sample.doc_name true true "";
            At 0 (Edit "abc" false); At 0 (Tick 1)]
           "20240210-120000").
  - discriminate.
  - vm_compute. reflexivity.
Defined.
